(** * blackroad-zone-manager: DNS zone manager

    A shallow embedding of [src/main_module.py] and the verification of its
    zone-file exporter and importer, record validator, record insertion and
    provider-sync stub.

    Modelling conventions.
    - A Python [str] is a [string]: a sequence of 8-bit characters.  The
      model covers ASCII text ([ascii_text]): on it the character classes
      of [str.strip], [str.split], [str.isdigit], [str.upper] and [re] are
      those of Python.  Python knows further white space, digits and case
      pairs outside ASCII, which the model does not have; a statement that
      would not hold of the program for such characters assumes
      [ascii_text] of the texts concerned.
    - A Python [int] is a [Z]; [None] is [Datatypes.None] of an [option].
      A conversion between [int] and decimal text raises [ValueError]
      beyond [max_str_digits] digits, as CPython does with the default of
      [sys.get_int_max_str_digits()].
    - Exceptions are values of [exn]; a function that may raise returns a
      [result].  A function that mutates its arguments and may raise returns
      the final state of the mutated objects next to its [result].
    - The SQLite connection is a value [Db] holding the two tables. *)

From Stdlib Require Import ZArith List String Ascii Bool Lia.
From Stdlib Require Import Decimal DecimalString DecimalZ DecimalN DecimalPos.
From Stdlib Require Import Sorting.Sorted Sorting.Permutation.
Import ListNotations.

#[local] Open Scope string_scope.
#[local] Open Scope Z_scope.

(* ------------------------------------------------------------------ *)
(** ** Python string primitives *)
(* ------------------------------------------------------------------ *)

(** Line feed and carriage return. *)
Definition LF : ascii := ascii_of_nat 10.
Definition CR : ascii := ascii_of_nat 13.
Definition NL : string := String LF "".

(** A character of the ASCII range. *)
Definition is_ascii (c : ascii) : bool := (N_of_ascii c <? 128)%N.

(** [c.isspace()] on the ASCII range: TAB, LF, VT, FF, CR, FS, GS, RS, US
    and the space. *)
Definition is_space (c : ascii) : bool :=
  let n := N_of_ascii c in
  ((9 <=? n) && (n <=? 13) || (28 <=? n) && (n <=? 32))%N.

(** [c.isdigit()], and the class [\d] of [re], on the ASCII range: the
    decimal digits. *)
Definition is_digit (c : ascii) : bool :=
  let n := N_of_ascii c in ((48 <=? n) && (n <=? 57))%N.

Definition is_lower (c : ascii) : bool :=
  let n := N_of_ascii c in ((97 <=? n) && (n <=? 122))%N.

Definition is_upper (c : ascii) : bool :=
  let n := N_of_ascii c in ((65 <=? n) && (n <=? 90))%N.

(** [c.upper()] on the ASCII range. *)
Definition upper_char (c : ascii) : ascii :=
  if is_lower c then ascii_of_N (N_of_ascii c - 32) else c.

(** [s.upper()], for ASCII text. *)
Fixpoint upper (s : string) : string :=
  match s with
  | EmptyString => EmptyString
  | String c s' => String (upper_char c) (upper s')
  end.

Fixpoint forallb_str (p : ascii -> bool) (s : string) : bool :=
  match s with
  | EmptyString => true
  | String c s' => p c && forallb_str p s'
  end.

Definition is_empty (s : string) : bool :=
  match s with EmptyString => true | _ => false end.

(** [s.isascii()]: the texts on which the character classes above are
    those of Python. *)
Definition ascii_text (s : string) : bool := forallb_str is_ascii s.

(** [s.isdigit()], for ASCII text: at least one character, and all of them
    digits. *)
Definition isdigit (s : string) : bool :=
  negb (is_empty s) && forallb_str is_digit s.

(** [s.lstrip()] *)
Fixpoint lstrip (s : string) : string :=
  match s with
  | EmptyString => EmptyString
  | String c s' => if is_space c then lstrip s' else s
  end.

(** [s.rstrip()] *)
Fixpoint rstrip (s : string) : string :=
  match s with
  | EmptyString => EmptyString
  | String c s' =>
      let r := rstrip s' in
      if is_space c && is_empty r then EmptyString else String c r
  end.

(** [s.strip()] *)
Definition strip (s : string) : string := rstrip (lstrip s).

(** [s.rstrip(".")]: every trailing dot is removed. *)
Fixpoint rstrip_dots (s : string) : string :=
  match s with
  | EmptyString => EmptyString
  | String c s' =>
      let r := rstrip_dots s' in
      if Ascii.eqb c "." && is_empty r then EmptyString else String c r
  end.

Definition starts_nonspace (s : string) : bool :=
  match s with
  | EmptyString => false
  | String c _ => negb (is_space c)
  end.

(** [s.split()], for ASCII text: the maximal runs of characters that are
    not white space. *)
Fixpoint split_ws (s : string) : list string :=
  match s with
  | EmptyString => []
  | String c s' =>
      if is_space c then split_ws s'
      else if starts_nonspace s' then
        match split_ws s' with
        | t :: ts => String c t :: ts
        | [] => [String c EmptyString]
        end
      else String c EmptyString :: split_ws s'
  end.

(** [sep.join(l)] *)
Definition join (sep : string) (l : list string) : string :=
  String.concat sep l.

(** [s.startswith(p)] *)
Definition startswith (s p : string) : bool := String.prefix p s.

(** [s.endswith("\n")] together with [s[:-1]]: the string without its final
    line feed, when it has one. *)
Fixpoint chop_newline (s : string) : option string :=
  match s with
  | EmptyString => None
  | String c s' =>
      match s' with
      | EmptyString => if Ascii.eqb c LF then Some EmptyString else None
      | _ => option_map (String c) (chop_newline s')
      end
  end.

(** The decimal text of an integer: what [str(n)] and [f"{n}"] give when
    the conversion succeeds. *)
Definition str_of_Z (z : Z) : string :=
  NilEmpty.string_of_int (Z.to_int z).

(** [sys.get_int_max_str_digits()]: the most digits an [int] may have when
    it is converted to or from decimal text. *)
Definition max_str_digits : nat := 4300.

(** The conversion of an integer to text succeeds: it has no more digits
    than the limit. *)
Definition printable (z : Z) : bool :=
  (String.length (str_of_Z (Z.abs z)) <=? max_str_digits)%nat.

(** The [ValueError] of a conversion to text beyond the limit. *)
Definition conversion_error : string :=
  "Exceeds the limit (4300 digits) for integer string conversion; use sys.set_int_max_str_digits() to increase the limit".

(** The number of digits of a literal. *)
Fixpoint count_digits (s : string) : nat :=
  match s with
  | EmptyString => O
  | String c s' => ((if is_digit c then 1 else 0) + count_digits s')%nat
  end.

(** The digits of an integer literal accepted by [int()]: digits, with single
    underscores allowed between two digits.  Returns the digits alone. *)
Fixpoint int_digits (s : string) : option string :=
  match s with
  | EmptyString => None
  | String c s' =>
      if is_digit c then
        match s' with
        | EmptyString => Some (String c EmptyString)
        | String c' s'' =>
            if Ascii.eqb c' "_"
            then option_map (String c) (int_digits s'')
            else option_map (String c) (int_digits s')
        end
      else None
  end.

Definition nat_literal (s : string) : option Z :=
  match int_digits s with
  | Some d => option_map Z.of_uint (NilEmpty.uint_of_string d)
  | None => None
  end.

(** The value of [int(s)] in base 10 for a literal; [None] when [s] is not
    one. *)
Definition py_int (s : string) : option Z :=
  match strip s with
  | String "-" d => option_map Z.opp (nat_literal d)
  | String "+" d => nat_literal d
  | d => nat_literal d
  end.

(** Membership of a string in a tuple or set of strings. *)
Definition str_in (s : string) (l : list string) : bool :=
  existsb (String.eqb s) l.

(** Python's ordering of pairs of strings: the first components by code
    point, then the second ones. *)
Definition key_le (k1 k2 : string * string) : bool :=
  match String.compare (fst k1) (fst k2) with
  | Lt => true
  | Eq => String.leb (snd k1) (snd k2)
  | Gt => false
  end.

(* ------------------------------------------------------------------ *)
(** ** Regular expressions ([re]) *)
(* ------------------------------------------------------------------ *)

Inductive regex : Type :=
| Void : regex
| Eps : regex
| Cls : (ascii -> bool) -> regex
| Cat : regex -> regex -> regex
| Alt : regex -> regex -> regex
| Star : regex -> regex.

Definition Chr (c : ascii) : regex := Cls (Ascii.eqb c).
Definition Opt (r : regex) : regex := Alt r Eps.
Definition Plus (r : regex) : regex := Cat r (Star r).

(** [r{m,n}] written [Rep m (n - m) r]: [m] copies of [r] followed by up to
    [k] more. *)
Fixpoint RepUpTo (k : nat) (r : regex) : regex :=
  match k with
  | O => Eps
  | S k' => Opt (Cat r (RepUpTo k' r))
  end.

Fixpoint Rep (m k : nat) (r : regex) : regex :=
  match m with
  | O => RepUpTo k r
  | S m' => Cat r (Rep m' k r)
  end.

Fixpoint nullable (r : regex) : bool :=
  match r with
  | Void => false
  | Eps => true
  | Cls _ => false
  | Cat a b => nullable a && nullable b
  | Alt a b => nullable a || nullable b
  | Star _ => true
  end.

Fixpoint deriv (c : ascii) (r : regex) : regex :=
  match r with
  | Void => Void
  | Eps => Void
  | Cls p => if p c then Eps else Void
  | Cat a b =>
      if nullable a then Alt (Cat (deriv c a) b) (deriv c b)
      else Cat (deriv c a) b
  | Alt a b => Alt (deriv c a) (deriv c b)
  | Star a => Cat (deriv c a) (Star a)
  end.

(** The whole of [s] is a word of [r]. *)
Fixpoint accepts (r : regex) (s : string) : bool :=
  match s with
  | EmptyString => nullable r
  | String c s' => accepts (deriv c r) s'
  end.

(** [re.compile("^" r "$").match(s)] as a truth value.  [^] anchors the match
    at the start; [$] matches at the end of the string and also just before
    a line feed that is the last character of the string. *)
Definition re_match (r : regex) (s : string) : bool :=
  accepts r s ||
  match chop_newline s with
  | Some s' => accepts r s'
  | None => false
  end.

(* ------------------------------------------------------------------ *)
(** ** Exceptions *)
(* ------------------------------------------------------------------ *)

Inductive exn : Type :=
| ValueError (msg : string)
| IndexError
| FileNotFoundError (msg : string)
| IntegrityError
| OverflowError.

Inductive result (A : Type) : Type :=
| Ok (a : A)
| Raise (e : exn).
Arguments Ok {A} a.
Arguments Raise {A} e.

Definition bind {A B} (m : result A) (k : A -> result B) : result B :=
  match m with
  | Ok a => k a
  | Raise e => Raise e
  end.

Notation "x <- m ;; k" := (bind m (fun x => k))
  (at level 61, m at next level, right associativity).

(** [l[i]] on a list: [IndexError] when out of range. *)
Definition index {A} (l : list A) (i : nat) : result A :=
  match nth_error l i with
  | Some a => Ok a
  | None => Raise IndexError
  end.

(** The [ValueError] of a conversion from a literal beyond the limit. *)
Definition int_limit_error (s : string) : exn :=
  ValueError
    ("Exceeds the limit (4300 digits) for integer string conversion: value has "
     ++ str_of_Z (Z.of_nat (count_digits s))
     ++ " digits; use sys.set_int_max_str_digits() to increase the limit").

(** [int(s)], raising [ValueError] on a text that is not a literal and on a
    literal of more than [max_str_digits] digits. *)
Definition int_of_str (s : string) : result Z :=
  match py_int s with
  | Some z =>
      if (max_str_digits <? count_digits s)%nat then Raise (int_limit_error s)
      else Ok z
  | None =>
      Raise (ValueError ("invalid literal for int() with base 10: '" ++ s ++ "'"))
  end.

(* ------------------------------------------------------------------ *)
(** ** Data structures *)
(* ------------------------------------------------------------------ *)

Module DnsRecord.
Record t : Type := mk {
  record_type : string;
  name : string;
  value : string;
  ttl : Z;
  priority : option Z;
  record_id : option Z
}.
Definition with_record_id (r : t) (i : option Z) : t :=
  mk (record_type r) (name r) (value r) (ttl r) (priority r) i.
Definition with_value (r : t) (v : string) : t :=
  mk (record_type r) (name r) v (ttl r) (priority r) (record_id r).
End DnsRecord.

Module Zone.
Record t : Type := mk {
  name : string;
  ttl : Z;
  serial : Z;
  nameservers : list string;
  records : list DnsRecord.t;
  zone_id : option Z
}.
Definition with_records (z : t) (rs : list DnsRecord.t) : t :=
  mk (name z) (ttl z) (serial z) (nameservers z) rs (zone_id z).
Definition with_zone_id (z : t) (i : option Z) : t :=
  mk (name z) (ttl z) (serial z) (nameservers z) (records z) i.
End Zone.

(** The default of [Zone.nameservers]. *)
Definition default_nameservers : list string :=
  ["ns1.blackroad.io."; "ns2.blackroad.io."].

(* ------------------------------------------------------------------ *)
(** ** Database *)
(* ------------------------------------------------------------------ *)

(** A row of table [zones]; the JSON text of column [nameservers] is kept as
    the list it encodes, the two time stamps are left out. *)
Record ZoneRow : Type := {
  zrow_id : Z;
  zrow_name : string;
  zrow_ttl : Z;
  zrow_serial : Z;
  zrow_nameservers : list string
}.

(** A row of table [records], without its time stamp. *)
Record RecordRow : Type := {
  row_id : Z;
  row_zone_id : Z;
  row_record_type : string;
  row_name : string;
  row_value : string;
  row_ttl : Z;
  row_priority : option Z
}.

(** The state seen through a connection: both tables and, for each, the
    largest row id handed out so far ([AUTOINCREMENT]). *)
Record Db : Type := {
  zones_tbl : list ZoneRow;
  records_tbl : list RecordRow;
  zones_seq : Z;
  records_seq : Z
}.

(** An [int] can be bound to an SQLite [INTEGER] when it fits 64 bits. *)
Definition fits_int64 (z : Z) : bool :=
  (- 2 ^ 63 <=? z) && (z <? 2 ^ 63).

Definition opt_fits_int64 (o : option Z) : bool :=
  match o with
  | Some z => fits_int64 z
  | None => true
  end.

(** [INSERT INTO records(zone_id, record_type, name, value, ttl, priority)];
    returns [cur.lastrowid] and the new state.  Each of the three integers
    bound to the statement must fit 64 bits. *)
Definition insert_record (db : Db) (zid : Z) (r : DnsRecord.t)
  : result (Z * Db) :=
  if fits_int64 zid && fits_int64 (DnsRecord.ttl r)
     && opt_fits_int64 (DnsRecord.priority r) then
    let rid := records_seq db + 1 in
    let row := {| row_id := rid; row_zone_id := zid;
                  row_record_type := DnsRecord.record_type r;
                  row_name := DnsRecord.name r;
                  row_value := DnsRecord.value r;
                  row_ttl := DnsRecord.ttl r;
                  row_priority := DnsRecord.priority r |} in
    Ok (rid, {| zones_tbl := zones_tbl db;
                records_tbl := (records_tbl db ++ [row])%list;
                zones_seq := zones_seq db;
                records_seq := rid |})
  else Raise OverflowError.

(** [INSERT INTO zones(name, ttl, serial, nameservers)]: column [name] is
    [UNIQUE]. *)
Definition insert_zone (db : Db) (z : Zone.t) : result (Z * Db) :=
  if fits_int64 (Zone.ttl z) && fits_int64 (Zone.serial z) then
    if existsb (fun row => String.eqb (zrow_name row) (Zone.name z))
               (zones_tbl db)
    then Raise IntegrityError
    else
      let zid := zones_seq db + 1 in
      let row := {| zrow_id := zid; zrow_name := Zone.name z;
                    zrow_ttl := Zone.ttl z; zrow_serial := Zone.serial z;
                    zrow_nameservers := Zone.nameservers z |} in
      Ok (zid, {| zones_tbl := (zones_tbl db ++ [row])%list;
                  records_tbl := records_tbl db;
                  zones_seq := zid;
                  records_seq := records_seq db |})
  else Raise OverflowError.

(** Number of rows of table [records] that belong to a zone. *)
Definition stored_record_count (db : Db) (zid : Z) : nat :=
  List.length (filter (fun row => row_zone_id row =? zid) (records_tbl db)).


(** Truth value of an optional integer ([None] and [0] are false). *)
Definition truthy_id (o : option Z) : bool :=
  match o with
  | Some z => negb (z =? 0)
  | None => false
  end.

(* ------------------------------------------------------------------ *)
(** ** Record management *)
(* ------------------------------------------------------------------ *)

Definition VALID_TYPES : list string :=
  ["A"; "AAAA"; "CNAME"; "MX"; "TXT"; "NS"; "SOA"; "SRV"; "PTR"; "CAA"].

Definition in_range (lo hi : ascii) (c : ascii) : bool :=
  ((N_of_ascii lo <=? N_of_ascii c) && (N_of_ascii c <=? N_of_ascii hi))%N.

(** [(25[0-5]|2[0-4]\d|[01]?\d\d?)], matched against ASCII text. *)
Definition re_octet : regex :=
  Alt (Cat (Chr "2") (Cat (Chr "5") (Cls (in_range "0" "5"))))
  (Alt (Cat (Chr "2") (Cat (Cls (in_range "0" "4")) (Cls is_digit)))
       (Cat (Opt (Cls (in_range "0" "1")))
            (Cat (Cls is_digit) (Opt (Cls is_digit))))).

(** The pattern of type [A]: four octets separated by dots. *)
Definition re_A : regex :=
  Cat re_octet (Cat (Chr ".") (Cat re_octet (Cat (Chr ".")
    (Cat re_octet (Cat (Chr ".") re_octet))))).

(** [[0-9a-fA-F:]] *)
Definition hex_colon (c : ascii) : bool :=
  is_digit c || in_range "a" "f" c || in_range "A" "F" c || Ascii.eqb c ":".

(** [[0-9a-fA-F:]{2,39}] *)
Definition re_AAAA : regex := Rep 2 37 (Cls hex_colon).

(** [[a-zA-Z0-9._-]] *)
Definition host_char (c : ascii) : bool :=
  is_lower c || is_upper c || is_digit c
  || Ascii.eqb c "." || Ascii.eqb c "_" || Ascii.eqb c "-".

(** [[a-zA-Z0-9._-]+\.?] *)
Definition re_host : regex := Cat (Plus (Cls host_char)) (Opt (Chr ".")).

(** [_VALIDATORS.get(t)] *)
Definition _VALIDATORS (t : string) : option regex :=
  if String.eqb t "A" then Some re_A
  else if String.eqb t "AAAA" then Some re_AAAA
  else if String.eqb t "CNAME" then Some re_host
  else if String.eqb t "MX" then Some re_host
  else if String.eqb t "NS" then Some re_host
  else if String.eqb t "PTR" then Some re_host
  else None.

Definition is_none {A} (o : option A) : bool :=
  match o with None => true | Some _ => false end.

(** A list with one message when the condition holds, none otherwise: one
    [if c: errors.append(msg)]. *)
Definition err_if (c : bool) (msg : string) : list string :=
  if c then [msg] else [].

(** [validate_record(record)].  The message about a negative ttl holds the
    decimal text of the ttl, for a ttl within the conversion limit. *)
Definition validate_record (record : DnsRecord.t) : list string :=
  let t := DnsRecord.record_type record in
  let v := DnsRecord.value record in
  (err_if (negb (str_in t VALID_TYPES)) ("Unknown record type: " ++ t)
   ++ err_if (is_empty (DnsRecord.name record)) "Record name cannot be empty"
   ++ err_if (is_empty v) "Record value cannot be empty"
   ++ err_if (DnsRecord.ttl record <? 0)
        ("TTL must be non-negative, got " ++ str_of_Z (DnsRecord.ttl record))
   ++ err_if (match _VALIDATORS t with
              | Some validator => negb (re_match validator v)
              | None => false
              end)
        ("Value '" ++ v ++ "' invalid for type " ++ t)
   ++ err_if (str_in t ["MX"; "SRV"] && is_none (DnsRecord.priority record))
        (t ++ " record requires a priority"))%list.

(** Replace the last element of a list. *)
Definition set_last {A} (l : list A) (a : A) : list A :=
  (removelast l ++ [a])%list.

(** [add_record(zone, record_type, name, value, ttl, priority, conn)].
    Returns the outcome together with the zone and connection as the call
    leaves them, also when it raises. *)
Definition add_record (zone : Zone.t) (record_type name value : string)
    (ttl : Z) (priority : option Z) (conn : option Db)
  : result DnsRecord.t * Zone.t * option Db :=
  let rec := DnsRecord.mk (upper record_type) name value ttl priority None in
  let errs := validate_record rec in
  match errs with
  | _ :: _ =>
      (Raise (ValueError ("Invalid record: " ++ join "; " errs)), zone, conn)
  | [] =>
      let zone1 := Zone.with_records zone (Zone.records zone ++ [rec])%list in
      match conn, Zone.zone_id zone with
      | Some db, Some zid =>
          if truthy_id (Some zid) then
            match insert_record db zid rec with
            | Ok (rid, db') =>
                let rec' := DnsRecord.with_record_id rec (Some rid) in
                (Ok rec',
                 Zone.with_records zone1 (set_last (Zone.records zone1) rec'),
                 Some db')
            | Raise e => (Raise e, zone1, conn)
            end
          else (Ok rec, zone1, conn)
      | _, _ => (Ok rec, zone1, conn)
      end
  end.

(* ------------------------------------------------------------------ *)
(** ** BIND zone file export *)
(* ------------------------------------------------------------------ *)

Definition is_type (t : string) (r : DnsRecord.t) : bool :=
  String.eqb (DnsRecord.record_type r) t.

(** The key of [other.sort(key=lambda r: (r.record_type, r.name))]. *)
Definition sort_key (r : DnsRecord.t) : string * string :=
  (DnsRecord.record_type r, DnsRecord.name r).

(** [list.sort] is a stable sort; insertion from the right is one, and a
    stable sort of a list under a total preorder has only one result. *)
Fixpoint insert_by_key (r : DnsRecord.t) (l : list DnsRecord.t)
  : list DnsRecord.t :=
  match l with
  | [] => [r]
  | y :: l' =>
      if key_le (sort_key r) (sort_key y) then r :: l
      else y :: insert_by_key r l'
  end.

Definition sort_by_key (l : list DnsRecord.t) : list DnsRecord.t :=
  fold_right insert_by_key [] l.

(** The five leading lines: two comments, [$ORIGIN], [$TTL], a blank. *)
Definition header_lines (zone : Zone.t) : list string :=
  [ "; Zone file for " ++ Zone.name zone;
    "; Generated by blackroad-zone-manager";
    "$ORIGIN " ++ Zone.name zone ++ ".";
    "$TTL " ++ str_of_Z (Zone.ttl zone);
    "" ].

Definition soa_records (zone : Zone.t) : list DnsRecord.t :=
  filter (is_type "SOA") (Zone.records zone).

Definition soa_line (r : DnsRecord.t) : string :=
  DnsRecord.name r ++ " " ++ str_of_Z (DnsRecord.ttl r) ++ " IN SOA "
  ++ DnsRecord.value r.

Definition soa_lines (zone : Zone.t) : list string :=
  match soa_records zone with
  | [] =>
      [ "@ " ++ str_of_Z (Zone.ttl zone) ++ " IN SOA ns1." ++ Zone.name zone
        ++ ". hostmaster." ++ Zone.name zone ++ ". "
        ++ "( " ++ str_of_Z (Zone.serial zone) ++ " 3600 900 604800 300 )" ]
  | rs => map soa_line rs
  end.

Definition ns_line (zone : Zone.t) (ns : string) : string :=
  "@ " ++ str_of_Z (Zone.ttl zone) ++ " IN NS " ++ ns.

(** [other]: the records that are neither SOA nor NS, before sorting. *)
Definition other_records (zone : Zone.t) : list DnsRecord.t :=
  filter (fun r => negb (str_in (DnsRecord.record_type r) ["SOA"; "NS"]))
         (Zone.records zone).

Definition record_line (r : DnsRecord.t) : string :=
  match DnsRecord.priority r with
  | Some p =>
      DnsRecord.name r ++ " " ++ str_of_Z (DnsRecord.ttl r) ++ " IN "
      ++ DnsRecord.record_type r ++ " " ++ str_of_Z p ++ " "
      ++ DnsRecord.value r
  | None =>
      DnsRecord.name r ++ " " ++ str_of_Z (DnsRecord.ttl r) ++ " IN "
      ++ DnsRecord.record_type r ++ " " ++ DnsRecord.value r
  end.

(** The list [lines] as it stands when [export_bind_format] joins it. *)
Definition export_lines (zone : Zone.t) : list string :=
  (header_lines zone
   ++ soa_lines zone
   ++ [""]
   ++ map (ns_line zone) (Zone.nameservers zone)
   ++ [""]
   ++ map record_line (sort_by_key (other_records zone)))%list.

(** The text that [export_bind_format] returns: the lines joined by line
    feeds, and a final line feed. *)
Definition export_text (zone : Zone.t) : string :=
  join NL (export_lines zone) ++ NL.

(** The integers that one record line converts to text. *)
Definition record_ints (r : DnsRecord.t) : list Z :=
  DnsRecord.ttl r
  :: match DnsRecord.priority r with Some p => [p] | None => [] end.

(** The integers that the f-strings of the exporter convert to text, line
    by line: the ttl of the zone in [$TTL] and in every NS line; the ttl of
    each SOA record or, without SOA records, the ttl and the serial of the
    zone; the ttl and the priority of every other record. *)
Definition export_ints (zone : Zone.t) : list Z :=
  (Zone.ttl zone
   :: match soa_records zone with
      | [] => [Zone.ttl zone; Zone.serial zone]
      | rs => map DnsRecord.ttl rs
      end
   ++ map (fun _ => Zone.ttl zone) (Zone.nameservers zone)
   ++ flat_map record_ints (sort_by_key (other_records zone)))%list.

(** [export_bind_format(zone)].  The function changes nothing before it
    returns, so a conversion that fails in any of its f-strings leaves the
    [ValueError] of that conversion and nothing else. *)
Definition export_bind_format (zone : Zone.t) : result string :=
  if forallb printable (export_ints zone) then Ok (export_text zone)
  else Raise (ValueError conversion_error).

(* ------------------------------------------------------------------ *)
(** ** BIND zone file import *)
(* ------------------------------------------------------------------ *)

(** Text-mode reading translates ["\r\n"] and ["\r"] to ["\n"]. *)
Fixpoint universal_newlines (s : string) : string :=
  match s with
  | EmptyString => EmptyString
  | String c s' =>
      if Ascii.eqb c CR then
        String LF
          match s' with
          | EmptyString => EmptyString
          | String c' s'' =>
              if Ascii.eqb c' LF then universal_newlines s''
              else universal_newlines s'
          end
      else String c (universal_newlines s')
  end.

(** The lines of a text, each with its line feed when it has one. *)
Fixpoint lines_keepends (s : string) : list string :=
  match s with
  | EmptyString => []
  | String c s' =>
      if Ascii.eqb c LF then String c EmptyString :: lines_keepends s'
      else
        match lines_keepends s' with
        | l :: ls => String c l :: ls
        | [] => [String c EmptyString]
        end
  end.

(** [for raw_line in fh] *)
Definition file_lines (content : string) : list string :=
  lines_keepends (universal_newlines content).

(** The local variables of the loop of [import_zone_file]. *)
Record ImportState : Type := {
  st_zone_name : option string;
  st_default_ttl : Z;
  st_records : list DnsRecord.t;
  st_origin : option string
}.

Definition initial_state : ImportState :=
  {| st_zone_name := None; st_default_ttl := 3600;
     st_records := []; st_origin := None |}.

(** [zone_name or origin] *)
Definition name_or (zone_name : option string) (origin : string)
  : option string :=
  match zone_name with
  | Some n => if is_empty n then Some origin else Some n
  | None => Some origin
  end.

(** The part of the loop body that reads a record line from its tokens. *)
Definition import_record (st : ImportState) (parts : list string)
  : result ImportState :=
  name <- index parts 0 ;;
  p1 <- index parts 1 ;;
  ti <- (if isdigit p1
         then (t <- int_of_str p1 ;; Ok (t, 2%nat))
         else Ok (st_default_ttl st, 1%nat)) ;;
  let '(ttl, idx) := ti in
  p2 <- index parts idx ;;
  let idx := if String.eqb (upper p2) "IN" then S idx else idx in
  p3 <- index parts idx ;;
  let rtype := upper p3 in
  let idx := S idx in
  let value := join " " (skipn idx parts) in
  pv <- (if str_in rtype ["MX"; "SRV"] then
           first <- index (split_ws value) 0 ;;
           if isdigit first
           then (p <- int_of_str first ;;
                 Ok (Some p, join " " (skipn 1 (split_ws value))))
           else Ok (None, value)
         else Ok (None, value)) ;;
  let '(priority, value) := pv in
  if negb (str_in rtype ["SOA"]) then
    Ok {| st_zone_name := st_zone_name st;
          st_default_ttl := st_default_ttl st;
          st_records :=
            (st_records st
             ++ [DnsRecord.mk rtype name value ttl priority None])%list;
          st_origin := st_origin st |}
  else Ok st.

(** One iteration of the loop. *)
Definition import_line (st : ImportState) (raw_line : string)
  : result ImportState :=
  let line := strip raw_line in
  if is_empty line || startswith line ";" then Ok st
  else if startswith line "$ORIGIN" then
    tok <- index (split_ws line) 1 ;;
    let origin := rstrip_dots tok in
    Ok {| st_zone_name := name_or (st_zone_name st) origin;
          st_default_ttl := st_default_ttl st;
          st_records := st_records st;
          st_origin := Some origin |}
  else if startswith line "$TTL" then
    tok <- index (split_ws line) 1 ;;
    t <- int_of_str tok ;;
    Ok {| st_zone_name := st_zone_name st;
          st_default_ttl := t;
          st_records := st_records st;
          st_origin := st_origin st |}
  else
    let parts := split_ws line in
    if (List.length parts <? 4)%nat then Ok st
    else import_record st parts.

(** The loop over the lines of the file. *)
Fixpoint import_lines (st : ImportState) (lines : list string)
  : result ImportState :=
  match lines with
  | [] => Ok st
  | l :: ls => st' <- import_line st l ;; import_lines st' ls
  end.

(** The inserts of the records of an imported zone; each record receives the
    row id of its insert.  The connection is returned as the loop leaves it,
    also when an insert raises. *)
Fixpoint insert_records (db : Db) (zid : Z) (rs : list DnsRecord.t)
  : result (list DnsRecord.t) * Db :=
  match rs with
  | [] => (Ok [], db)
  | r :: rs' =>
      match insert_record db zid r with
      | Ok (rid, db1) =>
          match insert_records db1 zid rs' with
          | (Ok done, db2) =>
              (Ok (DnsRecord.with_record_id r (Some rid) :: done), db2)
          | (Raise e, db2) => (Raise e, db2)
          end
      | Raise e => (Raise e, db)
      end
  end.

(** [import_zone_file(path, conn)].  [content] is the text of the file at
    [path], [None] when there is no such file; [stem] is [Path(path).stem];
    [now_serial] is the date-derived serial that the default of [Zone.serial]
    computes at the time of the call. *)
Definition import_zone_file (path : string) (content : option string)
    (stem : string) (now_serial : Z) (conn : option Db)
  : result Zone.t * option Db :=
  match content with
  | None => (Raise (FileNotFoundError ("Zone file not found: " ++ path)), conn)
  | Some text =>
      match import_lines initial_state (file_lines text) with
      | Raise e => (Raise e, conn)
      | Ok st =>
          let zone_name :=
            match st_zone_name st with Some n => n | None => stem end in
          let zone :=
            Zone.mk zone_name (st_default_ttl st) now_serial
                    default_nameservers (st_records st) None in
          match conn with
          | None => (Ok zone, None)
          | Some db =>
              match insert_zone db zone with
              | Raise e => (Raise e, conn)
              | Ok (zid, db1) =>
                  let zone1 := Zone.with_zone_id zone (Some zid) in
                  if truthy_id (Some zid) then
                    match insert_records db1 zid (Zone.records zone1) with
                    | (Ok rs, db2) => (Ok (Zone.with_records zone1 rs), Some db2)
                    | (Raise e, db2) => (Raise e, Some db2)
                    end
                  else (Ok zone1, Some db1)
              end
          end
      end
  end.

(* ------------------------------------------------------------------ *)
(** ** Provider sync *)
(* ------------------------------------------------------------------ *)

(** The values stored in the summary. *)
#[warnings="-register-all"]
Inductive pyval : Type :=
| PStr (s : string)
| PInt (z : Z)
| PBool (b : bool)
| PList (l : list pyval)
| PDict (d : list (string * pyval)).

(** A [dict] with string keys: its items in insertion order, keys unique. *)
Definition dict (V : Type) : Type := list (string * V).

Fixpoint dict_get {V} (d : dict V) (k : string) : option V :=
  match d with
  | [] => None
  | (k', v) :: d' => if String.eqb k' k then Some v else dict_get d' k
  end.

(** [d[k] = v]: an existing key keeps its place and takes the new value, a
    new key goes last. *)
Fixpoint dict_set {V} (d : dict V) (k : string) (v : V) : dict V :=
  match d with
  | [] => [(k, v)]
  | (k', v') :: d' =>
      if String.eqb k' k then (k', v) :: d' else (k', v') :: dict_set d' k v
  end.

(** [{key(r): r for r in rs}] *)
Definition dict_of_records (key : DnsRecord.t -> string)
    (rs : list DnsRecord.t) : dict DnsRecord.t :=
  fold_left (fun d r => dict_set d (key r) r) rs [].

(** [d[k].append(v)] for a list stored under [k]. *)
Definition dict_append (d : dict pyval) (k : string) (v : pyval)
  : dict pyval :=
  match dict_get d k with
  | Some (PList l) => dict_set d k (PList (l ++ [v]))
  | _ => d
  end.

(** [len(d[k])] for a list stored under [k]. *)
Definition dict_len (d : dict pyval) (k : string) : Z :=
  match dict_get d k with
  | Some (PList l) => Z.of_nat (List.length l)
  | _ => 0
  end.

Definition stub_key (r : DnsRecord.t) : string :=
  DnsRecord.record_type r ++ ":" ++ DnsRecord.name r.

Definition existing_stub (zone : Zone.t) : dict DnsRecord.t :=
  dict_of_records stub_key
    (filter (fun r => str_in (DnsRecord.record_type r) ["A"; "AAAA"; "CNAME"])
            (Zone.records zone)).

(** The entry appended to [records_to_create] for one record. *)
Definition create_entry (rec : DnsRecord.t) : pyval :=
  PDict [ ("type", PStr (DnsRecord.record_type rec));
          ("name", PStr (DnsRecord.name rec));
          ("value", PStr (DnsRecord.value rec));
          ("ttl", PInt (DnsRecord.ttl rec)) ].

Definition sync_with_provider (zone : Zone.t) (provider : string)
    (dry_run : bool) : dict pyval :=
  let summary : dict pyval :=
    [ ("provider", PStr provider);
      ("zone", PStr (Zone.name zone));
      ("dry_run", PBool dry_run);
      ("records_to_create", PList []);
      ("records_to_update", PList []);
      ("records_to_delete", PList []);
      ("errors", PList []) ] in
  if negb (str_in provider ["cloudflare"; "route53"; "digitalocean"]) then
    dict_append summary "errors" (PStr ("Unsupported provider: " ++ provider))
  else
    let summary :=
      fold_left
        (fun s kv => dict_append s "records_to_create" (create_entry (snd kv)))
        (existing_stub zone) summary in
    dict_set summary "total_changes"
      (PInt (dict_len summary "records_to_create"
             + dict_len summary "records_to_update"
             + dict_len summary "records_to_delete")).

(* ------------------------------------------------------------------ *)
(** ** The specification's wording of record validity *)
(* ------------------------------------------------------------------ *)

(** The decimal value of a string of digits. *)
Fixpoint digits_value (acc : Z) (s : string) : Z :=
  match s with
  | EmptyString => acc
  | String c s' => digits_value (10 * acc + (Z.of_N (N_of_ascii c) - 48)) s'
  end.

(** A character other than a given one. *)
Definition not_char (sep c : ascii) : bool := negb (Ascii.eqb c sep).

(** An octet: one to three digits that denote a number from 0 to 255. *)
Definition spec_octet (s : string) : bool :=
  isdigit s && (String.length s <=? 3)%nat && (digits_value 0 s <=? 255).

(** The pieces of a string between the occurrences of a separator. *)
Fixpoint split_on (sep : ascii) (s : string) : list string :=
  match s with
  | EmptyString => [EmptyString]
  | String c s' =>
      if Ascii.eqb c sep then EmptyString :: split_on sep s'
      else
        match split_on sep s' with
        | p :: ps => String c p :: ps
        | [] => [String c EmptyString]
        end
  end.

(** "A requires dotted-quad with each octet 0-255". *)
Definition spec_dotted_quad (s : string) : bool :=
  let parts := split_on "." s in
  (List.length parts =? 4)%nat && forallb spec_octet parts.

(** "AAAA requires a hex-and-colon string of length 2-39". *)
Definition spec_hex_colon (s : string) : bool :=
  forallb_str hex_colon s
  && (2 <=? String.length s)%nat && (String.length s <=? 39)%nat.

(** "a hostname-like token (letters, digits, dot, hyphen, underscore,
    optional trailing dot)". *)
Definition spec_hostname_like (s : string) : bool :=
  negb (is_empty s) && forallb_str host_char s.

(** The type-specific syntax, for the types that have one. *)
Definition spec_syntax_ok (t v : string) : bool :=
  if String.eqb t "A" then spec_dotted_quad v
  else if String.eqb t "AAAA" then spec_hex_colon v
  else if str_in t ["CNAME"; "MX"; "NS"; "PTR"] then spec_hostname_like v
  else true.

(** The right-hand side of the validity property: recognised type, name and
    value not empty, ttl at least 0, type-specific syntax, and a priority on
    MX and SRV. *)
Definition spec_record_valid (r : DnsRecord.t) : bool :=
  str_in (DnsRecord.record_type r) VALID_TYPES
  && negb (is_empty (DnsRecord.name r))
  && negb (is_empty (DnsRecord.value r))
  && (0 <=? DnsRecord.ttl r)
  && spec_syntax_ok (DnsRecord.record_type r) (DnsRecord.value r)
  && (negb (str_in (DnsRecord.record_type r) ["MX"; "SRV"])
      || negb (is_none (DnsRecord.priority r))).

(** A text ends with exactly one line feed. *)
Definition one_trailing_newline (s : string) : bool :=
  match chop_newline s with
  | Some t => is_none (chop_newline t)
  | None => false
  end.

(** "Ordinary lexicographic ordering" of strings, by code point. *)
Inductive lex_lt : string -> string -> Prop :=
| lex_lt_nil c s : lex_lt EmptyString (String c s)
| lex_lt_head c1 c2 s1 s2 :
    (N_of_ascii c1 < N_of_ascii c2)%N -> lex_lt (String c1 s1) (String c2 s2)
| lex_lt_tail c s1 s2 : lex_lt s1 s2 -> lex_lt (String c s1) (String c s2).

Definition lex_le (a b : string) : Prop := a = b \/ lex_lt a b.

(** The ordering of the pairs (type, name). *)
Definition pair_le (k1 k2 : string * string) : Prop :=
  lex_lt (fst k1) (fst k2) \/ (fst k1 = fst k2 /\ lex_le (snd k1) (snd k2)).

Definition record_le (a b : DnsRecord.t) : Prop :=
  pair_le (sort_key a) (sort_key b).

(** "Sorted by the pair (type, name)": one record may stand before another
    when its type is smaller or, the types being equal, its name is not
    larger. *)
Definition by_type_name (a b : DnsRecord.t) : Prop :=
  lex_lt (DnsRecord.record_type a) (DnsRecord.record_type b)
  \/ (DnsRecord.record_type a = DnsRecord.record_type b
      /\ lex_le (DnsRecord.name a) (DnsRecord.name b)).

(** The records of a given type and name. *)
Definition has_type_name (t n : string) (r : DnsRecord.t) : bool :=
  String.eqb (DnsRecord.record_type r) t && String.eqb (DnsRecord.name r) n.

(** The records that are neither SOA nor NS. *)
Definition neither_soa_nor_ns (r : DnsRecord.t) : bool :=
  negb (String.eqb (DnsRecord.record_type r) "SOA")
  && negb (String.eqb (DnsRecord.record_type r) "NS").

(* ------------------------------------------------------------------ *)
(** ** What the zone-file grammar can express *)
(* ------------------------------------------------------------------ *)

Definition not_space (c : ascii) : bool := negb (is_space c).

(** A token: at least one character, none of them white space. *)
Definition is_token (s : string) : bool :=
  negb (is_empty s) && forallb_str not_space s.

(** A value the importer reads back unchanged: words separated by single
    spaces. *)
Definition is_normalized (v : string) : bool :=
  String.eqb (join " " (split_ws v)) v.

Definition not_linebreak (c : ascii) : bool :=
  negb (Ascii.eqb c LF) && negb (Ascii.eqb c CR).

(** A text that stays on one line. *)
Definition one_line (s : string) : bool := forallb_str not_linebreak s.

(** A name that starts a record line: a token that opens neither a comment
    nor a directive. *)
Definition expressible_name (n : string) : bool :=
  is_token n && negb (startswith n ";")
  && negb (startswith n "$ORIGIN") && negb (startswith n "$TTL").

(** The first word of a value is a number. *)
Definition numeric_head (v : string) : bool :=
  match split_ws v with
  | first :: _ => isdigit first
  | [] => true
  end.

(** A record, neither SOA nor NS, whose five fields the record line
    [<name> <ttl> IN <TYPE> [<priority>] <value>] carries. *)
Definition expressible_record (r : DnsRecord.t) : bool :=
  expressible_name (DnsRecord.name r)
  && is_token (DnsRecord.record_type r)
  && String.eqb (upper (DnsRecord.record_type r)) (DnsRecord.record_type r)
  && (0 <=? DnsRecord.ttl r)
  && is_normalized (DnsRecord.value r)
  && match DnsRecord.priority r with
     | Some p => str_in (DnsRecord.record_type r) ["MX"; "SRV"] && (0 <=? p)
     | None =>
         negb (str_in (DnsRecord.record_type r) ["MX"; "SRV"])
         || negb (numeric_head (DnsRecord.value r))
     end.

(** An SOA record whose line the importer recognises as an SOA line. *)
Definition expressible_soa (r : DnsRecord.t) : bool :=
  expressible_name (DnsRecord.name r)
  && (0 <=? DnsRecord.ttl r)
  && one_line (DnsRecord.value r).

Definition expressible_zone (z : Zone.t) : bool :=
  one_line (Zone.name z)
  && (0 <=? Zone.ttl z)
  && forallb is_normalized (Zone.nameservers z)
  && forallb expressible_soa (soa_records z)
  && forallb expressible_record (other_records z).

(** The five fields of a record that a zone file carries. *)
Definition fields (r : DnsRecord.t) : DnsRecord.t :=
  DnsRecord.with_record_id r None.

(** The record that the importer reads from the NS line of a name server. *)
Definition ns_record (z : Zone.t) (ns : string) : DnsRecord.t :=
  DnsRecord.mk "NS" "@" ns (Zone.ttl z) None None.

(** The state of the import loop after it has appended some records. *)
Definition add_records (st : ImportState) (rs : list DnsRecord.t)
  : ImportState :=
  {| st_zone_name := st_zone_name st;
     st_default_ttl := st_default_ttl st;
     st_records := (st_records st ++ rs)%list;
     st_origin := st_origin st |}.

(** The text of a list of lines as the importer receives them: each line
    with its line feed. *)
Definition with_newlines (ls : list string) : list string :=
  map (fun l => l ++ NL) ls.

(** The records that carry a given sort key. *)
Definition has_key (k : string * string) (r : DnsRecord.t) : bool :=
  String.eqb (fst (sort_key r)) (fst k) && String.eqb (snd (sort_key r)) (snd k).

(** A record and a zone made of ASCII text. *)
Definition ascii_record (r : DnsRecord.t) : bool :=
  ascii_text (DnsRecord.record_type r) && ascii_text (DnsRecord.name r)
  && ascii_text (DnsRecord.value r).

Definition ascii_zone (z : Zone.t) : bool :=
  ascii_text (Zone.name z) && forallb ascii_text (Zone.nameservers z)
  && forallb ascii_record (Zone.records z).

(** A record and a zone whose integers are within the conversion limit. *)
Definition printable_record (r : DnsRecord.t) : bool :=
  printable (DnsRecord.ttl r)
  && match DnsRecord.priority r with Some p => printable p | None => true end.

Definition printable_zone (z : Zone.t) : bool :=
  printable (Zone.ttl z) && printable (Zone.serial z)
  && forallb printable_record (Zone.records z).

(* ------------------------------------------------------------------ *)
(** ** Sample data *)
(* ------------------------------------------------------------------ *)

(** A zone without records, as [create] makes it. *)
Definition empty_zone : Zone.t :=
  Zone.mk "example.com" 3600 2024060701 default_nameservers [] None.

(** A zone with records of several types, stored ones among them. *)
Definition sample_zone : Zone.t :=
  Zone.mk "example.com" 3600 2024060701 default_nameservers
    [ DnsRecord.mk "MX" "@" "mail.example.com." 300 (Some 10) (Some 1);
      DnsRecord.mk "A" "www" "192.0.2.1" 300 None (Some 2);
      DnsRecord.mk "A" "@" "192.0.2.2" 600 None None;
      DnsRecord.mk "TXT" "@" "v=spf1 include:blackroad.io ~all" 300 None None;
      DnsRecord.mk "NS" "@" "ns9.example.com." 300 None None;
      DnsRecord.mk "SOA" "@"
        "ns1.example.com. hostmaster.example.com. ( 1 3600 900 604800 300 )"
        3600 None None ]
    (Some 1).

(** A stored zone with one stored record, and the connection that holds
    them. *)
Definition stored_zone : Zone.t :=
  Zone.mk "example.com" 3600 2024060701 default_nameservers
    [ DnsRecord.mk "A" "www" "192.0.2.1" 300 None (Some 1) ] (Some 1).

Definition stored_db : Db :=
  {| zones_tbl := [ {| zrow_id := 1; zrow_name := "example.com";
                       zrow_ttl := 3600; zrow_serial := 2024060701;
                       zrow_nameservers := default_nameservers |} ];
     records_tbl := [ {| row_id := 1; row_zone_id := 1;
                         row_record_type := "A"; row_name := "www";
                         row_value := "192.0.2.1"; row_ttl := 300;
                         row_priority := None |} ];
     zones_seq := 1;
     records_seq := 1 |}.

(** A zone with two A records of the same name and different values. *)
Definition round_robin_zone : Zone.t :=
  Zone.mk "example.com" 3600 2024060701 default_nameservers
    [ DnsRecord.mk "A" "www" "192.0.2.1" 300 None None;
      DnsRecord.mk "A" "www" "192.0.2.2" 300 None None ]
    None.

(** The text of the import test of the repository. *)
Definition import_test_text : string :=
  ";; zone file" ++ NL
  ++ "$ORIGIN importzone.example." ++ NL
  ++ "$TTL 3600" ++ NL
  ++ "@ IN NS ns1.importzone.example." ++ NL
  ++ "@ IN A 10.0.0.1" ++ NL
  ++ "www IN A 10.0.0.2" ++ NL
  ++ "mail IN MX 10 smtp.importzone.example." ++ NL.

Definition import_test_zone : Zone.t :=
  Zone.mk "importzone.example" 3600 2024060701 default_nameservers
    [ DnsRecord.mk "NS" "@" "ns1.importzone.example." 3600 None None;
      DnsRecord.mk "A" "@" "10.0.0.1" 3600 None None;
      DnsRecord.mk "A" "www" "10.0.0.2" 3600 None None;
      DnsRecord.mk "MX" "mail" "smtp.importzone.example." 3600 (Some 10) None ]
    None.

(** An A record whose value is a dotted quad followed by a line feed. *)
Definition newline_record : DnsRecord.t :=
  DnsRecord.mk "A" "www" ("192.0.2.1" ++ NL) 300 None None.

(* ------------------------------------------------------------------ *)
(** ** Zone CRUD *)
(* ------------------------------------------------------------------ *)

(** [UPDATE zones SET ttl=?, serial=?, nameservers=? WHERE id=?] *)
Definition update_zone_rows (zid ttl serial : Z) (ns : list string)
    (rows : list ZoneRow) : list ZoneRow :=
  map (fun row =>
         if zrow_id row =? zid
         then {| zrow_id := zrow_id row; zrow_name := zrow_name row;
                 zrow_ttl := ttl; zrow_serial := serial;
                 zrow_nameservers := ns |}
         else row)
      rows.

(** [save_zone(zone, conn)].  [today] is the UTC date of the call as the
    number [YYYYMMDD].  Returns the outcome, the zone object and the
    connection as the call leaves them. *)
Definition save_zone (zone : Zone.t) (today : Z) (db : Db)
  : result Zone.t * Zone.t * Db :=
  match Zone.zone_id zone with
  | None =>
      match insert_zone db zone with
      | Ok (zid, db') =>
          let zone' := Zone.with_zone_id zone (Some zid) in
          (Ok zone', zone', db')
      | Raise e => (Raise e, zone, db)
      end
  | Some zid =>
      let zone' :=
        Zone.mk (Zone.name zone) (Zone.ttl zone) (today * 100 + 1)
                (Zone.nameservers zone) (Zone.records zone) (Some zid) in
      if fits_int64 (Zone.ttl zone') && fits_int64 (Zone.serial zone')
         && fits_int64 zid
      then
        (Ok zone', zone',
         {| zones_tbl :=
              update_zone_rows zid (Zone.ttl zone') (Zone.serial zone')
                               (Zone.nameservers zone') (zones_tbl db);
            records_tbl := records_tbl db;
            zones_seq := zones_seq db;
            records_seq := records_seq db |})
      else (Raise OverflowError, zone', db)
  end.

(** The record object built from a row of table [records]. *)
Definition record_of_row (row : RecordRow) : DnsRecord.t :=
  DnsRecord.mk (row_record_type row) (row_name row) (row_value row)
               (row_ttl row) (row_priority row) (Some (row_id row)).

(** [SELECT * FROM records WHERE zone_id=?] *)
Definition zone_record_rows (db : Db) (zid : Z) : list RecordRow :=
  filter (fun row => row_zone_id row =? zid) (records_tbl db).

(** [load_zone(name, conn)] *)
Definition load_zone (name : string) (db : Db) : option Zone.t :=
  match find (fun row => String.eqb (zrow_name row) name) (zones_tbl db) with
  | None => None
  | Some row =>
      Some (Zone.mk (zrow_name row) (zrow_ttl row) (zrow_serial row)
                    (zrow_nameservers row)
                    (map record_of_row (zone_record_rows db (zrow_id row)))
                    (Some (zrow_id row)))
  end.

(** One item of the result of [list_zones]: the columns [name], [ttl] and
    [serial] of a zone (the time stamp [created_at] is left out, as in
    [ZoneRow]). *)
Record ZoneSummary : Type := {
  sum_name : string;
  sum_ttl : Z;
  sum_serial : Z
}.

Definition summary_of_row (row : ZoneRow) : ZoneSummary :=
  {| sum_name := zrow_name row; sum_ttl := zrow_ttl row;
     sum_serial := zrow_serial row |}.

(** [ORDER BY name]: rows by ascending name, compared by code point. *)
Fixpoint insert_by_name (row : ZoneRow) (l : list ZoneRow) : list ZoneRow :=
  match l with
  | [] => [row]
  | y :: l' =>
      if String.leb (zrow_name row) (zrow_name y) then row :: l
      else y :: insert_by_name row l'
  end.

Definition order_by_name (rows : list ZoneRow) : list ZoneRow :=
  fold_right insert_by_name [] rows.

(** [list_zones(conn)] *)
Definition list_zones (db : Db) : list ZoneSummary :=
  map summary_of_row (order_by_name (zones_tbl db)).

(** [delete_zone(name, conn)]: the rows of table [zones] with that name go.
    The connection is opened without [PRAGMA foreign_keys], so the
    [ON DELETE CASCADE] of table [records] is not enforced and that table
    stays as it is. *)
Definition delete_zone (name : string) (db : Db) : bool * Db :=
  let keep :=
    filter (fun row => negb (String.eqb (zrow_name row) name))
           (zones_tbl db) in
  ((List.length keep <? List.length (zones_tbl db))%nat,
   {| zones_tbl := keep;
      records_tbl := records_tbl db;
      zones_seq := zones_seq db;
      records_seq := records_seq db |}).

(** [r.record_id != record_id] *)
Definition id_differs (r : DnsRecord.t) (record_id : Z) : bool :=
  match DnsRecord.record_id r with
  | Some i => negb (i =? record_id)
  | None => true
  end.

(** [DELETE FROM records WHERE id=?] *)
Definition delete_record_row (db : Db) (record_id : Z) : Db :=
  {| zones_tbl := zones_tbl db;
     records_tbl :=
       filter (fun row => negb (row_id row =? record_id)) (records_tbl db);
     zones_seq := zones_seq db;
     records_seq := records_seq db |}.

(** [remove_record(zone, record_id, conn)].  Returns the outcome, the zone
    object and the connection as the call leaves them. *)
Definition remove_record (zone : Zone.t) (record_id : Z) (conn : option Db)
  : result bool * Zone.t * option Db :=
  let before := List.length (Zone.records zone) in
  let zone' :=
    Zone.with_records zone
      (filter (fun r => id_differs r record_id) (Zone.records zone)) in
  let removed := (List.length (Zone.records zone') <? before)%nat in
  match conn with
  | Some db =>
      if removed then
        if fits_int64 record_id
        then (Ok removed, zone', Some (delete_record_row db record_id))
        else (Raise OverflowError, zone', conn)
      else (Ok removed, zone', conn)
  | None => (Ok removed, zone', conn)
  end.

(* ------------------------------------------------------------------ *)
(** ** Zone validation *)
(* ------------------------------------------------------------------ *)

(** [[a-zA-Z0-9._-]+] *)
Definition re_zone_name : regex := Plus (Cls host_char).

(** [names.count(n)] *)
Definition count_of (n : string) (names : list string) : nat :=
  List.length (filter (String.eqb n) names).

(** The names of the CNAME records, in record order. *)
Definition cname_names (zone : Zone.t) : list string :=
  map DnsRecord.name (filter (is_type "CNAME") (Zone.records zone)).

(** [[n for n in names if names.count(n) > 1]] *)
Definition duplicates (names : list string) : list string :=
  filter (fun n => (1 <? count_of n names)%nat) names.

(** The errors of one record, each with the record's type and name in
    front. *)
Definition record_errors (rec : DnsRecord.t) : list string :=
  map (fun e => "Record (" ++ DnsRecord.record_type rec ++ " "
                ++ DnsRecord.name rec ++ "): " ++ e)
      (validate_record rec).

(** [validate_zone(zone)].  The loop over [set(duplicates)] visits the
    elements of a set in an order that the language leaves open:
    [set_order] is that order, a list of the distinct elements. *)
Definition validate_zone (set_order : list string -> list string)
    (zone : Zone.t) : list string :=
  (err_if (is_empty (Zone.name zone)) "Zone name is required"
   ++ err_if (negb (re_match re_zone_name (Zone.name zone)))
        ("Invalid zone name: " ++ Zone.name zone)
   ++ err_if (Zone.ttl zone <? 0)
        ("Default TTL must be non-negative, got " ++ str_of_Z (Zone.ttl zone))
   ++ err_if (negb (existsb (is_type "SOA") (Zone.records zone)))
        "Zone is missing SOA record"
   ++ err_if (negb (existsb (is_type "NS") (Zone.records zone)))
        "Zone is missing NS record(s)"
   ++ flat_map record_errors (Zone.records zone)
   ++ map (fun dup => ("Duplicate CNAME for name: " ++ dup)%string)
          (set_order (duplicates (cname_names zone))))%list.

(** What an iteration order of sets has to satisfy: each element once. *)
Definition is_set_order (set_order : list string -> list string) : Prop :=
  forall l, NoDup (set_order l) /\ forall x, In x (set_order l) <-> In x l.

(** One such order: first occurrences, in list order. *)
Definition first_seen (l : list string) : list string :=
  List.rev (nodup string_dec (List.rev l)).

(* ------------------------------------------------------------------ *)
(** ** Checksum *)
(* ------------------------------------------------------------------ *)

(** [zone_checksum(zone)], for [sha256_hex] the function that gives the
    hexadecimal SHA-256 digest of the encoded text. *)
Definition zone_checksum (sha256_hex : string -> string) (zone : Zone.t)
  : result string :=
  data <- export_bind_format zone ;;
  Ok (sha256_hex data).

(** A record that is not an NS record. *)
Definition not_ns (r : DnsRecord.t) : bool := negb (is_type "NS" r).

(* ------------------------------------------------------------------ *)
(** ** Databases as the schema constrains them *)
(* ------------------------------------------------------------------ *)


(** An imported record as the grammar shapes it. *)
Definition well_shaped (r : DnsRecord.t) : bool :=
  is_token (DnsRecord.name r)
  && is_token (DnsRecord.record_type r)
  && String.eqb (upper (DnsRecord.record_type r)) (DnsRecord.record_type r)
  && negb (String.eqb (DnsRecord.record_type r) "SOA")
  && is_normalized (DnsRecord.value r)
  && match DnsRecord.priority r with
     | Some p => str_in (DnsRecord.record_type r) ["MX"; "SRV"] && (0 <=? p)
     | None => true
     end.

(* ================================================================== *)
(** * Verification *)
(* ================================================================== *)

(* ------------------------------------------------------------------ *)
(** ** Case folding and the table of types *)
(* ------------------------------------------------------------------ *)

Ltac each_char c := destruct c as [[] [] [] [] [] [] [] []].

Lemma upper_char_idem c : upper_char (upper_char c) = upper_char c.
Proof. each_char c; reflexivity. Qed.

Lemma upper_idem s : upper (upper s) = upper s.
Proof.
  induction s as [|c s IH]; simpl; [reflexivity|].
  now rewrite upper_char_idem, IH.
Qed.

(** Membership in a literal tuple, as a disjunction of equalities. *)
Lemma str_in_cons s t l :
  str_in s (t :: l) = true <-> s = t \/ str_in s l = true.
Proof.
  unfold str_in; simpl. rewrite orb_true_iff, String.eqb_eq. tauto.
Qed.





Lemma err_if_nil c msg : err_if c msg = [] <-> c = false.
Proof. destruct c; simpl; split; intros H; auto; discriminate. Qed.

(* ------------------------------------------------------------------ *)
(** ** Concatenation *)
(* ------------------------------------------------------------------ *)

Lemma append_nil_r s : s ++ "" = s.
Proof. induction s as [|c s IH]; simpl; [reflexivity | now rewrite IH]. Qed.

Lemma append_assoc a b c : (a ++ b) ++ c = a ++ (b ++ c).
Proof. induction a as [|x a IH]; simpl; [reflexivity | now rewrite IH]. Qed.

(* ------------------------------------------------------------------ *)
(** ** Tokens, white space and splitting *)
(* ------------------------------------------------------------------ *)

Lemma forallb_str_app p a b :
  forallb_str p (a ++ b) = forallb_str p a && forallb_str p b.
Proof.
  induction a as [|c a IH]; simpl; [reflexivity|].
  now rewrite IH, andb_assoc.
Qed.

Lemma forallb_str_impl (p q : ascii -> bool) s :
  (forall c, p c = true -> q c = true) ->
  forallb_str p s = true -> forallb_str q s = true.
Proof.
  intros Hpq. induction s as [|c s IH]; simpl; [reflexivity|].
  rewrite !andb_true_iff. intros [H1 H2]. auto.
Qed.

Lemma is_token_cons c s :
  is_token (String c s) = true <->
  is_space c = false /\ forallb_str not_space s = true.
Proof.
  unfold is_token; simpl. unfold not_space at 1.
  rewrite andb_true_iff, negb_true_iff. tauto.
Qed.

Lemma is_token_inv t :
  is_token t = true ->
  exists c t', t = String c t' /\ is_space c = false
               /\ forallb_str not_space t' = true.
Proof.
  destruct t as [|c t']; [discriminate|].
  intros H. apply is_token_cons in H. exists c, t'. tauto.
Qed.

Lemma is_token_not_space t :
  is_token t = true -> forallb_str not_space t = true.
Proof. unfold is_token. rewrite andb_true_iff. tauto. Qed.

Lemma split_ws_nonspace_run t c r :
  forallb_str not_space t = true -> t <> "" -> is_space c = true ->
  split_ws (t ++ String c r) = t :: split_ws r.
Proof.
  induction t as [|x t IH]; [congruence|]. simpl forallb_str.
  rewrite andb_true_iff. unfold not_space at 1. rewrite negb_true_iff.
  intros [Hx Ht] _ Hc. simpl. rewrite Hx.
  destruct t as [|y t].
  - simpl. now rewrite Hc.
  - assert (Hy : is_space y = false).
    { simpl in Ht. apply andb_true_iff in Ht. unfold not_space in Ht.
      now rewrite negb_true_iff in Ht. }
    change (String y t ++ String c r) with (String y (t ++ String c r)).
    cbn [starts_nonspace]. rewrite Hy. cbn [negb].
    change (String y (t ++ String c r)) with (String y t ++ String c r).
    rewrite IH by (auto; discriminate). reflexivity.
Qed.

(** A token followed by a white-space character is the first word. *)
Lemma split_ws_token_cons t c r :
  is_token t = true -> is_space c = true ->
  split_ws (t ++ String c r) = t :: split_ws r.
Proof.
  intros Ht Hc. apply split_ws_nonspace_run; auto.
  - now apply is_token_not_space.
  - destruct t; [discriminate | discriminate].
Qed.

Lemma split_ws_snoc_space s c :
  is_space c = true -> split_ws (s ++ String c "") = split_ws s.
Proof.
  intros Hc. induction s as [|x s IH]; simpl.
  - now rewrite Hc.
  - rewrite IH. destruct s; simpl; [now rewrite Hc | reflexivity].
Qed.

Lemma split_ws_token t : is_token t = true -> split_ws t = [t].
Proof.
  intros Ht. rewrite <- (split_ws_snoc_space t " ") by reflexivity.
  now rewrite split_ws_token_cons.
Qed.

Lemma split_ws_tokens s : Forall (fun t => is_token t = true) (split_ws s).
Proof.
  induction s as [|c s IH]; simpl; [constructor|].
  destruct (is_space c) eqn:Hc; [exact IH|].
  destruct (starts_nonspace s).
  - destruct (split_ws s) as [|t ts].
    + repeat constructor. apply is_token_cons. auto.
    + inversion IH; subst. constructor; [|assumption].
      apply is_token_cons. split; [exact Hc|]. now apply is_token_not_space.
  - constructor; [|exact IH]. apply is_token_cons. auto.
Qed.

Lemma split_ws_join toks :
  Forall (fun t => is_token t = true) toks ->
  split_ws (join " " toks) = toks.
Proof.
  unfold join. induction 1 as [|t l Ht Hl IH]; [reflexivity|].
  destruct l as [|u l].
  - simpl. now apply split_ws_token.
  - change (String.concat " " (t :: u :: l))
      with (t ++ String " " (String.concat " " (u :: l))).
    rewrite split_ws_token_cons by auto. now rewrite IH.
Qed.

Lemma split_ws_lstrip s : split_ws (lstrip s) = split_ws s.
Proof.
  induction s as [|c s IH]; [reflexivity|]. simpl.
  destruct (is_space c) eqn:Hc; [exact IH|]. simpl. now rewrite Hc.
Qed.

Lemma starts_nonspace_rstrip s : starts_nonspace (rstrip s) = starts_nonspace s.
Proof.
  destruct s as [|c s]; [reflexivity|]. simpl.
  destruct (is_space c) eqn:Hc; simpl.
  - destruct (is_empty (rstrip s)); simpl; now rewrite ?Hc.
  - now rewrite Hc.
Qed.

Lemma split_ws_rstrip s : split_ws (rstrip s) = split_ws s.
Proof.
  induction s as [|c s IH]; [reflexivity|]. simpl.
  destruct (is_space c) eqn:Hc; simpl.
  - destruct (rstrip s) eqn:E; simpl.
    + now rewrite <- IH.
    + now rewrite Hc, <- IH.
  - rewrite Hc, <- IH, starts_nonspace_rstrip. reflexivity.
Qed.

Lemma split_ws_strip s : split_ws (strip s) = split_ws s.
Proof. unfold strip. now rewrite split_ws_rstrip, split_ws_lstrip. Qed.

Lemma rstrip_nonspace_app t r :
  forallb_str not_space t = true -> rstrip (t ++ r) = t ++ rstrip r.
Proof.
  induction t as [|x t IH]; [reflexivity|]. simpl.
  rewrite andb_true_iff. unfold not_space at 1. rewrite negb_true_iff.
  intros [Hx Ht]. now rewrite Hx, IH.
Qed.

Lemma rstrip_starts s : starts_nonspace s = false -> starts_nonspace (rstrip s) = false.
Proof. now rewrite starts_nonspace_rstrip. Qed.

(** A line that opens with a token keeps it under [strip]. *)
Lemma strip_token_app t r :
  is_token t = true -> starts_nonspace r = false ->
  exists r', strip (t ++ r) = t ++ r' /\ starts_nonspace r' = false.
Proof.
  intros Ht Hr. destruct (is_token_inv t Ht) as (c & t' & -> & Hc & Ht').
  exists (rstrip r). split; [|now apply rstrip_starts].
  unfold strip. simpl lstrip. rewrite Hc.
  change (String c (t' ++ r)) with (String c t' ++ r).
  apply rstrip_nonspace_app. simpl. unfold not_space at 1. now rewrite Hc.
Qed.

Lemma prefix_nonspace_app p t r :
  forallb_str not_space p = true -> starts_nonspace r = false ->
  String.prefix p (t ++ r) = String.prefix p t.
Proof.
  intros Hp Hr. revert p Hp. induction t as [|x t IH]; intros p Hp.
  - simpl. destruct p as [|a p]; [now destruct r|].
    destruct r as [|z r]; [reflexivity|]. simpl.
    destruct (ascii_dec a z) as [->|]; [|reflexivity].
    simpl in Hp, Hr. unfold not_space in Hp at 1.
    apply negb_false_iff in Hr. rewrite Hr in Hp. discriminate.
  - destruct p as [|a p]; [reflexivity|]. simpl.
    destruct (ascii_dec a x); [|reflexivity].
    apply IH. simpl in Hp. apply andb_true_iff in Hp. tauto.
Qed.

Lemma strip_nonspace s : forallb_str not_space s = true -> strip s = s.
Proof.
  intros H. unfold strip.
  assert (Hl : lstrip s = s).
  { destruct s as [|c s]; [reflexivity|]. simpl in *.
    apply andb_true_iff in H. unfold not_space in H at 1.
    destruct H as [H _]. apply negb_true_iff in H. now rewrite H. }
  rewrite Hl. rewrite <- (append_nil_r s) at 1.
  rewrite rstrip_nonspace_app by exact H. apply append_nil_r.
Qed.

(** What the loop sees of a line that opens with a token and a space. *)
Lemma token_line_facts t c rest p :
  is_token t = true -> is_space c = true ->
  forallb_str not_space p = true ->
  let line := strip ((t ++ String c rest) ++ NL) in
  is_empty line = false
  /\ startswith line p = startswith t p
  /\ split_ws line = t :: split_ws rest.
Proof.
  intros Ht Hc Hp line.
  assert (Hsp : starts_nonspace (String c rest ++ NL) = false)
    by (simpl; now rewrite Hc).
  destruct (strip_token_app t (String c rest ++ NL) Ht Hsp) as (r' & Hr' & Hs).
  subst line. rewrite append_assoc. split; [|split].
  - rewrite Hr'. destruct (is_token_inv t Ht) as (x & t' & -> & _). reflexivity.
  - unfold startswith. rewrite Hr'. now apply prefix_nonspace_app.
  - rewrite split_ws_strip.
    change (String c rest ++ NL) with (String c (rest ++ NL)).
    rewrite split_ws_token_cons by assumption.
    unfold NL. now rewrite split_ws_snoc_space.
Qed.

(* ------------------------------------------------------------------ *)
(** ** Printing and reading integers *)
(* ------------------------------------------------------------------ *)

Lemma string_of_uint_digits d :
  forallb_str is_digit (NilEmpty.string_of_uint d) = true.
Proof. induction d; simpl; auto. Qed.

Lemma string_of_uint_empty d : NilEmpty.string_of_uint d = "" -> d = Nil.
Proof. destruct d; simpl; intros H; congruence. Qed.

Lemma str_of_Z_nonneg z :
  0 <= z ->
  exists d, d <> Nil /\ str_of_Z z = NilEmpty.string_of_uint d
            /\ Z.of_uint d = z.
Proof.
  intros Hz. unfold str_of_Z. destruct z as [|p|p]; [| |lia].
  - exists (D0 Nil). repeat split. discriminate.
  - exists (Pos.to_uint p). split; [apply Unsigned.to_uint_nonnil|].
    split; [reflexivity|].
    change (Z.of_uint (Pos.to_uint p)) with (Z.of_int (Z.to_int (Z.pos p))).
    apply DecimalZ.of_to.
Qed.

Lemma digit_not_space c : is_digit c = true -> not_space c = true.
Proof. each_char c; intros H; try discriminate H; reflexivity. Qed.

Lemma digit_one_line c : is_digit c = true -> not_linebreak c = true.
Proof. each_char c; intros H; try discriminate H; reflexivity. Qed.

Lemma isdigit_str_of_Z z : 0 <= z -> isdigit (str_of_Z z) = true.
Proof.
  intros Hz. destruct (str_of_Z_nonneg z Hz) as (d & Hd & -> & _).
  unfold isdigit. rewrite string_of_uint_digits, andb_true_r.
  destruct (NilEmpty.string_of_uint d) eqn:E; [|reflexivity].
  apply string_of_uint_empty in E. contradiction.
Qed.

Lemma isdigit_is_token s : isdigit s = true -> is_token s = true.
Proof.
  unfold isdigit, is_token. rewrite !andb_true_iff. intros [H1 H2].
  split; [exact H1|]. revert H2. apply forallb_str_impl, digit_not_space.
Qed.

Lemma is_token_str_of_Z z : 0 <= z -> is_token (str_of_Z z) = true.
Proof. intros Hz. now apply isdigit_is_token, isdigit_str_of_Z. Qed.

Lemma int_digits_plain s :
  isdigit s = true -> int_digits s = Some s.
Proof.
  unfold isdigit. rewrite andb_true_iff. intros [Hne Hd].
  induction s as [|c s IH]; [discriminate|].
  simpl in Hd. apply andb_true_iff in Hd. destruct Hd as [Hc Hs].
  simpl. rewrite Hc. destruct s as [|c' s']; [reflexivity|].
  assert (Hc' : is_digit c' = true)
    by (simpl in Hs; apply andb_true_iff in Hs; tauto).
  destruct (Ascii.eqb_spec c' "_") as [->|_]; [discriminate Hc'|].
  rewrite IH by auto. reflexivity.
Qed.

Lemma py_int_digits s :
  isdigit s = true ->
  py_int s = option_map Z.of_uint (NilEmpty.uint_of_string s).
Proof.
  intros Hs. unfold py_int.
  rewrite strip_nonspace by now apply is_token_not_space, isdigit_is_token.
  assert (Hn : nat_literal s
               = option_map Z.of_uint (NilEmpty.uint_of_string s))
    by (unfold nat_literal; now rewrite int_digits_plain).
  destruct s as [|c s]; [discriminate|].
  assert (Hc : is_digit c = true).
  { unfold isdigit in Hs. simpl in Hs. apply andb_true_iff in Hs. tauto. }
  revert Hn. each_char c; try discriminate Hc; intros ->; reflexivity.
Qed.

(** [int(str(n))] is [n], for [n] at least 0. *)
Lemma py_int_str_of_Z z : 0 <= z -> py_int (str_of_Z z) = Some z.
Proof.
  intros Hz. rewrite py_int_digits by now apply isdigit_str_of_Z.
  destruct (str_of_Z_nonneg z Hz) as (d & _ & -> & Hv).
  now rewrite NilEmpty.usu; simpl; rewrite Hv.
Qed.

Lemma count_digits_all s :
  forallb_str is_digit s = true -> count_digits s = String.length s.
Proof.
  induction s as [|c s IH]; [reflexivity|].
  cbn [forallb_str count_digits String.length].
  rewrite andb_true_iff. intros [-> Hs]. now rewrite IH.
Qed.

Lemma count_digits_le s : (count_digits s <= String.length s)%nat.
Proof.
  induction s as [|c s IH]; [apply Nat.le_refl|].
  cbn [count_digits String.length]. destruct (is_digit c); lia.
Qed.

(** A number that is at least 0 is within the conversion limit when its
    text has at most [max_str_digits] characters. *)
Lemma printable_nonneg z :
  0 <= z ->
  printable z = (String.length (str_of_Z z) <=? max_str_digits)%nat.
Proof. intros Hz. unfold printable. now rewrite Z.abs_eq. Qed.

(** [int(str(n))] is [n], for [n] at least 0 and within the limit. *)
Lemma int_of_str_str_of_Z z :
  0 <= z -> printable z = true -> int_of_str (str_of_Z z) = Ok z.
Proof.
  intros Hz Hp. unfold int_of_str. rewrite py_int_str_of_Z by exact Hz.
  rewrite printable_nonneg in Hp by exact Hz. apply Nat.leb_le in Hp.
  pose proof (count_digits_le (str_of_Z z)) as Hc.
  destruct (Nat.ltb_spec max_str_digits (count_digits (str_of_Z z)));
    [lia | reflexivity].
Qed.

Lemma one_line_str_of_Z z : 0 <= z -> one_line (str_of_Z z) = true.
Proof.
  intros Hz. destruct (str_of_Z_nonneg z Hz) as (d & _ & -> & _).
  unfold one_line. eapply forallb_str_impl; [apply digit_one_line|].
  apply string_of_uint_digits.
Qed.

(* ------------------------------------------------------------------ *)
(** ** The words of the validator patterns *)
(* ------------------------------------------------------------------ *)

Lemma accepts_Void s : accepts Void s = false.
Proof. induction s; simpl; auto. Qed.

Lemma accepts_Eps s : accepts Eps s = is_empty s.
Proof. destruct s; simpl; [reflexivity | apply accepts_Void]. Qed.

Lemma accepts_Alt a b s : accepts (Alt a b) s = accepts a s || accepts b s.
Proof. revert a b. induction s as [|c s IH]; intros a b; simpl; auto. Qed.

Lemma accepts_Cat_Void r s : accepts (Cat Void r) s = false.
Proof. induction s; simpl; auto. Qed.

Lemma accepts_Cat_Eps r s : accepts (Cat Eps r) s = accepts r s.
Proof.
  destruct s as [|c s]; simpl; [reflexivity|].
  now rewrite accepts_Alt, accepts_Cat_Void.
Qed.

Lemma accepts_Cls p s :
  accepts (Cls p) s
  = match s with
    | String c EmptyString => p c
    | _ => false
    end.
Proof.
  destruct s as [|c s]; simpl; [reflexivity|].
  destruct (p c).
  - rewrite accepts_Eps. destruct s; reflexivity.
  - rewrite accepts_Void. destruct s; reflexivity.
Qed.

(** A pattern that begins with a character class. *)
Lemma accepts_Cls_Cat p r s :
  accepts (Cat (Cls p) r) s
  = match s with
    | String c t => p c && accepts r t
    | EmptyString => false
    end.
Proof.
  destruct s as [|c s]; simpl; [reflexivity|].
  destruct (p c); [apply accepts_Cat_Eps | apply accepts_Cat_Void].
Qed.

Lemma accepts_Cat a b s :
  accepts (Cat a b) s = true <->
  exists s1 s2, s = s1 ++ s2 /\ accepts a s1 = true /\ accepts b s2 = true.
Proof.
  revert a b. induction s as [|c s IH]; intros a b.
  - simpl. rewrite andb_true_iff. split.
    + intros [Ha Hb]. exists "", "". auto.
    + intros (s1 & s2 & E & Ha & Hb).
      destruct s1; [|discriminate]. destruct s2; [|discriminate]. auto.
  - simpl. split.
    + intros H. destruct (nullable a) eqn:Na.
      * rewrite accepts_Alt in H. apply orb_true_iff in H.
        destruct H as [H|H].
        -- apply IH in H. destruct H as (s1 & s2 & -> & H1 & H2).
           exists (String c s1), s2. auto.
        -- exists "", (String c s). auto.
      * apply IH in H. destruct H as (s1 & s2 & -> & H1 & H2).
        exists (String c s1), s2. auto.
    + intros (s1 & s2 & E & H1 & H2). destruct s1 as [|c1 s1].
      * simpl in E. subst s2. simpl in H1, H2. rewrite H1, accepts_Alt, H2.
        apply orb_true_r.
      * simpl in E. injection E as <- ->. simpl in H1.
        assert (H : accepts (Cat (deriv c a) b) (s1 ++ s2) = true)
          by (apply IH; eauto).
        destruct (nullable a); [|exact H].
        rewrite accepts_Alt, H. reflexivity.
Qed.

Lemma accepts_Star_Cls p s : accepts (Star (Cls p)) s = forallb_str p s.
Proof.
  induction s as [|c s IH]; [reflexivity|]. simpl.
  destruct (p c); simpl.
  - now rewrite accepts_Cat_Eps.
  - apply accepts_Cat_Void.
Qed.

Lemma accepts_Opt r s : accepts (Opt r) s = accepts r s || is_empty s.
Proof. unfold Opt. now rewrite accepts_Alt, accepts_Eps. Qed.

(** [[a-zA-Z0-9._-]+\.?] matches the non-empty strings over the class: the
    optional dot is itself in the class. *)
Lemma accepts_re_host s : accepts re_host s = spec_hostname_like s.
Proof.
  apply eq_true_iff_eq. unfold re_host, spec_hostname_like.
  rewrite accepts_Cat. split.
  - intros (s1 & s2 & -> & H1 & H2).
    unfold Plus in H1. rewrite accepts_Cls_Cat in H1.
    destruct s1 as [|c s1]; [discriminate|].
    apply andb_true_iff in H1. destruct H1 as [Hc H1].
    rewrite accepts_Star_Cls in H1.
    rewrite accepts_Opt in H2. unfold Chr in H2. rewrite accepts_Cls in H2.
    simpl. rewrite Hc, forallb_str_app, H1. simpl.
    destruct s2 as [|d [|e s2]]; [reflexivity| |discriminate H2].
    cbn [is_empty] in H2. rewrite orb_false_r in H2.
    apply Ascii.eqb_eq in H2. subst d. reflexivity.
  - intros H. apply andb_true_iff in H. destruct H as [Hne Hall].
    exists s, "". rewrite append_nil_r. split; [reflexivity|].
    split; [|reflexivity].
    unfold Plus. rewrite accepts_Cls_Cat.
    destruct s as [|c s]; [discriminate|].
    simpl in Hall. now rewrite accepts_Star_Cls.
Qed.

Lemma accepts_RepUpTo p k s :
  accepts (RepUpTo k (Cls p)) s
  = forallb_str p s && (String.length s <=? k)%nat.
Proof.
  revert s. induction k as [|k IH]; intros s.
  - simpl RepUpTo. rewrite accepts_Eps. destruct s as [|c s]; [reflexivity|].
    simpl. now rewrite andb_false_r.
  - simpl RepUpTo. rewrite accepts_Opt, accepts_Cls_Cat.
    destruct s as [|c s]; [reflexivity|].
    rewrite IH. simpl. now rewrite orb_false_r, andb_assoc.
Qed.

Lemma accepts_Rep p m k s :
  accepts (Rep m k (Cls p)) s
  = forallb_str p s && (m <=? String.length s)%nat
    && (String.length s <=? m + k)%nat.
Proof.
  revert s. induction m as [|m IH]; intros s.
  - simpl Rep. rewrite accepts_RepUpTo. now rewrite andb_true_r.
  - simpl Rep. rewrite accepts_Cls_Cat. destruct s as [|c s].
    + reflexivity.
    + rewrite IH. simpl. now rewrite !andb_assoc.
Qed.

(** [[0-9a-fA-F:]{2,39}] *)
Lemma accepts_re_AAAA s : accepts re_AAAA s = spec_hex_colon s.
Proof.
  unfold re_AAAA, spec_hex_colon. rewrite accepts_Rep. reflexivity.
Qed.

Lemma accepts_Cat_Alt a b r s :
  accepts (Cat (Alt a b) r) s = accepts (Cat a r) s || accepts (Cat b r) s.
Proof.
  apply eq_true_iff_eq. rewrite orb_true_iff, !accepts_Cat. split.
  - intros (s1 & s2 & -> & H1 & H2). rewrite accepts_Alt in H1.
    apply orb_true_iff in H1. destruct H1 as [H1|H1]; [left|right]; eauto.
  - intros [(s1 & s2 & -> & H1 & H2)|(s1 & s2 & -> & H1 & H2)];
      exists s1, s2; rewrite accepts_Alt, H1; auto using orb_true_r.
Qed.

Lemma digit_cases c :
  is_digit c = true ->
  In c ["0"; "1"; "2"; "3"; "4"; "5"; "6"; "7"; "8"; "9"]%char.
Proof. each_char c; intros H; try discriminate H; simpl; tauto. Qed.

Lemma nondigit_classes c :
  is_digit c = false ->
  Ascii.eqb "2" c = false /\ Ascii.eqb "5" c = false
  /\ in_range "0" "5" c = false /\ in_range "0" "4" c = false
  /\ in_range "0" "1" c = false.
Proof. each_char c; intros H; try discriminate H; repeat split. Qed.

(** The words of the octet pattern, by length. *)
Lemma accepts_re_octet_unfold o :
  accepts re_octet o
  = match o with
    | String a EmptyString => is_digit a
    | String a (String b EmptyString) => is_digit a && is_digit b
    | String a (String b (String c EmptyString)) =>
        Ascii.eqb "2" a && (Ascii.eqb "5" b && in_range "0" "5" c)
        || (Ascii.eqb "2" a && (in_range "0" "4" b && is_digit c)
            || in_range "0" "1" a && (is_digit b && is_digit c))
    | _ => false
    end.
Proof.
  unfold re_octet, Opt, Chr.
  rewrite !accepts_Alt, accepts_Cat_Alt, accepts_Cat_Eps, !accepts_Cls_Cat.
  destruct o as [|a [|b [|c [|d o]]]];
    repeat (rewrite ?accepts_Cls_Cat, ?accepts_Cls, ?accepts_Alt, ?accepts_Eps;
            cbn [is_empty]);
    rewrite ?andb_false_r, ?orb_false_r, ?andb_true_r; cbn [orb andb];
    try reflexivity.
  destruct (is_digit a) eqn:Ha.
  - destruct (in_range "0" "1" a), (is_digit b); reflexivity.
  - destruct (nondigit_classes a Ha) as (_ & _ & _ & _ & ->). reflexivity.
Qed.

Lemma spec_octet_unfold o :
  spec_octet o
  = match o with
    | String a EmptyString => is_digit a
    | String a (String b EmptyString) => is_digit a && is_digit b
    | String a (String b (String c EmptyString)) =>
        is_digit a && is_digit b && is_digit c
        && (digits_value 0 o <=? 255)
    | _ => false
    end.
Proof.
  unfold spec_octet, isdigit.
  destruct o as [|a [|b [|c [|d o]]]]; cbn [is_empty negb forallb_str andb
    String.length Nat.leb].
  - reflexivity.
  - destruct (is_digit a) eqn:Ha; [|reflexivity].
    apply digit_cases in Ha. simpl in Ha.
    repeat (destruct Ha as [<-|Ha]; [reflexivity|]). destruct Ha.
  - destruct (is_digit a) eqn:Ha; [|reflexivity].
    destruct (is_digit b) eqn:Hb; [|reflexivity].
    apply digit_cases in Ha, Hb. simpl in Ha, Hb.
    repeat (destruct Ha as [<-|Ha];
            [repeat (destruct Hb as [<-|Hb]; [reflexivity|]); destruct Hb|]).
    destruct Ha.
  - now rewrite !andb_true_r, !andb_assoc.
  - now rewrite !andb_false_r.
Qed.

(** The octet pattern matches the decimal numbers from 0 to 255 written
    with one to three digits. *)
Lemma accepts_re_octet o : accepts re_octet o = spec_octet o.
Proof.
  rewrite accepts_re_octet_unfold, spec_octet_unfold.
  destruct o as [|a [|b [|c [|d o]]]]; try reflexivity.
  destruct (is_digit a) eqn:Ha.
  2:{ destruct (nondigit_classes a Ha) as (-> & _ & _ & _ & ->). reflexivity. }
  destruct (is_digit b) eqn:Hb.
  2:{ destruct (nondigit_classes b Hb) as (_ & -> & _ & -> & _).
      cbn [andb]. now rewrite !andb_false_r. }
  destruct (is_digit c) eqn:Hc.
  2:{ destruct (nondigit_classes c Hc) as (_ & _ & -> & _ & _).
      cbn [andb]. now rewrite !andb_false_r. }
  apply digit_cases in Ha, Hb, Hc. simpl in Ha, Hb, Hc.
  repeat (destruct Ha as [<-|Ha];
    [repeat (destruct Hb as [<-|Hb];
       [repeat (destruct Hc as [<-|Hc]; [reflexivity|]); destruct Hc|]);
     destruct Hb|]).
  destruct Ha.
Qed.

Lemma split_on_not_nil sep s : split_on sep s <> [].
Proof.
  destruct s as [|c s]; simpl; [discriminate|].
  destruct (Ascii.eqb c sep); [discriminate|].
  destruct (split_on sep s); discriminate.
Qed.

Lemma join_split_on sep s : join (String sep "") (split_on sep s) = s.
Proof.
  unfold join. induction s as [|c s IH]; [reflexivity|]. simpl.
  destruct (Ascii.eqb_spec c sep) as [->|_].
  - destruct (split_on sep s) as [|p ps] eqn:E.
    + now apply split_on_not_nil in E.
    + simpl. simpl in IH. now rewrite IH.
  - destruct (split_on sep s) as [|p ps] eqn:E.
    + now apply split_on_not_nil in E.
    + destruct ps; simpl in *; now rewrite IH.
Qed.

Lemma split_on_piece sep o rest :
  forallb_str (not_char sep) o = true ->
  split_on sep (o ++ String sep rest) = o :: split_on sep rest.
Proof.
  induction o as [|c o IH]; simpl.
  - now rewrite Ascii.eqb_refl.
  - rewrite andb_true_iff. unfold not_char at 1. rewrite negb_true_iff.
    intros [Hc Ho]. now rewrite Hc, IH.
Qed.

Lemma split_on_last sep o :
  forallb_str (not_char sep) o = true -> split_on sep o = [o].
Proof.
  induction o as [|c o IH]; simpl; [reflexivity|].
  rewrite andb_true_iff. unfold not_char at 1. rewrite negb_true_iff.
  intros [Hc Ho]. now rewrite Hc, IH.
Qed.

Lemma digit_not_dot c : is_digit c = true -> not_char "." c = true.
Proof. each_char c; intros H; try discriminate H; reflexivity. Qed.

Lemma spec_octet_no_dot o :
  spec_octet o = true -> forallb_str (not_char ".") o = true.
Proof.
  unfold spec_octet, isdigit. rewrite !andb_true_iff.
  intros [[[_ H] _] _]. revert H. apply forallb_str_impl, digit_not_dot.
Qed.

Lemma accepts_Chr c s : accepts (Chr c) s = true -> s = String c "".
Proof.
  unfold Chr. rewrite accepts_Cls.
  destruct s as [|d [|e s]]; try discriminate.
  intros H. apply Ascii.eqb_eq in H. now subst.
Qed.

(** The pattern of type A matches the dotted quads. *)
Lemma accepts_re_A s : accepts re_A s = spec_dotted_quad s.
Proof.
  apply eq_true_iff_eq. unfold re_A, spec_dotted_quad. split.
  - intros H.
    apply accepts_Cat in H. destruct H as (o1 & r1 & -> & Ho1 & H).
    apply accepts_Cat in H. destruct H as (d1 & r2 & -> & Hd1 & H).
    apply accepts_Cat in H. destruct H as (o2 & r3 & -> & Ho2 & H).
    apply accepts_Cat in H. destruct H as (d2 & r4 & -> & Hd2 & H).
    apply accepts_Cat in H. destruct H as (o3 & r5 & -> & Ho3 & H).
    apply accepts_Cat in H. destruct H as (d3 & o4 & -> & Hd3 & Ho4).
    apply accepts_Chr in Hd1, Hd2, Hd3. subst d1 d2 d3.
    rewrite accepts_re_octet in Ho1, Ho2, Ho3, Ho4.
    change (String "." "" ++ ?x) with (String "." x).
    cbn [append].
    rewrite !split_on_piece, split_on_last by now apply spec_octet_no_dot.
    cbn [List.length Nat.eqb forallb andb].
    now rewrite Ho1, Ho2, Ho3, Ho4.
  - intros H. apply andb_true_iff in H. destruct H as [Hl Hall].
    rewrite <- (join_split_on "." s).
    destruct (split_on "." s) as [|o1 [|o2 [|o3 [|o4 [|o5 l]]]]];
      try discriminate Hl.
    cbn [forallb] in Hall. rewrite andb_true_r in Hall.
    apply andb_true_iff in Hall. destruct Hall as [H1 Hall].
    apply andb_true_iff in Hall. destruct Hall as [H2 Hall].
    apply andb_true_iff in Hall. destruct Hall as [H3 H4].
    rewrite <- accepts_re_octet in H1, H2, H3, H4.
    unfold join. cbn [String.concat].
    repeat (apply accepts_Cat; eexists; eexists;
            split; [reflexivity|]; split;
            [first [eassumption | reflexivity]|]).
    exact H4.
Qed.

(* ------------------------------------------------------------------ *)
(** ** validate_record against the specification's wording *)
(* ------------------------------------------------------------------ *)

Lemma re_match_no_newline r v :
  chop_newline v = None -> re_match r v = accepts r v.
Proof. intros H. unfold re_match. rewrite H. apply orb_false_r. Qed.

Lemma validators_spec t v :
  match _VALIDATORS t with
  | Some r => accepts r v
  | None => true
  end = spec_syntax_ok t v.
Proof.
  unfold _VALIDATORS, spec_syntax_ok.
  destruct (String.eqb_spec t "A"); [apply accepts_re_A|].
  destruct (String.eqb_spec t "AAAA"); [apply accepts_re_AAAA|].
  unfold str_in. cbn [existsb].
  destruct (String.eqb_spec t "CNAME"); [apply accepts_re_host|].
  destruct (String.eqb_spec t "MX"); [apply accepts_re_host|].
  destruct (String.eqb_spec t "NS"); [apply accepts_re_host|].
  destruct (String.eqb_spec t "PTR"); [apply accepts_re_host|].
  reflexivity.
Qed.

Lemma validators_reject_empty t r :
  _VALIDATORS t = Some r -> accepts r "" = false.
Proof.
  unfold _VALIDATORS.
  repeat match goal with
         | |- (if ?b then _ else _) = _ -> _ => destruct b
         end; intros [= <-]; reflexivity.
Qed.

Lemma app_nil_iff {A} (l1 l2 : list A) :
  (l1 ++ l2)%list = [] <-> l1 = [] /\ l2 = [].
Proof.
  split.
  - apply app_eq_nil.
  - intros [-> ->]. reflexivity.
Qed.

(** The six checks of [validate_record], as one condition. *)
Lemma validate_record_nil r :
  validate_record r = [] <->
  str_in (DnsRecord.record_type r) VALID_TYPES = true
  /\ is_empty (DnsRecord.name r) = false
  /\ is_empty (DnsRecord.value r) = false
  /\ (DnsRecord.ttl r <? 0) = false
  /\ match _VALIDATORS (DnsRecord.record_type r) with
     | Some validator => re_match validator (DnsRecord.value r)
     | None => true
     end = true
  /\ (str_in (DnsRecord.record_type r) ["MX"; "SRV"]
      && is_none (DnsRecord.priority r)) = false.
Proof.
  unfold validate_record.
  rewrite !app_nil_iff, !err_if_nil, negb_false_iff.
  destruct (_VALIDATORS (DnsRecord.record_type r)) as [rx|].
  - rewrite negb_false_iff. tauto.
  - tauto.
Qed.

Lemma spec_record_valid_iff r :
  spec_record_valid r = true <->
  str_in (DnsRecord.record_type r) VALID_TYPES = true
  /\ is_empty (DnsRecord.name r) = false
  /\ is_empty (DnsRecord.value r) = false
  /\ (DnsRecord.ttl r <? 0) = false
  /\ spec_syntax_ok (DnsRecord.record_type r) (DnsRecord.value r) = true
  /\ (str_in (DnsRecord.record_type r) ["MX"; "SRV"]
      && is_none (DnsRecord.priority r)) = false.
Proof.
  unfold spec_record_valid.
  rewrite !andb_true_iff, !negb_true_iff, Z.leb_le, Z.ltb_ge.
  rewrite andb_false_iff, orb_true_iff, !negb_true_iff. tauto.
Qed.

(** For a value of ASCII text that does not end in a line feed,
    [validate_record] reports nothing exactly when the record is valid in
    the specification's words. *)
Lemma validate_record_spec r :
  ascii_text (DnsRecord.value r) = true ->
  chop_newline (DnsRecord.value r) = None ->
  validate_record r = [] <-> spec_record_valid r = true.
Proof.
  intros _ Hnl. rewrite validate_record_nil, spec_record_valid_iff.
  rewrite <- validators_spec.
  destruct (_VALIDATORS (DnsRecord.record_type r)) as [rx|];
    [rewrite re_match_no_newline by exact Hnl|]; tauto.
Qed.

(** In general, on ASCII text, [validate_record] reports nothing exactly
    when the record is valid in the specification's words, or is a record of
    a type with a pattern that becomes valid once the line feed that ends
    its value is removed. *)
Lemma validate_record_spec_upto_newline r :
  ascii_text (DnsRecord.value r) = true ->
  validate_record r = [] <->
  spec_record_valid r = true
  \/ exists v,
       chop_newline (DnsRecord.value r) = Some v
       /\ _VALIDATORS (DnsRecord.record_type r) <> None
       /\ spec_record_valid (DnsRecord.with_value r v) = true.
Proof.
  intros _. rewrite validate_record_nil, !spec_record_valid_iff.
  split.
  - intros (Ht & Hn & Hv & Httl & Hm & Hp).
    destruct (_VALIDATORS (DnsRecord.record_type r)) as [rx|] eqn:Erx.
    + unfold re_match in Hm. apply orb_true_iff in Hm. destruct Hm as [Hm|Hm].
      * left. rewrite <- validators_spec, Erx. tauto.
      * destruct (chop_newline (DnsRecord.value r)) as [v|] eqn:Ev;
          [|discriminate].
        right. exists v. split; [reflexivity|]. split; [discriminate|].
        apply spec_record_valid_iff. cbn [DnsRecord.with_value
          DnsRecord.record_type DnsRecord.name DnsRecord.value DnsRecord.ttl
          DnsRecord.priority].
        rewrite <- validators_spec, Erx.
        repeat split; try assumption.
        destruct v; [|reflexivity].
        rewrite (validators_reject_empty _ _ Erx) in Hm. discriminate.
    + left. rewrite <- validators_spec, Erx. tauto.
  - intros [(Ht & Hn & Hv & Httl & Hs & Hp)|(v & Ev & Hrx & H)].
    + rewrite <- validators_spec in Hs.
      destruct (_VALIDATORS (DnsRecord.record_type r)) as [rx|];
        [|tauto].
      unfold re_match. rewrite Hs. tauto.
    + apply spec_record_valid_iff in H. cbn [DnsRecord.with_value
        DnsRecord.record_type DnsRecord.name DnsRecord.value DnsRecord.ttl
        DnsRecord.priority] in H.
      destruct H as (Ht & Hn & Hv & Httl & Hs & Hp).
      rewrite <- validators_spec in Hs.
      destruct (_VALIDATORS (DnsRecord.record_type r)) as [rx|];
        [|congruence].
      unfold re_match. rewrite Ev, Hs, orb_true_r.
      repeat split; try assumption.
      destruct (DnsRecord.value r); [discriminate Ev | reflexivity].
Qed.

(* ------------------------------------------------------------------ *)
(** ** validate_record and the trailing line feed *)
(* ------------------------------------------------------------------ *)

(** C5.  [validate_record] reports nothing for an A record whose value is
    a dotted quad followed by a line feed, a value that is not a dotted quad:
    the [$] of the patterns also matches before a final line feed. *)
Theorem validate_record_accepts_trailing_newline :
  validate_record newline_record = []
  /\ spec_record_valid newline_record = false
  /\ spec_dotted_quad (DnsRecord.value newline_record) = false.
Proof. repeat split; vm_compute; reflexivity. Qed.

(* ------------------------------------------------------------------ *)
(** ** add_record *)
(* ------------------------------------------------------------------ *)




Lemma add_record_ok_appends zone rt name value ttl prio conn rec zone' conn' :
  add_record zone rt name value ttl prio conn = (Ok rec, zone', conn') ->
  DnsRecord.record_type rec = upper rt /\
  Zone.records zone' = (Zone.records zone ++ [rec])%list.
Proof.
  unfold add_record.
  destruct (validate_record _) as [|e es]; [|discriminate].
  destruct conn as [db|], (Zone.zone_id zone) as [zid|];
    try (intros [= <- <- <-]; simpl; auto).
  destruct (truthy_id (Some zid)); [|intros [= <- <- <-]; simpl; auto].
  destruct (insert_record _ _ _) as [[rid db']|e]; [|discriminate].
  intros [= <- <- <-]; simpl. split; [reflexivity|].
  unfold set_last. now rewrite removelast_last.
Qed.





(* ------------------------------------------------------------------ *)
(** ** The ordering of sort keys *)
(* ------------------------------------------------------------------ *)

Lemma lex_lt_irrefl s : ~ lex_lt s s.
Proof.
  induction s as [|c s IH]; intros H; inversion H; subst.
  - lia.
  - auto.
Qed.

Lemma lex_lt_trans a b c : lex_lt a b -> lex_lt b c -> lex_lt a c.
Proof.
  intros Hab. revert c.
  induction Hab as [c0 s|c1 c2 s1 s2 Hlt|c0 s1 s2 Hlt IH]; intros c Hbc;
    inversion Hbc; subst.
  - constructor.
  - constructor.
  - apply lex_lt_head. lia.
  - now apply lex_lt_head.
  - now apply lex_lt_head.
  - apply lex_lt_tail. now apply IH.
Qed.

Lemma N_of_ascii_inj c1 c2 : N_of_ascii c1 = N_of_ascii c2 -> c1 = c2.
Proof.
  intros H. rewrite <- (ascii_N_embedding c1), <- (ascii_N_embedding c2).
  now rewrite H.
Qed.

Lemma compare_Lt_lex a b : String.compare a b = Lt <-> lex_lt a b.
Proof.
  revert b. induction a as [|c a IH]; intros [|d b]; simpl.
  - split; [discriminate | intros H; inversion H].
  - split; [constructor | reflexivity].
  - split; [discriminate | intros H; inversion H].
  - unfold Ascii.compare.
    destruct (N.compare_spec (N_of_ascii c) (N_of_ascii d)) as [E|L|G].
    + apply N_of_ascii_inj in E. subst d. rewrite IH. split.
      * apply lex_lt_tail.
      * intros H; inversion H; subst; [lia | assumption].
    + split; [intros _; now apply lex_lt_head | reflexivity].
    + split; [discriminate|].
      intros H; inversion H; subst; [lia | lia].
Qed.

Lemma compare_Eq_eq a b : String.compare a b = Eq <-> a = b.
Proof.
  split; [apply String.compare_eq_iff|].
  intros ->. induction b as [|c b IH]; simpl; [reflexivity|].
  unfold Ascii.compare. now rewrite N.compare_refl.
Qed.

Lemma leb_lex_le a b : String.leb a b = true <-> lex_le a b.
Proof.
  unfold String.leb, lex_le.
  destruct (String.compare a b) eqn:E.
  - apply compare_Eq_eq in E. tauto.
  - apply compare_Lt_lex in E. tauto.
  - split; [discriminate|]. intros [H|H].
    + apply compare_Eq_eq in H. congruence.
    + apply compare_Lt_lex in H. congruence.
Qed.

(** The comparison of keys decides the lexicographic order of pairs. *)
Lemma key_le_pair_le k1 k2 : key_le k1 k2 = true <-> pair_le k1 k2.
Proof.
  unfold key_le, pair_le.
  destruct (String.compare (fst k1) (fst k2)) eqn:E.
  - apply compare_Eq_eq in E. rewrite leb_lex_le. split.
    + intros H. right. split; assumption.
    + intros [H|[_ H]]; [|exact H].
      rewrite E in H. now apply lex_lt_irrefl in H.
  - apply compare_Lt_lex in E. tauto.
  - split; [discriminate|]. intros [H|[H _]].
    + apply compare_Lt_lex in H. congruence.
    + apply compare_Eq_eq in H. congruence.
Qed.

Lemma lex_le_trans a b c : lex_le a b -> lex_le b c -> lex_le a c.
Proof.
  intros [->|Hab] [->|Hbc]; unfold lex_le; auto.
  right. eapply lex_lt_trans; eassumption.
Qed.

Lemma pair_le_trans k1 k2 k3 : pair_le k1 k2 -> pair_le k2 k3 -> pair_le k1 k3.
Proof.
  unfold pair_le.
  intros [H12|[E12 H12]] [H23|[E23 H23]].
  - left. eapply lex_lt_trans; eassumption.
  - left. now rewrite <- E23.
  - left. now rewrite E12.
  - right. split; [congruence|]. eapply lex_le_trans; eassumption.
Qed.

Lemma pair_le_refl k : pair_le k k.
Proof. right. split; [reflexivity | now left]. Qed.

Lemma key_le_total k1 k2 : key_le k1 k2 = false -> pair_le k2 k1.
Proof.
  unfold key_le, pair_le. rewrite String.compare_antisym.
  destruct (String.compare (fst k2) (fst k1)) eqn:E; simpl.
  - unfold String.leb. rewrite String.compare_antisym.
    destruct (String.compare (snd k2) (snd k1)) eqn:E2; simpl;
      try discriminate.
    intros _. right. split; [now apply compare_Eq_eq|].
    right. now apply compare_Lt_lex.
  - intros _. left. now apply compare_Lt_lex.
  - discriminate.
Qed.

(* ------------------------------------------------------------------ *)
(** ** The sort of the exporter *)
(* ------------------------------------------------------------------ *)

Lemma insert_by_key_perm r l : Permutation (r :: l) (insert_by_key r l).
Proof.
  induction l as [|y l IH]; simpl; [apply Permutation_refl|].
  destruct (key_le (sort_key r) (sort_key y)); [apply Permutation_refl|].
  eapply perm_trans; [apply perm_swap|]. now apply perm_skip.
Qed.

Lemma sort_by_key_perm l : Permutation l (sort_by_key l).
Proof.
  induction l as [|r l IH]; simpl; [constructor|].
  eapply perm_trans; [apply perm_skip, IH | apply insert_by_key_perm].
Qed.

Lemma insert_by_key_sorted r l :
  StronglySorted record_le l -> StronglySorted record_le (insert_by_key r l).
Proof.
  induction 1 as [|y l Hs IH Hall]; simpl.
  - repeat constructor.
  - destruct (key_le (sort_key r) (sort_key y)) eqn:E.
    + apply key_le_pair_le in E.
      constructor; [now constructor|].
      constructor; [exact E|].
      eapply Forall_impl; [|exact Hall].
      intros z Hz. eapply pair_le_trans; eassumption.
    + apply key_le_total in E.
      constructor; [exact IH|].
      eapply Permutation_Forall; [apply insert_by_key_perm|].
      now constructor.
Qed.

Lemma sort_by_key_sorted l : StronglySorted record_le (sort_by_key l).
Proof.
  induction l as [|r l IH]; simpl; [constructor|].
  now apply insert_by_key_sorted.
Qed.

Lemma has_key_eq k r : has_key k r = true <-> sort_key r = k.
Proof.
  unfold has_key. rewrite andb_true_iff, !String.eqb_eq.
  destruct (sort_key r), k; simpl. split.
  - intros [-> ->]; reflexivity.
  - intros [= -> ->]; auto.
Qed.

Lemma insert_by_key_stable k r l :
  filter (has_key k) (insert_by_key r l) = filter (has_key k) (r :: l).
Proof.
  induction l as [|y l IH]; [reflexivity|]. simpl insert_by_key.
  destruct (key_le (sort_key r) (sort_key y)) eqn:E; [reflexivity|].
  simpl. rewrite IH. simpl.
  destruct (has_key k r) eqn:Hr, (has_key k y) eqn:Hy; try reflexivity.
  apply has_key_eq in Hr, Hy.
  assert (Ht : key_le (sort_key r) (sort_key y) = true).
  { apply key_le_pair_le. rewrite Hr, Hy. apply pair_le_refl. }
  congruence.
Qed.

Lemma sort_by_key_stable k l :
  filter (has_key k) (sort_by_key l) = filter (has_key k) l.
Proof.
  induction l as [|r l IH]; [reflexivity|]. simpl sort_by_key.
  rewrite insert_by_key_stable. simpl. now rewrite IH.
Qed.

(** The order of the sort key of the exporter is the order of the pair
    (type, name), and the records of one key are those of one type and
    name. *)
Lemma record_le_by_type_name a b : record_le a b <-> by_type_name a b.
Proof. unfold record_le, by_type_name, pair_le, sort_key. reflexivity. Qed.

Lemma sorted_by_type_name l :
  StronglySorted record_le l -> StronglySorted by_type_name l.
Proof.
  induction 1 as [|x l Hs IH Hall]; constructor; [exact IH|].
  eapply Forall_impl; [|exact Hall].
  intros y. apply record_le_by_type_name.
Qed.

Lemma has_type_name_key t n r : has_type_name t n r = has_key (t, n) r.
Proof. reflexivity. Qed.

Lemma other_records_neither zone :
  other_records zone = filter neither_soa_nor_ns (Zone.records zone).
Proof.
  unfold other_records. apply filter_ext. intros r.
  unfold str_in, neither_soa_nor_ns. simpl.
  now rewrite orb_false_r, negb_orb.
Qed.

Lemma in_other_records zone r :
  In r (sort_by_key (other_records zone)) <->
  In r (Zone.records zone)
  /\ DnsRecord.record_type r <> "SOA" /\ DnsRecord.record_type r <> "NS".
Proof.
  split.
  - intros Hin.
    apply (Permutation_in _ (Permutation_sym (sort_by_key_perm _))) in Hin.
    rewrite other_records_neither in Hin. apply filter_In in Hin.
    destruct Hin as [Hin Hb]. apply andb_true_iff in Hb.
    destruct Hb as [H1 H2].
    apply negb_true_iff, String.eqb_neq in H1.
    apply negb_true_iff, String.eqb_neq in H2. auto.
  - intros (Hin & H1 & H2).
    apply (Permutation_in _ (sort_by_key_perm _)).
    rewrite other_records_neither. apply filter_In. split; [exact Hin|].
    apply andb_true_iff.
    split; apply negb_true_iff, String.eqb_neq; assumption.
Qed.

(** Within the conversion limit every f-string of the exporter succeeds. *)
Lemma printable_zone_export_ints zone :
  printable_zone zone = true -> forallb printable (export_ints zone) = true.
Proof.
  unfold printable_zone. rewrite !andb_true_iff, forallb_forall.
  intros [[Httl Hser] Hrecs]. apply forallb_forall. intros z Hz.
  unfold export_ints in Hz. destruct Hz as [<-|Hz]; [exact Httl|].
  rewrite !in_app_iff in Hz. destruct Hz as [Hz|[Hz|Hz]].
  - unfold soa_records in Hz.
    destruct (filter (is_type "SOA") (Zone.records zone)) as [|r rs] eqn:E.
    + destruct Hz as [<-|[<-|[]]]; assumption.
    + rewrite <- E in Hz. apply in_map_iff in Hz.
      destruct Hz as (x & <- & Hx). apply filter_In in Hx.
      specialize (Hrecs x (proj1 Hx)). unfold printable_record in Hrecs.
      now apply andb_true_iff in Hrecs.
  - apply in_map_iff in Hz. now destruct Hz as (ns & <- & _).
  - apply in_flat_map in Hz. destruct Hz as (r & Hr & Hz).
    apply in_other_records in Hr. specialize (Hrecs r (proj1 Hr)).
    unfold printable_record in Hrecs. apply andb_true_iff in Hrecs.
    destruct Hrecs as [Ht Hp]. unfold record_ints in Hz.
    destruct Hz as [<-|Hz]; [exact Ht|].
    destruct (DnsRecord.priority r) as [p|]; [|destruct Hz].
    now destruct Hz as [<-|[]].
Qed.

Lemma export_printable zone :
  printable_zone zone = true -> export_bind_format zone = Ok (export_text zone).
Proof.
  intros H. unfold export_bind_format.
  now rewrite printable_zone_export_ints.
Qed.

(** Beyond the limit the first conversion already fails. *)
Lemma export_beyond_limit zone :
  printable (Zone.ttl zone) = false ->
  export_bind_format zone = Raise (ValueError conversion_error).
Proof.
  intros H. unfold export_bind_format, export_ints.
  cbn [forallb]. now rewrite H.
Qed.

Lemma export_ok_text zone text :
  export_bind_format zone = Ok text -> text = export_text zone.
Proof.
  unfold export_bind_format. destruct (forallb _ _); [|discriminate].
  now intros [= <-].
Qed.

Lemma pair_le_antisym k1 k2 : pair_le k1 k2 -> pair_le k2 k1 -> k1 = k2.
Proof.
  destruct k1 as [a1 b1], k2 as [a2 b2]. unfold pair_le. cbn [fst snd].
  intros [H1|[E1 H1]] [H2|[E2 H2]].
  - exfalso. eapply lex_lt_irrefl, lex_lt_trans; eassumption.
  - subst. exfalso. eapply lex_lt_irrefl; eassumption.
  - subst. exfalso. eapply lex_lt_irrefl; eassumption.
  - subst. f_equal. destruct H1 as [E|L1]; [exact E|].
    destruct H2 as [E|L2]; [now symmetry|].
    exfalso. eapply lex_lt_irrefl, lex_lt_trans; eassumption.
Qed.

(** A list sorted by (type, name) is determined by its records of each
    type and name, taken in order: a stable sort has one result only. *)
Lemma stable_sorted_unique l1 l2 :
  StronglySorted by_type_name l1 -> StronglySorted by_type_name l2 ->
  (forall t n, filter (has_type_name t n) l1 = filter (has_type_name t n) l2) ->
  l1 = l2.
Proof.
  assert (Hself : forall r,
             has_type_name (DnsRecord.record_type r) (DnsRecord.name r) r
             = true)
    by (intros r; unfold has_type_name; now rewrite !String.eqb_refl).
  assert (Hkey : forall t n r,
             has_type_name t n r = true ->
             DnsRecord.record_type r = t /\ DnsRecord.name r = n).
  { intros t n r H. unfold has_type_name in H. apply andb_true_iff in H.
    now rewrite !String.eqb_eq in H. }
  intros H1. revert l2. induction H1 as [|x l1 Hs1 IH Hall1]; intros l2 H2 Hf.
  - destruct l2 as [|y l2]; [reflexivity|].
    specialize (Hf (DnsRecord.record_type y) (DnsRecord.name y)).
    simpl in Hf. rewrite Hself in Hf. discriminate Hf.
  - destruct l2 as [|y l2].
    { specialize (Hf (DnsRecord.record_type x) (DnsRecord.name x)).
      simpl in Hf. rewrite Hself in Hf. discriminate Hf. }
    inversion H2 as [|? ? Hs2 Hall2]; subst.
    assert (Hxy : x = y).
    { destruct (has_type_name (DnsRecord.record_type x) (DnsRecord.name x) y)
        eqn:Ey.
      - specialize (Hf (DnsRecord.record_type x) (DnsRecord.name x)).
        simpl in Hf. rewrite Hself, Ey in Hf. now injection Hf.
      - exfalso.
        assert (Hy : In y l1).
        { pose proof (Hf (DnsRecord.record_type y) (DnsRecord.name y)) as Hfy.
          simpl in Hfy. rewrite Hself in Hfy.
          destruct (has_type_name (DnsRecord.record_type y)
                      (DnsRecord.name y) x) eqn:Ex.
          - apply Hkey in Ex. destruct Ex as [Et En].
            unfold has_type_name in Ey. now rewrite Et, En, !String.eqb_refl in Ey.
          - assert (Hin : In y (filter (has_type_name (DnsRecord.record_type y)
                                          (DnsRecord.name y)) l1))
              by (rewrite Hfy; now left).
            now apply filter_In in Hin. }
        assert (Hx : In x l2).
        { pose proof (Hf (DnsRecord.record_type x) (DnsRecord.name x)) as Hfx.
          simpl in Hfx. rewrite Hself, Ey in Hfx.
          assert (Hin : In x (filter (has_type_name (DnsRecord.record_type x)
                                        (DnsRecord.name x)) l2))
            by (rewrite <- Hfx; now left).
          now apply filter_In in Hin. }
        rewrite Forall_forall in Hall1, Hall2.
        pose proof (pair_le_antisym (sort_key x) (sort_key y)
                      (proj2 (record_le_by_type_name x y) (Hall1 y Hy))
                      (proj2 (record_le_by_type_name y x) (Hall2 x Hx))) as E.
        unfold sort_key in E. injection E as Et En.
        unfold has_type_name in Ey.
        now rewrite <- Et, <- En, !String.eqb_refl in Ey. }
    subst y. f_equal. apply IH; [exact Hs2|].
    intros t n. specialize (Hf t n). simpl in Hf.
    destruct (has_type_name t n x); [now injection Hf | exact Hf].
Qed.



(* ------------------------------------------------------------------ *)
(** ** The end of the exported text *)
(* ------------------------------------------------------------------ *)

Lemma chop_newline_snoc s : chop_newline (s ++ NL) = Some s.
Proof.
  induction s as [|c s IH]; [reflexivity|].
  simpl. rewrite IH. simpl.
  destruct s; reflexivity.
Qed.

Lemma chop_newline_app a b :
  b <> "" -> chop_newline (a ++ b) = option_map (append a) (chop_newline b).
Proof.
  intros Hb. induction a as [|c a IH]; simpl.
  - now destruct (chop_newline b).
  - rewrite IH. destruct (a ++ b) eqn:E.
    + destruct a; [simpl in E; congruence | discriminate].
    + now destruct (chop_newline b).
Qed.

Lemma join_snoc sep l x :
  l <> [] -> join sep (l ++ [x]) = join sep l ++ sep ++ x.
Proof.
  unfold join. induction l as [|a l IH]; [congruence|]. intros _.
  destruct l as [|b l].
  - reflexivity.
  - change (String.concat sep ((a :: b :: l) ++ [x]))
      with (a ++ sep ++ String.concat sep ((b :: l) ++ [x])).
    rewrite IH by discriminate.
    change (String.concat sep (a :: b :: l))
      with (a ++ sep ++ String.concat sep (b :: l)).
    now rewrite !append_assoc.
Qed.

(** The export ends in exactly one line feed when, and only when, its last
    line is not blank and does not end in a line feed. *)
Lemma one_trailing_newline_last init l :
  init <> [] ->
  one_trailing_newline (join NL (init ++ [l]) ++ NL)
  = negb (is_empty l) && is_none (chop_newline l).
Proof.
  intros Hi. unfold one_trailing_newline.
  rewrite chop_newline_snoc, join_snoc by exact Hi.
  destruct l as [|c l].
  - rewrite append_nil_r, chop_newline_snoc. reflexivity.
  - rewrite <- append_assoc, chop_newline_app by discriminate.
    now destruct (chop_newline (String c l)).
Qed.

Lemma chop_newline_record_line r :
  is_none (chop_newline (record_line r))
  = is_none (chop_newline (DnsRecord.value r)).
Proof.
  assert (H : forall a v, is_none (chop_newline (a ++ " " ++ v))
                          = is_none (chop_newline v)).
  { intros a v. destruct v as [|c v].
    - rewrite chop_newline_app by discriminate. reflexivity.
    - rewrite <- append_assoc, chop_newline_app by discriminate.
      now destruct (chop_newline (String c v)). }
  unfold record_line. destruct (DnsRecord.priority r) as [p|].
  - rewrite <- !append_assoc.
    rewrite (append_assoc _ " " (DnsRecord.value r)). apply H.
  - rewrite <- !append_assoc.
    rewrite (append_assoc _ " " (DnsRecord.value r)). apply H.
Qed.

Lemma record_line_not_empty r : is_empty (record_line r) = false.
Proof.
  unfold record_line.
  destruct (DnsRecord.priority r), (DnsRecord.name r); reflexivity.
Qed.

(** C6, as the code has it.  For a zone whose integers are within the
    conversion limit the export returns a text.  Every text that the export
    returns ends in a line feed.  When the zone has no record other than SOA
    and NS records the text ends in a blank line, that is in two line feeds.
    Otherwise it ends in exactly one line feed if and only if the value of
    the last record line does not itself end in a line feed. *)
Theorem export_ends_with_newline zone :
  (printable_zone zone = true ->
   exists text, export_bind_format zone = Ok text)
  /\ (forall text,
        export_bind_format zone = Ok text ->
        (exists body, text = body ++ NL)
        /\ (filter neither_soa_nor_ns (Zone.records zone) = [] ->
            exists body, text = body ++ NL ++ NL)
        /\ (forall others r,
              StronglySorted by_type_name (others ++ [r]) ->
              (forall t n,
                 filter (has_type_name t n) (others ++ [r])
                 = filter (has_type_name t n)
                          (filter neither_soa_nor_ns (Zone.records zone))) ->
              one_trailing_newline text
              = is_none (chop_newline (DnsRecord.value r)))).
Proof.
  split; [intros Hp; eexists; now apply export_printable|].
  intros text Hok. apply export_ok_text in Hok. subst text.
  split; [eexists; reflexivity|].
  rewrite <- other_records_neither. split.
  - intros Ho. unfold export_text, export_lines. rewrite Ho. simpl map.
    rewrite app_nil_r.
    rewrite !app_assoc. rewrite join_snoc.
    + eexists. rewrite append_nil_r. apply append_assoc.
    + unfold header_lines. discriminate.
  - intros others r Hsorted Hstable.
    assert (Hs : sort_by_key (other_records zone) = (others ++ [r])%list).
    { apply stable_sorted_unique;
        [apply sorted_by_type_name, sort_by_key_sorted | exact Hsorted |].
      intros t n. rewrite Hstable. apply (sort_by_key_stable (t, n)). }
    unfold export_text, export_lines.
    rewrite Hs, map_app. simpl map. rewrite !app_assoc.
    rewrite one_trailing_newline_last.
    + now rewrite record_line_not_empty, chop_newline_record_line.
    + unfold header_lines. discriminate.
Qed.

Lemma export_ends_with_newline_witness :
  (exists text, export_bind_format import_test_zone = Ok text)
  /\ (exists body, export_text empty_zone = body ++ NL ++ NL)
  /\ one_trailing_newline (export_text import_test_zone) = true.
Proof.
  split; [|split].
  - apply (proj1 (export_ends_with_newline import_test_zone)).
    vm_compute. reflexivity.
  - apply (proj2 (export_ends_with_newline empty_zone)
             (export_text empty_zone));
      vm_compute; reflexivity.
  - refine (proj2 (proj2 (proj2 (export_ends_with_newline import_test_zone)
                            (export_text import_test_zone) _))
              [ DnsRecord.mk "A" "@" "10.0.0.1" 3600 None None;
                DnsRecord.mk "A" "www" "10.0.0.2" 3600 None None ]
              (DnsRecord.mk "MX" "mail" "smtp.importzone.example." 3600
                            (Some 10) None) _ _).
    + vm_compute. reflexivity.
    + assert (E : sort_by_key (other_records import_test_zone)
                  = ([ DnsRecord.mk "A" "@" "10.0.0.1" 3600 None None;
                       DnsRecord.mk "A" "www" "10.0.0.2" 3600 None None ]
                     ++ [DnsRecord.mk "MX" "mail" "smtp.importzone.example."
                                      3600 (Some 10) None])%list)
        by (vm_compute; reflexivity).
      rewrite <- E. apply sorted_by_type_name, sort_by_key_sorted.
    + intros t n. reflexivity.
Defined.

(** The export of a zone without records returns and ends in two line
    feeds. *)
Lemma export_empty_zone_two_newlines :
  ~ (forall zone,
       exists text,
         export_bind_format zone = Ok text
         /\ one_trailing_newline text = true).
Proof.
  intros H. destruct (H empty_zone) as (text & Ht & Hone).
  vm_compute in Ht. injection Ht as <-.
  vm_compute in Hone. discriminate Hone.
Qed.

(* ------------------------------------------------------------------ *)
(** ** Reading the lines of an exported text *)
(* ------------------------------------------------------------------ *)

(** The text made of the given lines, each ended by a line feed. *)
Lemma join_lines_unfold l ls :
  join NL (l :: ls) ++ NL
  = l ++ NL ++ match ls with
               | [] => ""
               | _ => join NL ls ++ NL
               end.
Proof.
  unfold join. destruct ls as [|m ls]; simpl String.concat.
  - reflexivity.
  - now rewrite !append_assoc.
Qed.

Lemma one_line_app a b : one_line (a ++ b) = one_line a && one_line b.
Proof. apply forallb_str_app. Qed.

Lemma universal_newlines_line l rest :
  one_line l = true ->
  universal_newlines (l ++ NL ++ rest) = l ++ NL ++ universal_newlines rest.
Proof.
  induction l as [|c l IH]; intros Hl.
  - reflexivity.
  - simpl in Hl. apply andb_true_iff in Hl. destruct Hl as [Hc Hl].
    unfold not_linebreak in Hc. apply andb_true_iff in Hc.
    destruct Hc as [_ Hcr]. apply negb_true_iff in Hcr.
    simpl. rewrite Hcr. f_equal. now apply IH.
Qed.

Lemma lines_keepends_line l rest :
  one_line l = true ->
  lines_keepends (l ++ NL ++ rest) = (l ++ NL) :: lines_keepends rest.
Proof.
  induction l as [|c l IH]; intros Hl.
  - reflexivity.
  - simpl in Hl. apply andb_true_iff in Hl. destruct Hl as [Hc Hl].
    unfold not_linebreak in Hc. apply andb_true_iff in Hc.
    destruct Hc as [Hlf _]. apply negb_true_iff in Hlf.
    specialize (IH Hl). simpl in IH |- *. rewrite Hlf. now rewrite IH.
Qed.

(** Reading back a text written as lines joined by line feeds. *)
Lemma file_lines_join ls :
  ls <> [] -> forallb one_line ls = true ->
  file_lines (join NL ls ++ NL) = map (fun l => l ++ NL) ls.
Proof.
  unfold file_lines. induction ls as [|l ls IH]; [congruence|].
  intros _ H. simpl in H. apply andb_true_iff in H. destruct H as [Hl Hls].
  rewrite join_lines_unfold, universal_newlines_line by exact Hl.
  rewrite lines_keepends_line by exact Hl. simpl map. f_equal.
  destruct ls as [|m ls]; [reflexivity|].
  apply IH; [discriminate | exact Hls].
Qed.

(* ------------------------------------------------------------------ *)
(** ** The import loop on the lines of an export *)
(* ------------------------------------------------------------------ *)

Lemma import_lines_app st l1 l2 :
  import_lines st (l1 ++ l2)
  = (st' <- import_lines st l1 ;; import_lines st' l2).
Proof.
  revert st. induction l1 as [|l l1 IH]; intros st; simpl; [reflexivity|].
  destruct (import_line st l) as [st'|e]; simpl; [apply IH | reflexivity].
Qed.

Lemma add_records_nil st : add_records st [] = st.
Proof. destruct st. unfold add_records. simpl. now rewrite app_nil_r. Qed.

Lemma add_records_app st a b :
  add_records (add_records st a) b = add_records st (a ++ b).
Proof. unfold add_records. simpl. now rewrite app_assoc. Qed.

Lemma import_line_blank st : import_line st ("" ++ NL) = Ok st.
Proof. reflexivity. Qed.

Lemma import_line_comment st rest :
  import_line st ((";" ++ String " " rest) ++ NL) = Ok st.
Proof.
  destruct (token_line_facts ";" " " rest ";") as (H1 & H2 & _);
    try reflexivity.
  unfold import_line. rewrite H1, H2. reflexivity.
Qed.

Lemma split_ws_nonempty s c r :
  is_space c = false -> split_ws (s ++ String c r) <> [].
Proof.
  intros Hc. induction s as [|x s IH]; simpl.
  - rewrite Hc. destruct (starts_nonspace r); [|discriminate].
    destruct (split_ws r); discriminate.
  - destruct (is_space x); [exact IH|].
    destruct (starts_nonspace (s ++ String c r)); [|discriminate].
    destruct (split_ws (s ++ String c r)); discriminate.
Qed.

(** The [$ORIGIN] line of an export changes no record and no default TTL. *)
Lemma import_line_origin st name :
  exists st',
    import_line st (("$ORIGIN" ++ String " " (name ++ ".")) ++ NL) = Ok st'
    /\ st_records st' = st_records st
    /\ st_default_ttl st' = st_default_ttl st.
Proof.
  destruct (token_line_facts "$ORIGIN" " " (name ++ ".") ";")
    as (H1 & H2 & H3); try reflexivity.
  destruct (token_line_facts "$ORIGIN" " " (name ++ ".") "$ORIGIN")
    as (_ & H4 & _); try reflexivity.
  unfold import_line. rewrite H1, H2, H4, H3. simpl.
  destruct (split_ws (name ++ ".")) as [|tok toks] eqn:E.
  - now apply split_ws_nonempty in E.
  - simpl. eexists. split; [reflexivity|]. split; reflexivity.
Qed.

Lemma import_line_ttl st ttl :
  0 <= ttl -> printable ttl = true ->
  import_line st (("$TTL" ++ String " " (str_of_Z ttl)) ++ NL)
  = Ok {| st_zone_name := st_zone_name st;
          st_default_ttl := ttl;
          st_records := st_records st;
          st_origin := st_origin st |}.
Proof.
  intros Hz Hlim.
  destruct (token_line_facts "$TTL" " " (str_of_Z ttl) ";")
    as (H1 & H2 & H3); try reflexivity.
  destruct (token_line_facts "$TTL" " " (str_of_Z ttl) "$ORIGIN")
    as (_ & H4 & _); try reflexivity.
  destruct (token_line_facts "$TTL" " " (str_of_Z ttl) "$TTL")
    as (_ & H5 & _); try reflexivity.
  unfold import_line. rewrite H1, H2, H4, H5, H3.
  rewrite split_ws_token by now apply is_token_str_of_Z.
  simpl. rewrite int_of_str_str_of_Z by assumption. reflexivity.
Qed.

Lemma with_newlines_cons l ls :
  with_newlines (l :: ls) = (l ++ NL) :: with_newlines ls.
Proof. reflexivity. Qed.

Lemma with_newlines_app l1 l2 :
  with_newlines (l1 ++ l2) = (with_newlines l1 ++ with_newlines l2)%list.
Proof. apply map_app. Qed.

Lemma import_lines_cons st l ls st' :
  import_line st l = Ok st' ->
  import_lines st (l :: ls) = import_lines st' ls.
Proof. intros H. simpl. now rewrite H. Qed.

(** The header of an export leaves the record list empty and sets the
    default TTL to that of the zone. *)
Lemma import_header zone :
  0 <= Zone.ttl zone -> printable (Zone.ttl zone) = true ->
  exists st,
    import_lines initial_state (with_newlines (header_lines zone)) = Ok st
    /\ st_records st = []
    /\ st_default_ttl st = Zone.ttl zone.
Proof.
  intros Hz Hlim. unfold header_lines. rewrite !with_newlines_cons.
  rewrite (import_lines_cons _ _ _ _
             (import_line_comment _ ("Zone file for " ++ Zone.name zone))).
  rewrite (import_lines_cons _ _ _ _
             (import_line_comment _ "Generated by blackroad-zone-manager")).
  destruct (import_line_origin initial_state (Zone.name zone))
    as (st1 & H1 & Hr & Ht).
  rewrite (import_lines_cons _ _ _ _ H1).
  rewrite (import_lines_cons _ _ _ _ (import_line_ttl st1 _ Hz Hlim)).
  rewrite (import_lines_cons _ _ _ _ (import_line_blank _)).
  eexists. split; [reflexivity|]. split; [exact Hr | reflexivity].
Qed.

(** A line that opens with a name and a space, as the loop tokenises it. *)
Lemma import_line_named st name rest :
  expressible_name name = true ->
  import_line st ((name ++ String " " rest) ++ NL)
  = (let parts := name :: split_ws rest in
     if (List.length parts <? 4)%nat then Ok st else import_record st parts).
Proof.
  intros Hn. unfold expressible_name in Hn.
  apply andb_true_iff in Hn. destruct Hn as [Hn Hp3].
  apply andb_true_iff in Hn. destruct Hn as [Hn Hp2].
  apply andb_true_iff in Hn. destruct Hn as [Hn Hp1].
  apply negb_true_iff in Hp1, Hp2, Hp3.
  destruct (token_line_facts name " " rest ";") as (H1 & H2 & H3);
    try reflexivity; try assumption.
  destruct (token_line_facts name " " rest "$ORIGIN") as (_ & H4 & _);
    try reflexivity; try assumption.
  destruct (token_line_facts name " " rest "$TTL") as (_ & H5 & _);
    try reflexivity; try assumption.
  unfold import_line. rewrite H1, H2, H4, H5, H3, Hp1, Hp2, Hp3.
  reflexivity.
Qed.

(** A record line with its TTL, as the loop tokenises it. *)
Lemma import_line_record st name ttl type tail :
  expressible_name name = true -> 0 <= ttl -> is_token type = true ->
  import_line st
    ((name ++ " " ++ str_of_Z ttl ++ " IN " ++ type ++ " " ++ tail) ++ NL)
  = import_record st ([name; str_of_Z ttl; "IN"; type] ++ split_ws tail).
Proof.
  intros Hn Hz Ht.
  change (name ++ " " ++ str_of_Z ttl ++ " IN " ++ type ++ " " ++ tail)
    with (name ++ String " "
            (str_of_Z ttl
             ++ String " " ("IN" ++ String " " (type ++ String " " tail)))).
  rewrite import_line_named by exact Hn.
  rewrite (split_ws_token_cons (str_of_Z ttl)) by
    (try reflexivity; now apply is_token_str_of_Z).
  rewrite (split_ws_token_cons "IN") by reflexivity.
  rewrite (split_ws_token_cons type) by (try reflexivity; assumption).
  reflexivity.
Qed.

(** The part of [import_record] that follows the type token, for tokens
    laid out as an exported record line. *)
Lemma import_record_tokens st name ttl type toks :
  0 <= ttl -> printable ttl = true ->
  import_record st ([name; str_of_Z ttl; "IN"; type] ++ toks)
  = (let rtype := upper type in
     let value := join " " toks in
     pv <- (if str_in rtype ["MX"; "SRV"] then
              first <- index (split_ws value) 0 ;;
              if isdigit first
              then (p <- int_of_str first ;;
                    Ok (Some p, join " " (skipn 1 (split_ws value))))
              else Ok (None, value)
            else Ok (None, value)) ;;
     let '(priority, value) := pv in
     if negb (str_in rtype ["SOA"]) then
       Ok (add_records st [DnsRecord.mk rtype name value ttl priority None])
     else Ok st).
Proof.
  intros Hz Hlim. unfold import_record.
  change (index ([name; str_of_Z ttl; "IN"; type] ++ toks) 0) with (Ok (A:=string) name).
  change (index ([name; str_of_Z ttl; "IN"; type] ++ toks) 1)
    with (Ok (str_of_Z ttl)).
  cbn [bind]. rewrite isdigit_str_of_Z, int_of_str_str_of_Z by assumption.
  cbn [bind]. reflexivity.
Qed.

(** An SOA line adds nothing. *)
Lemma import_line_soa st name ttl tail :
  expressible_name name = true -> 0 <= ttl -> printable ttl = true ->
  import_line st
    ((name ++ " " ++ str_of_Z ttl ++ " IN " ++ "SOA" ++ " " ++ tail) ++ NL)
  = Ok st.
Proof.
  intros Hn Hz Hlim.
  rewrite import_line_record by (try reflexivity; assumption).
  rewrite import_record_tokens by assumption. reflexivity.
Qed.

Lemma is_normalized_eq v :
  is_normalized v = true -> join " " (split_ws v) = v.
Proof. unfold is_normalized. apply String.eqb_eq. Qed.

(** An NS line adds an NS record. *)
Lemma import_line_ns st zone ns :
  0 <= Zone.ttl zone -> printable (Zone.ttl zone) = true ->
  is_normalized ns = true ->
  import_line st (ns_line zone ns ++ NL)
  = Ok (add_records st [ns_record zone ns]).
Proof.
  intros Hz Hlim Hns. unfold ns_line.
  change ("@ " ++ str_of_Z (Zone.ttl zone) ++ " IN NS " ++ ns)
    with ("@" ++ " " ++ str_of_Z (Zone.ttl zone) ++ " IN " ++ "NS" ++ " " ++ ns).
  rewrite import_line_record by (try reflexivity; assumption).
  rewrite import_record_tokens by assumption.
  cbv zeta. change (upper "NS") with "NS".
  change (str_in "NS" ["MX"; "SRV"]) with false.
  change (str_in "NS" ["SOA"]) with false. cbn [bind negb].
  rewrite is_normalized_eq by exact Hns. reflexivity.
Qed.

Lemma split_ws_priority_value p v :
  0 <= p ->
  split_ws (join " " (str_of_Z p :: split_ws v)) = str_of_Z p :: split_ws v.
Proof.
  intros Hp. apply split_ws_join. constructor.
  - now apply is_token_str_of_Z.
  - apply split_ws_tokens.
Qed.

(** A record line of the export adds the record it was written from. *)
Lemma import_line_record_line st r :
  expressible_record r = true -> printable_record r = true ->
  str_in (DnsRecord.record_type r) ["SOA"] = false ->
  import_line st (record_line r ++ NL) = Ok (add_records st [fields r]).
Proof.
  intros He Hlim Hsoa. unfold expressible_record in He.
  unfold printable_record in Hlim.
  destruct r as [type name value ttl prio rid]. cbn [DnsRecord.record_type
    DnsRecord.name DnsRecord.value DnsRecord.ttl DnsRecord.priority] in *.
  apply andb_true_iff in Hlim. destruct Hlim as [Hlt Hlp].
  apply andb_true_iff in He. destruct He as [He Hprio].
  apply andb_true_iff in He. destruct He as [He Hval].
  apply andb_true_iff in He. destruct He as [He Httl].
  apply andb_true_iff in He. destruct He as [He Hup].
  apply andb_true_iff in He. destruct He as [Hname Htype].
  apply Z.leb_le in Httl. apply String.eqb_eq in Hup.
  unfold record_line, fields, DnsRecord.with_record_id.
  cbn [DnsRecord.record_type DnsRecord.name DnsRecord.value DnsRecord.ttl
       DnsRecord.priority].
  destruct prio as [p|].
  - apply andb_true_iff in Hprio. destruct Hprio as [Hmx Hp].
    apply Z.leb_le in Hp.
    rewrite (import_line_record st name ttl type (str_of_Z p ++ " " ++ value))
      by assumption.
    change (str_of_Z p ++ " " ++ value) with (str_of_Z p ++ String " " value).
    rewrite split_ws_token_cons by (try reflexivity; now apply is_token_str_of_Z).
    rewrite import_record_tokens by assumption.
    cbv zeta. rewrite Hup, Hmx, Hsoa.
    rewrite split_ws_priority_value by exact Hp.
    change (index (str_of_Z p :: split_ws value) 0) with (Ok (str_of_Z p)).
    cbn [bind]. rewrite isdigit_str_of_Z, int_of_str_str_of_Z by assumption.
    cbn [bind skipn negb]. rewrite is_normalized_eq by exact Hval.
    reflexivity.
  - rewrite (import_line_record st name ttl type value) by assumption.
    rewrite import_record_tokens by assumption.
    cbv zeta. rewrite Hup, Hsoa, is_normalized_eq by exact Hval.
    destruct (str_in type ["MX"; "SRV"]) eqn:Hmx; [|reflexivity].
    simpl in Hprio. apply negb_true_iff in Hprio.
    unfold numeric_head in Hprio.
    destruct (split_ws value) as [|first rest]; [discriminate|].
    change (index (first :: rest) 0) with (Ok first).
    cbn [bind]. rewrite Hprio. reflexivity.
Qed.

Lemma import_lines_ns st zone nss :
  0 <= Zone.ttl zone -> printable (Zone.ttl zone) = true ->
  forallb is_normalized nss = true ->
  import_lines st (with_newlines (map (ns_line zone) nss))
  = Ok (add_records st (map (ns_record zone) nss)).
Proof.
  intros Hz Hlim. revert st. induction nss as [|ns nss IH]; intros st H.
  - simpl. now rewrite add_records_nil.
  - simpl in H. apply andb_true_iff in H. destruct H as [Hns H].
    simpl map. rewrite with_newlines_cons.
    rewrite (import_lines_cons _ _ _ _ (import_line_ns st zone ns Hz Hlim Hns)).
    rewrite IH by exact H. now rewrite add_records_app.
Qed.

Lemma import_lines_records st rs :
  forallb expressible_record rs = true ->
  forallb printable_record rs = true ->
  forallb (fun r => negb (str_in (DnsRecord.record_type r) ["SOA"])) rs = true ->
  import_lines st (with_newlines (map record_line rs))
  = Ok (add_records st (map fields rs)).
Proof.
  revert st. induction rs as [|r rs IH]; intros st He Hl Hs.
  - simpl. now rewrite add_records_nil.
  - simpl in He, Hl, Hs. apply andb_true_iff in He, Hl, Hs.
    destruct He as [Her He], Hl as [Hlr Hl], Hs as [Hsr Hs].
    apply negb_true_iff in Hsr.
    simpl map. rewrite with_newlines_cons.
    rewrite (import_lines_cons _ _ _ _
               (import_line_record_line st r Her Hlr Hsr)).
    rewrite IH by assumption. now rewrite add_records_app.
Qed.

Lemma import_lines_soa_records st rs :
  forallb expressible_soa rs = true ->
  forallb printable_record rs = true ->
  import_lines st (with_newlines (map soa_line rs)) = Ok st.
Proof.
  induction rs as [|r rs IH]; intros H Hl; [reflexivity|].
  simpl in H, Hl. apply andb_true_iff in H, Hl.
  destruct H as [Hr H], Hl as [Hlr Hl].
  unfold printable_record in Hlr. apply andb_true_iff in Hlr.
  destruct Hlr as [Hlr _].
  unfold expressible_soa in Hr.
  apply andb_true_iff in Hr. destruct Hr as [Hr _].
  apply andb_true_iff in Hr. destruct Hr as [Hn Ht]. apply Z.leb_le in Ht.
  simpl map. rewrite with_newlines_cons.
  erewrite import_lines_cons; [now apply IH|].
  unfold soa_line.
  change (DnsRecord.name r ++ " " ++ str_of_Z (DnsRecord.ttl r) ++ " IN SOA "
          ++ DnsRecord.value r)
    with (DnsRecord.name r ++ " " ++ str_of_Z (DnsRecord.ttl r) ++ " IN "
          ++ "SOA" ++ " " ++ DnsRecord.value r).
  now apply import_line_soa.
Qed.

(** The SOA block of an export adds nothing. *)
Lemma import_lines_soa st zone :
  0 <= Zone.ttl zone -> printable (Zone.ttl zone) = true ->
  forallb expressible_soa (soa_records zone) = true ->
  forallb printable_record (soa_records zone) = true ->
  import_lines st (with_newlines (soa_lines zone)) = Ok st.
Proof.
  intros Hz Hlim Hs Hls. unfold soa_lines.
  destruct (soa_records zone) as [|r rs] eqn:E.
  - rewrite with_newlines_cons.
    erewrite import_lines_cons; [reflexivity|].
    change ("@ " ++ str_of_Z (Zone.ttl zone) ++ " IN SOA ns1." ++ Zone.name zone
            ++ ". hostmaster." ++ Zone.name zone ++ ". "
            ++ "( " ++ str_of_Z (Zone.serial zone) ++ " 3600 900 604800 300 )")
      with ("@" ++ " " ++ str_of_Z (Zone.ttl zone) ++ " IN " ++ "SOA" ++ " "
            ++ ("ns1." ++ Zone.name zone
                ++ ". hostmaster." ++ Zone.name zone ++ ". "
                ++ "( " ++ str_of_Z (Zone.serial zone)
                ++ " 3600 900 604800 300 )")).
    now apply import_line_soa.
  - now apply import_lines_soa_records.
Qed.

(* ------------------------------------------------------------------ *)
(** ** The lines of an export stay on one line each *)
(* ------------------------------------------------------------------ *)

Lemma not_space_one_line c : not_space c = true -> not_linebreak c = true.
Proof. each_char c; intros H; try discriminate H; reflexivity. Qed.

Lemma token_one_line t : is_token t = true -> one_line t = true.
Proof.
  intros H. apply is_token_not_space in H. unfold one_line.
  revert H. apply forallb_str_impl, not_space_one_line.
Qed.

Lemma one_line_join toks :
  Forall (fun t => is_token t = true) toks -> one_line (join " " toks) = true.
Proof.
  unfold join. induction 1 as [|t l Ht Hl IH]; [reflexivity|].
  destruct l as [|u l].
  - now apply token_one_line.
  - change (String.concat " " (t :: u :: l))
      with (t ++ " " ++ String.concat " " (u :: l)).
    rewrite !one_line_app, IH, token_one_line by exact Ht. reflexivity.
Qed.

Lemma normalized_one_line v : is_normalized v = true -> one_line v = true.
Proof.
  intros H. rewrite <- (is_normalized_eq v H).
  apply one_line_join, split_ws_tokens.
Qed.

Lemma one_line_str_of_Z_any z : one_line (str_of_Z z) = true.
Proof.
  destruct z as [|p|p].
  - reflexivity.
  - now apply one_line_str_of_Z.
  - unfold str_of_Z. simpl. unfold one_line. simpl.
    eapply forallb_str_impl; [apply digit_one_line|].
    apply string_of_uint_digits.
Qed.

Lemma expressible_name_one_line n :
  expressible_name n = true -> one_line n = true.
Proof.
  unfold expressible_name. rewrite !andb_true_iff.
  intros [[[H _] _] _]. now apply token_one_line.
Qed.

Ltac one_line_parts :=
  repeat (rewrite one_line_app; apply andb_true_iff; split);
  try reflexivity; try assumption; try apply one_line_str_of_Z_any.

Lemma one_line_header zone :
  one_line (Zone.name zone) = true ->
  forallb one_line (header_lines zone) = true.
Proof.
  intros Hn. unfold header_lines. cbn [forallb].
  repeat (apply andb_true_iff; split); one_line_parts.
Qed.

Lemma one_line_soa_lines zone :
  one_line (Zone.name zone) = true ->
  forallb expressible_soa (soa_records zone) = true ->
  forallb one_line (soa_lines zone) = true.
Proof.
  intros Hn Hs. unfold soa_lines.
  destruct (soa_records zone) as [|r rs].
  - cbn [forallb]. rewrite andb_true_r. one_line_parts.
  - rewrite forallb_forall in Hs |- *. intros l Hl.
    apply in_map_iff in Hl. destruct Hl as (x & <- & Hx).
    specialize (Hs x Hx). unfold expressible_soa in Hs.
    apply andb_true_iff in Hs. destruct Hs as [Hs Hv].
    apply andb_true_iff in Hs. destruct Hs as [Hname _].
    apply expressible_name_one_line in Hname.
    unfold soa_line. one_line_parts.
Qed.

Lemma one_line_ns_lines zone :
  forallb is_normalized (Zone.nameservers zone) = true ->
  forallb one_line (map (ns_line zone) (Zone.nameservers zone)) = true.
Proof.
  intros Hs. rewrite forallb_forall in Hs |- *. intros l Hl.
  apply in_map_iff in Hl. destruct Hl as (x & <- & Hx).
  specialize (Hs x Hx). apply normalized_one_line in Hs.
  unfold ns_line. one_line_parts.
Qed.

Lemma one_line_record_line r :
  expressible_record r = true -> one_line (record_line r) = true.
Proof.
  unfold expressible_record. rewrite !andb_true_iff.
  intros [[[[[Hn Ht] _] _] Hv] _].
  apply expressible_name_one_line in Hn. apply token_one_line in Ht.
  apply normalized_one_line in Hv.
  unfold record_line. destruct (DnsRecord.priority r); one_line_parts.
Qed.

Lemma one_line_record_lines rs :
  forallb expressible_record rs = true ->
  forallb one_line (map record_line rs) = true.
Proof.
  intros Hs. rewrite forallb_forall in Hs |- *. intros l Hl.
  apply in_map_iff in Hl. destruct Hl as (x & <- & Hx).
  now apply one_line_record_line, Hs.
Qed.

Lemma forallb_sort_by_key (p : DnsRecord.t -> bool) l :
  forallb p l = true -> forallb p (sort_by_key l) = true.
Proof.
  rewrite !forallb_forall. intros H x Hx. apply H.
  eapply Permutation_in; [apply Permutation_sym, sort_by_key_perm | exact Hx].
Qed.

Lemma other_records_not_soa zone :
  forallb (fun r => negb (str_in (DnsRecord.record_type r) ["SOA"]))
          (other_records zone) = true.
Proof.
  apply forallb_forall. intros r Hr. unfold other_records in Hr.
  apply filter_In in Hr. destruct Hr as [_ Hr].
  apply negb_true_iff in Hr. apply negb_true_iff.
  destruct (str_in (DnsRecord.record_type r) ["SOA"]) eqn:E; [|reflexivity].
  apply str_in_cons in E. destruct E as [E|E]; [|discriminate E].
  rewrite E in Hr. discriminate Hr.
Qed.

Lemma expressible_zone_inv zone :
  expressible_zone zone = true ->
  one_line (Zone.name zone) = true
  /\ 0 <= Zone.ttl zone
  /\ forallb is_normalized (Zone.nameservers zone) = true
  /\ forallb expressible_soa (soa_records zone) = true
  /\ forallb expressible_record (other_records zone) = true.
Proof.
  unfold expressible_zone. rewrite !andb_true_iff, Z.leb_le. tauto.
Qed.

Lemma one_line_export_lines zone :
  expressible_zone zone = true ->
  forallb one_line (export_lines zone) = true.
Proof.
  intros H. apply expressible_zone_inv in H.
  destruct H as (Hn & Ht & Hns & Hsoa & Hoth).
  unfold export_lines. rewrite !forallb_app.
  rewrite one_line_header, one_line_soa_lines, one_line_ns_lines by assumption.
  rewrite one_line_record_lines by now apply forallb_sort_by_key.
  reflexivity.
Qed.

(* ------------------------------------------------------------------ *)
(** ** Export followed by import *)
(* ------------------------------------------------------------------ *)

Lemma forallb_filter {A} (p q : A -> bool) l :
  forallb p l = true -> forallb p (filter q l) = true.
Proof.
  rewrite !forallb_forall. intros H x Hx. apply filter_In in Hx.
  now apply H.
Qed.

Lemma printable_zone_inv zone :
  printable_zone zone = true ->
  printable (Zone.ttl zone) = true
  /\ printable (Zone.serial zone) = true
  /\ forallb printable_record (soa_records zone) = true
  /\ forallb printable_record (sort_by_key (other_records zone)) = true.
Proof.
  unfold printable_zone. rewrite !andb_true_iff. intros [[Ht Hs] Hr].
  split; [exact Ht|]. split; [exact Hs|]. split.
  - now apply forallb_filter.
  - now apply forallb_sort_by_key, forallb_filter.
Qed.

(** The state of the import loop after the lines of an export. *)
Lemma import_export_lines zone :
  expressible_zone zone = true -> printable_zone zone = true ->
  exists st,
    import_lines initial_state (file_lines (export_text zone)) = Ok st
    /\ st_records st
       = (map (ns_record zone) (Zone.nameservers zone)
          ++ map fields (sort_by_key (other_records zone)))%list
    /\ st_default_ttl st = Zone.ttl zone.
Proof.
  intros H Hlim. pose proof (one_line_export_lines zone H) as Hlines.
  apply expressible_zone_inv in H.
  destruct H as (Hn & Ht & Hns & Hsoa & Hoth).
  apply printable_zone_inv in Hlim.
  destruct Hlim as (Hlt & _ & Hlsoa & Hloth).
  unfold export_text.
  rewrite file_lines_join;
    [|unfold export_lines, header_lines; discriminate | exact Hlines].
  fold (with_newlines (export_lines zone)).
  unfold export_lines. rewrite !with_newlines_app.
  rewrite import_lines_app.
  destruct (import_header zone Ht Hlt) as (st0 & -> & Hr0 & Ht0). cbn [bind].
  rewrite import_lines_app, import_lines_soa by assumption. cbn [bind].
  rewrite import_lines_app, with_newlines_cons.
  rewrite (import_lines_cons _ _ _ _ (import_line_blank _)).
  cbn [with_newlines map import_lines bind].
  fold (with_newlines (map (ns_line zone) (Zone.nameservers zone))).
  rewrite import_lines_app, import_lines_ns by assumption. cbn [bind].
  rewrite import_lines_app.
  rewrite (import_lines_cons _ _ _ _ (import_line_blank _)).
  cbn [import_lines bind].
  fold (with_newlines (map record_line (sort_by_key (other_records zone)))).
  rewrite import_lines_records.
  - eexists. split; [reflexivity|]. split.
    + cbn [add_records st_records]. rewrite Hr0. now rewrite app_nil_l.
    + exact Ht0.
  - now apply forallb_sort_by_key.
  - exact Hloth.
  - apply forallb_sort_by_key, other_records_not_soa.
Qed.

(** C1, as the code has it.  For a zone of ASCII text whose integers are
    within the conversion limit and whose fields the grammar can express,
    the export returns a text, and importing that text returns a zone whose
    records are one NS record (name [@], the TTL of the zone, no priority)
    for each entry of the name-server list, followed by the records of the
    zone that are neither SOA nor NS, with their type, name, value, ttl and
    priority, sorted by the pair (type, name), those of one type and name in
    their original order.  No other record appears; the SOA and NS records
    of the zone do not come back. *)
Theorem import_export_records zone path stem serial :
  ascii_zone zone = true ->
  printable_zone zone = true ->
  expressible_zone zone = true ->
  exists text zone' others,
    export_bind_format zone = Ok text
    /\ import_zone_file path (Some text) stem serial None = (Ok zone', None)
    /\ Zone.records zone'
       = (map (ns_record zone) (Zone.nameservers zone)
          ++ map fields others)%list
    /\ StronglySorted by_type_name others
    /\ (forall t n,
          filter (has_type_name t n) others
          = filter (has_type_name t n)
                   (filter neither_soa_nor_ns (Zone.records zone)))
    /\ (forall r',
          In r' (Zone.records zone') <->
          (exists ns, In ns (Zone.nameservers zone) /\ r' = ns_record zone ns)
          \/ (exists r, In r (Zone.records zone)
                        /\ DnsRecord.record_type r <> "SOA"
                        /\ DnsRecord.record_type r <> "NS"
                        /\ r' = fields r))
    /\ Zone.ttl zone' = Zone.ttl zone.
Proof.
  intros _ Hlim H.
  destruct (import_export_lines zone H Hlim) as (st & Hst & Hr & Ht).
  exists (export_text zone). eexists.
  exists (sort_by_key (other_records zone)).
  split; [now apply export_printable|].
  unfold import_zone_file. rewrite Hst.
  split; [reflexivity|]. cbn [Zone.records Zone.ttl].
  split; [exact Hr|].
  split; [apply sorted_by_type_name, sort_by_key_sorted|].
  split; [intros t n; rewrite <- other_records_neither;
          apply (sort_by_key_stable (t, n))|].
  split; [|exact Ht].
  intros r'. rewrite Hr, in_app_iff, !in_map_iff.
  split.
  - intros [(ns & <- & Hns)|(r & <- & Hi)].
    + left. exists ns. auto.
    + right. exists r. apply in_other_records in Hi. tauto.
  - intros [(ns & Hns & ->)|(r & Hi & H1 & H2 & ->)].
    + left. exists ns. auto.
    + right. exists r. split; [reflexivity|]. apply in_other_records. auto.
Qed.

Lemma import_export_records_witness :
  exists text zone' others,
    export_bind_format sample_zone = Ok text
    /\ import_zone_file "example.com.zone" (Some text) "example.com"
                        2024060701 None
       = (Ok zone', None)
    /\ Zone.records zone'
       = (map (ns_record sample_zone) (Zone.nameservers sample_zone)
          ++ map fields others)%list
    /\ StronglySorted by_type_name others
    /\ (forall t n,
          filter (has_type_name t n) others
          = filter (has_type_name t n)
                   (filter neither_soa_nor_ns (Zone.records sample_zone)))
    /\ (forall r',
          In r' (Zone.records zone') <->
          (exists ns, In ns (Zone.nameservers sample_zone)
                      /\ r' = ns_record sample_zone ns)
          \/ (exists r, In r (Zone.records sample_zone)
                        /\ DnsRecord.record_type r <> "SOA"
                        /\ DnsRecord.record_type r <> "NS"
                        /\ r' = fields r))
    /\ Zone.ttl zone' = Zone.ttl sample_zone.
Proof.
  apply (import_export_records sample_zone "example.com.zone" "example.com"
           2024060701); vm_compute; reflexivity.
Defined.

(** The import of the export of a zone without records has two NS records,
    made from the name-server list: records appear that the zone does not
    have. *)
Lemma import_export_adds_ns_records :
  ~ (forall zone, exists text zone',
        export_bind_format zone = Ok text
        /\ import_zone_file "example.com.zone" (Some text)
                            "example.com" 2024060701 None
           = (Ok zone', None)
        /\ forall r',
             In r' (Zone.records zone') <->
             exists r, In r (Zone.records zone)
                       /\ DnsRecord.record_type r <> "SOA"
                       /\ fields r = r').
Proof.
  intros H. destruct (H empty_zone) as (text & zone' & He & Hi & Hr).
  vm_compute in He. injection He as <-.
  vm_compute in Hi. injection Hi as <-.
  destruct (proj1 (Hr (DnsRecord.mk "NS" "@" "ns1.blackroad.io." 3600
                                    None None)))
    as (r & Hin & _).
  - left. reflexivity.
  - destruct Hin.
Qed.

(* ------------------------------------------------------------------ *)
(** ** import_zone_file: name servers and failures *)
(* ------------------------------------------------------------------ *)





(** C2.  The importer raises on malformed content: [ValueError] on a [$TTL]
    directive whose second token is not an integer, [IndexError] on a
    directive without a second token, and [IndexError] on an MX line whose
    value field is empty.  No zone is returned. *)
Theorem import_raises_on_malformed_lines path stem serial conn :
  import_zone_file path (Some ("$TTL abc" ++ NL)) stem serial conn
  = (Raise (ValueError "invalid literal for int() with base 10: 'abc'"), conn)
  /\ import_zone_file path (Some ("$TTL" ++ NL)) stem serial conn
     = (Raise IndexError, conn)
  /\ import_zone_file path (Some ("$ORIGIN" ++ NL)) stem serial conn
     = (Raise IndexError, conn)
  /\ import_zone_file path (Some ("mail 300 IN MX" ++ NL)) stem serial conn
     = (Raise IndexError, conn).
Proof. repeat split; reflexivity. Qed.

(* ------------------------------------------------------------------ *)
(** ** sync_with_provider on a supported provider *)
(* ------------------------------------------------------------------ *)

Lemma dict_set_fresh {V} (d : dict V) k v :
  dict_get d k = None -> dict_set d k v = (d ++ [(k, v)])%list.
Proof.
  induction d as [|[k' v'] d IH]; simpl; [reflexivity|].
  destruct (String.eqb k' k); [discriminate|].
  intros H. now rewrite IH.
Qed.

Lemma dict_get_not_key rs k :
  ~ In k (map stub_key rs) ->
  dict_get (map (fun r => (stub_key r, r)) rs) k = None.
Proof.
  induction rs as [|r rs IH]; simpl; [reflexivity|].
  intros H. destruct (String.eqb_spec (stub_key r) k) as [E|_].
  - exfalso. apply H. now left.
  - apply IH. intros Hin. apply H. now right.
Qed.

(** With pairwise different keys the stub holds every record, in order. *)
Lemma dict_of_records_nodup rs :
  NoDup (map stub_key rs) ->
  dict_of_records stub_key rs = map (fun r => (stub_key r, r)) rs.
Proof.
  unfold dict_of_records.
  assert (G : forall done,
             NoDup (map stub_key (done ++ rs)) ->
             fold_left (fun d r => dict_set d (stub_key r) r) rs
                       (map (fun r => (stub_key r, r)) done)
             = map (fun r => (stub_key r, r)) (done ++ rs)).
  { induction rs as [|r rs IH]; intros done Hnd.
    - simpl. now rewrite app_nil_r.
    - simpl fold_left. rewrite dict_set_fresh.
      + replace (map (fun r0 => (stub_key r0, r0)) done ++ [(stub_key r, r)])%list
          with (map (fun r0 => (stub_key r0, r0)) (done ++ [r]))
          by (now rewrite map_app).
        rewrite IH by (now rewrite <- app_assoc).
        now rewrite <- app_assoc.
      + apply dict_get_not_key.
        rewrite map_app in Hnd. simpl in Hnd.
        apply NoDup_remove_2 in Hnd. intros Hin. apply Hnd.
        apply in_or_app. now left. }
  intros Hnd. exact (G [] Hnd).
Qed.

Lemma fold_create_entries items provider zname dry created :
  fold_left
    (fun s (kv : string * DnsRecord.t) =>
       dict_append s "records_to_create" (create_entry (snd kv)))
    items
    [ ("provider", PStr provider); ("zone", PStr zname);
      ("dry_run", PBool dry); ("records_to_create", PList created);
      ("records_to_update", PList []); ("records_to_delete", PList []);
      ("errors", PList []) ]
  = [ ("provider", PStr provider); ("zone", PStr zname);
      ("dry_run", PBool dry);
      ("records_to_create",
       PList (created ++ map (fun kv => create_entry (snd kv)) items));
      ("records_to_update", PList []); ("records_to_delete", PList []);
      ("errors", PList []) ].
Proof.
  revert created. induction items as [|kv items IH]; intros created.
  - simpl. now rewrite app_nil_r.
  - simpl fold_left.
    change (dict_append _ "records_to_create" (create_entry (snd kv)))
      with [ ("provider", PStr provider); ("zone", PStr zname);
             ("dry_run", PBool dry);
             ("records_to_create",
              PList (created ++ [create_entry (snd kv)]));
             ("records_to_update", PList []); ("records_to_delete", PList []);
             ("errors", PList []) ].
    rewrite IH. simpl map. now rewrite <- app_assoc.
Qed.

(** On a supported provider the summary proposes one entry per item of the
    stub and counts them; when no two A, AAAA or CNAME records of the zone
    share type and name, that is one entry per such record. *)
Lemma sync_supported_provider zone provider dry_run :
  str_in provider ["cloudflare"; "route53"; "digitalocean"] = true ->
  let summary := sync_with_provider zone provider dry_run in
  let candidates :=
    filter (fun r => str_in (DnsRecord.record_type r) ["A"; "AAAA"; "CNAME"])
           (Zone.records zone) in
  dict_get summary "records_to_create"
  = Some (PList (map (fun kv => create_entry (snd kv)) (existing_stub zone)))
  /\ dict_get summary "total_changes"
     = Some (PInt (Z.of_nat (List.length (existing_stub zone))))
  /\ (NoDup (map stub_key candidates) ->
      dict_get summary "records_to_create"
      = Some (PList (map create_entry candidates))
      /\ dict_get summary "total_changes"
         = Some (PInt (Z.of_nat (List.length candidates)))).
Proof.
  intros Hp summary candidates.
  assert (Hs : dict_get summary "records_to_create"
               = Some (PList (map (fun kv => create_entry (snd kv))
                                  (existing_stub zone)))
               /\ dict_get summary "total_changes"
                  = Some (PInt (Z.of_nat (List.length (existing_stub zone))))).
  { subst summary. unfold sync_with_provider. rewrite Hp. cbn [negb].
    rewrite fold_create_entries. cbn [app].
    split; [reflexivity|].
    cbn -[Z.add Z.of_nat]. rewrite length_map. f_equal. f_equal. lia. }
  split; [apply Hs|]. split; [apply Hs|].
  intros Hnd. destruct Hs as [Hc Ht]. rewrite Hc, Ht.
  unfold existing_stub. fold candidates.
  rewrite dict_of_records_nodup by exact Hnd.
  rewrite map_map, length_map. split; reflexivity.
Qed.

(* ------------------------------------------------------------------ *)
(** ** sync_with_provider: unsupported providers and shared names *)
(* ------------------------------------------------------------------ *)

(** C3.  With a provider outside the allow-list the summary has exactly one
    "Unsupported provider" message under [errors] and three empty change
    lists, but the function returns before [total_changes] is stored: the
    summary has no such key. *)
Theorem sync_unsupported_provider_has_no_total
    zone provider dry_run :
  str_in provider ["cloudflare"; "route53"; "digitalocean"] = false ->
  let summary := sync_with_provider zone provider dry_run in
  dict_get summary "errors"
  = Some (PList [PStr ("Unsupported provider: " ++ provider)])
  /\ dict_get summary "records_to_create" = Some (PList [])
  /\ dict_get summary "records_to_update" = Some (PList [])
  /\ dict_get summary "records_to_delete" = Some (PList [])
  /\ dict_get summary "total_changes" = None.
Proof.
  intros Hp. unfold sync_with_provider. rewrite Hp. simpl.
  repeat split; reflexivity.
Qed.

Lemma sync_unsupported_provider_has_no_total_witness :
  let summary :=
    sync_with_provider
      (Zone.mk "example.com" 3600 2024060701 default_nameservers [] None)
      "unknown-host" true in
  dict_get summary "errors"
  = Some (PList [PStr ("Unsupported provider: " ++ "unknown-host")])
  /\ dict_get summary "records_to_create" = Some (PList [])
  /\ dict_get summary "records_to_update" = Some (PList [])
  /\ dict_get summary "records_to_delete" = Some (PList [])
  /\ dict_get summary "total_changes" = None.
Proof.
  apply (sync_unsupported_provider_has_no_total
           (Zone.mk "example.com" 3600 2024060701 default_nameservers [] None)
           "unknown-host" true).
  reflexivity.
Defined.

(** C4.  On a zone with two A records of one name the stub keys both by
    ["A:www"], so the second replaces the first: one entry is proposed and
    [total_changes] is 1, for a zone with two A records. *)
Theorem sync_collapses_same_name_records :
  let summary := sync_with_provider round_robin_zone "cloudflare" true in
  List.length
    (filter (fun r => str_in (DnsRecord.record_type r) ["A"; "AAAA"; "CNAME"])
            (Zone.records round_robin_zone)) = 2%nat
  /\ dict_get summary "records_to_create"
     = Some (PList [PDict [ ("type", PStr "A"); ("name", PStr "www");
                            ("value", PStr "192.0.2.2"); ("ttl", PInt 300) ]])
  /\ dict_get summary "total_changes" = Some (PInt 1).
Proof. repeat split; reflexivity. Qed.

(* ------------------------------------------------------------------ *)
(** ** Zone CRUD: save and load *)
(* ------------------------------------------------------------------ *)

Lemma find_none_existsb {A} (p : A -> bool) l :
  find p l = None <-> existsb p l = false.
Proof.
  induction l as [|x l IH]; simpl; [tauto|].
  destruct (p x); simpl; [split; discriminate | exact IH].
Qed.

Lemma find_snoc_fresh {A} (p : A -> bool) l x :
  find p l = None -> p x = true -> find p (l ++ [x]) = Some x.
Proof.
  intros Hl Hx. induction l as [|y l IH]; simpl in *.
  - now rewrite Hx.
  - destruct (p y); [discriminate | auto].
Qed.

Lemma find_map_same {A} (p : A -> bool) (f : A -> A) l :
  (forall x, p (f x) = p x) ->
  find p (map f l) = option_map f (find p l).
Proof.
  intros Hf. induction l as [|x l IH]; simpl; [reflexivity|].
  rewrite Hf. destruct (p x); [reflexivity | exact IH].
Qed.

Lemma find_some_true {A} (p : A -> bool) l x :
  find p l = Some x -> p x = true.
Proof. intros H. now apply find_some in H. Qed.

Lemma filter_length_zero {A} (p : A -> bool) l :
  List.length (filter p l) = 0%nat -> filter p l = [].
Proof. now destruct (filter p l). Qed.

Lemma load_zone_some name db zone :
  load_zone name db = Some zone ->
  exists row,
    find (fun row => String.eqb (zrow_name row) name) (zones_tbl db) = Some row
    /\ zrow_name row = name
    /\ zone = Zone.mk name (zrow_ttl row) (zrow_serial row)
                      (zrow_nameservers row)
                      (map record_of_row (zone_record_rows db (zrow_id row)))
                      (Some (zrow_id row)).
Proof.
  unfold load_zone.
  destruct (find _ _) as [row|] eqn:E; [|discriminate].
  intros [= <-]. exists row. split; [reflexivity|].
  apply find_some_true in E. apply String.eqb_eq in E.
  split; [exact E|]. now rewrite E.
Qed.

Lemma load_zone_none name db :
  load_zone name db = None <->
  existsb (fun row => String.eqb (zrow_name row) name) (zones_tbl db) = false.
Proof.
  unfold load_zone. rewrite <- find_none_existsb.
  destruct (find _ _); split; intros H; congruence.
Qed.

(** The state after a first save. *)
Lemma save_new_zone zone today db zone' zone'' db' :
  Zone.zone_id zone = None ->
  save_zone zone today db = (Ok zone', zone'', db') ->
  zone' = Zone.with_zone_id zone (Some (zones_seq db + 1))
  /\ zone'' = zone'
  /\ load_zone (Zone.name zone) db = None
  /\ db' = {| zones_tbl :=
                (zones_tbl db
                 ++ [{| zrow_id := zones_seq db + 1;
                        zrow_name := Zone.name zone;
                        zrow_ttl := Zone.ttl zone;
                        zrow_serial := Zone.serial zone;
                        zrow_nameservers := Zone.nameservers zone |}])%list;
              records_tbl := records_tbl db;
              zones_seq := zones_seq db + 1;
              records_seq := records_seq db |}.
Proof.
  intros Hid. unfold save_zone, insert_zone. rewrite Hid.
  destruct (fits_int64 (Zone.ttl zone) && fits_int64 (Zone.serial zone));
    [|discriminate].
  destruct (existsb _ _) eqn:E; [discriminate|].
  intros [= <- <- <-]. repeat split. now apply load_zone_none.
Qed.

(** X1.  A zone saved for the first time receives the next zone id, and
    loading it by name gives the saved zone back with its name, ttl, serial,
    name servers and id, but without records: the records of the object are
    not written by [save_zone].  (The table holds no record for an id that
    was not handed out yet.) *)
Theorem save_then_load zone today db zone' zone'' db' :
  Zone.zone_id zone = None ->
  stored_record_count db (zones_seq db + 1) = 0%nat ->
  save_zone zone today db = (Ok zone', zone'', db') ->
  Zone.zone_id zone' = Some (zones_seq db + 1)
  /\ load_zone (Zone.name zone) db' = Some (Zone.with_records zone' []).
Proof.
  intros Hid Hcount Hsave.
  destruct (save_new_zone _ _ _ _ _ _ Hid Hsave) as (-> & _ & Hfree & ->).
  split; [reflexivity|].
  unfold load_zone. cbn [zones_tbl].
  rewrite (find_snoc_fresh _ _ _ (proj2 (find_none_existsb _ _)
                                        (proj1 (load_zone_none _ _) Hfree)))
    by (cbn; apply String.eqb_refl).
  cbn [zrow_id zrow_name zrow_ttl zrow_serial zrow_nameservers].
  unfold zone_record_rows. cbn [records_tbl].
  unfold stored_record_count in Hcount.
  now rewrite (filter_length_zero _ _ Hcount).
Qed.

Lemma save_then_load_witness :
  exists zone' zone'' db',
    save_zone (Zone.mk "alpha.test" 1800 2024060701 default_nameservers
                 [DnsRecord.mk "A" "www" "192.0.2.1" 300 None None] None)
              20240607 stored_db
    = (Ok zone', zone'', db')
    /\ Zone.zone_id zone' = Some 2
    /\ load_zone "alpha.test" db' = Some (Zone.with_records zone' []).
Proof.
  eexists. eexists. eexists.
  split; [reflexivity|].
  eapply (save_then_load
            (Zone.mk "alpha.test" 1800 2024060701 default_nameservers
               [DnsRecord.mk "A" "www" "192.0.2.1" 300 None None] None)
            20240607 stored_db); reflexivity.
Defined.

(** X2.  Saving a new zone object under a name that is already stored raises
    [IntegrityError] and changes neither the object nor the database. *)
Theorem save_zone_name_taken zone today db :
  Zone.zone_id zone = None ->
  load_zone (Zone.name zone) db <> None ->
  fits_int64 (Zone.ttl zone) = true ->
  fits_int64 (Zone.serial zone) = true ->
  save_zone zone today db = (Raise IntegrityError, zone, db).
Proof.
  intros Hid Hstored Ht Hs. unfold save_zone, insert_zone.
  rewrite Hid, Ht, Hs. cbn [andb].
  destruct (existsb _ _) eqn:E; [reflexivity|].
  apply load_zone_none in E. contradiction.
Qed.

Lemma save_zone_name_taken_witness :
  save_zone empty_zone 20240607 stored_db
  = (Raise IntegrityError, empty_zone, stored_db).
Proof.
  apply (save_zone_name_taken empty_zone 20240607 stored_db);
    [reflexivity | discriminate | reflexivity | reflexivity].
Defined.

(** X3.  Saving a zone object that carries the id of a stored zone writes its
    ttl and name servers and a serial recomputed from the date alone
    ([today * 100 + 1], whatever the serial was); the stored name and the
    stored records stay, whatever the object's name and records are. *)
Theorem save_stored_zone_then_load name db stored zone today zone' zone'' db' :
  load_zone name db = Some stored ->
  Zone.zone_id zone = Zone.zone_id stored ->
  save_zone zone today db = (Ok zone', zone'', db') ->
  Zone.serial zone' = today * 100 + 1
  /\ load_zone name db'
     = Some (Zone.mk name (Zone.ttl zone) (today * 100 + 1)
                     (Zone.nameservers zone) (Zone.records stored)
                     (Zone.zone_id stored)).
Proof.
  intros Hload Hid Hsave.
  destruct (load_zone_some _ _ _ Hload) as (row & Hfind & Hname & ->).
  cbn [Zone.zone_id Zone.records] in *.
  unfold save_zone in Hsave. rewrite Hid in Hsave.
  cbn [Zone.ttl Zone.serial Zone.nameservers] in Hsave.
  destruct (_ && _) in Hsave; [|discriminate].
  injection Hsave as <- <- <-. split; [reflexivity|].
  unfold load_zone. cbn [zones_tbl]. unfold update_zone_rows.
  rewrite find_map_same.
  - rewrite Hfind. cbn [option_map]. rewrite Z.eqb_refl.
    cbn [zrow_id zrow_name zrow_ttl zrow_serial zrow_nameservers].
    rewrite Hname. reflexivity.
  - intros x. now destruct (zrow_id x =? zrow_id row).
Qed.

Lemma save_stored_zone_then_load_witness :
  let zone := Zone.mk "renamed.test" 60 1 ["ns.example."] [] (Some 1) in
  exists zone' zone'' db',
    save_zone zone 20240608 stored_db = (Ok zone', zone'', db')
    /\ Zone.serial zone' = 20240608 * 100 + 1
    /\ load_zone "example.com" db'
       = Some (Zone.mk "example.com" 60 (20240608 * 100 + 1) ["ns.example."]
                       (Zone.records stored_zone) (Some 1)).
Proof.
  intro zone. eexists. eexists. eexists.
  split; [reflexivity|].
  eapply (save_stored_zone_then_load "example.com" stored_db stored_zone zone
            20240608); reflexivity.
Defined.

(* ------------------------------------------------------------------ *)
(** ** Zone CRUD: records *)
(* ------------------------------------------------------------------ *)

Lemma load_zone_same_zones name db db' :
  zones_tbl db' = zones_tbl db ->
  (forall zid, zone_record_rows db' zid = zone_record_rows db zid) ->
  load_zone name db' = load_zone name db.
Proof.
  intros Hz Hr. unfold load_zone. rewrite Hz.
  destruct (find _ _); [now rewrite Hr | reflexivity].
Qed.

(** X4.  A record added through a connection to a loaded zone is stored:
    the record receives the next record id, and loading the zone again gives
    exactly the zone object as [add_record] left it. *)
Theorem add_record_then_load
    name db zone rt rname value ttl prio rec zone' conn' :
  load_zone name db = Some zone ->
  Zone.zone_id zone <> Some 0 ->
  add_record zone rt rname value ttl prio (Some db) = (Ok rec, zone', conn') ->
  exists db',
    conn' = Some db'
    /\ DnsRecord.record_id rec = Some (records_seq db + 1)
    /\ load_zone name db' = Some zone'.
Proof.
  intros Hload Hid Hadd.
  destruct (load_zone_some _ _ _ Hload) as (row & Hfind & Hname & ->).
  cbn [Zone.zone_id] in Hid.
  unfold add_record in Hadd. cbn [Zone.zone_id Zone.records] in Hadd.
  destruct (validate_record _) as [|e es]; [|discriminate].
  assert (Ht : truthy_id (Some (zrow_id row)) = true).
  { simpl. destruct (Z.eqb_spec (zrow_id row) 0) as [E|_]; [|reflexivity].
    rewrite E in Hid. now contradiction Hid. }
  rewrite Ht in Hadd. unfold insert_record in Hadd.
  cbn [DnsRecord.ttl DnsRecord.priority] in Hadd.
  destruct (fits_int64 (zrow_id row) && fits_int64 ttl
            && opt_fits_int64 prio); [|discriminate].
  injection Hadd as <- <- <-.
  eexists. split; [reflexivity|]. split; [reflexivity|].
  unfold load_zone. cbn [zones_tbl]. rewrite Hfind.
  unfold zone_record_rows. cbn [records_tbl].
  rewrite filter_app. cbn [filter row_zone_id]. rewrite Z.eqb_refl.
  rewrite map_app. unfold Zone.with_records.
  cbn [Zone.records Zone.name Zone.ttl Zone.serial Zone.nameservers
       Zone.zone_id].
  unfold set_last. rewrite removelast_last, Hname. reflexivity.
Qed.

Lemma add_record_then_load_witness :
  exists rec zone' conn',
    add_record stored_zone "a" "mail" "192.0.2.9" 300 None (Some stored_db)
    = (Ok rec, zone', conn')
    /\ exists db',
         conn' = Some db'
         /\ DnsRecord.record_id rec = Some (records_seq stored_db + 1)
         /\ load_zone "example.com" db' = Some zone'.
Proof.
  eexists. eexists. eexists. split; [reflexivity|].
  eapply (add_record_then_load "example.com" stored_db stored_zone
            "a" "mail" "192.0.2.9" 300 None);
    [reflexivity | discriminate | reflexivity].
Defined.

(** A record that [add_record] accepts is one that [validate_record] finds
    nothing against. *)
Lemma add_record_ok_valid zone rt name value ttl prio conn rec zone' conn' :
  add_record zone rt name value ttl prio conn = (Ok rec, zone', conn') ->
  validate_record rec = [].
Proof.
  unfold add_record.
  destruct (validate_record _) as [|e es] eqn:E; [|discriminate].
  assert (Hv : forall i,
             validate_record
               (DnsRecord.with_record_id
                  (DnsRecord.mk (upper rt) name value ttl prio None) i) = [])
    by (intros i; exact E).
  destruct conn as [db|], (Zone.zone_id zone) as [zid|];
    try (intros [= <- _ _]; exact E).
  destruct (truthy_id (Some zid)); [|intros [= <- _ _]; exact E].
  destruct (insert_record _ _ _) as [[rid db']|e]; [|discriminate].
  intros [= <- _ _]. apply Hv.
Qed.

(** X5.  [add_record] keeps a zone valid record by record: when every record
    of the zone passes [validate_record] and the call returns, every record
    of the zone still does, the new one included. *)
Theorem add_record_keeps_records_valid
    zone rt name value ttl prio conn rec zone' conn' :
  Forall (fun r => validate_record r = []) (Zone.records zone) ->
  add_record zone rt name value ttl prio conn = (Ok rec, zone', conn') ->
  Forall (fun r => validate_record r = []) (Zone.records zone').
Proof.
  intros Hall Hadd.
  destruct (add_record_ok_appends _ _ _ _ _ _ _ _ _ _ Hadd) as [_ ->].
  apply Forall_app. split; [exact Hall|].
  constructor; [|constructor].
  eapply add_record_ok_valid; eassumption.
Qed.

Lemma add_record_keeps_records_valid_witness :
  exists rec zone' conn',
    add_record stored_zone "mx" "@" "mail.example.com." 300 (Some 10)
               (Some stored_db) = (Ok rec, zone', conn')
    /\ Forall (fun r => validate_record r = []) (Zone.records zone').
Proof.
  eexists. eexists. eexists. split; [reflexivity|].
  eapply (add_record_keeps_records_valid stored_zone "mx" "@"
            "mail.example.com." 300 (Some 10) (Some stored_db));
    [repeat constructor | reflexivity].
Defined.

Lemma filter_id_differs_all rs rid :
  (forall r, In r rs -> DnsRecord.record_id r <> Some rid) ->
  filter (fun r => id_differs r rid) rs = rs.
Proof.
  intros H. induction rs as [|r rs IH]; [reflexivity|]. simpl.
  assert (Hr : id_differs r rid = true).
  { unfold id_differs. destruct (DnsRecord.record_id r) as [i|] eqn:E;
      [|reflexivity].
    apply negb_true_iff, Z.eqb_neq. intros ->.
    apply (H r); [now left | exact E]. }
  rewrite Hr, IH; [reflexivity|]. intros x Hx. apply H. now right.
Qed.

Lemma id_differs_false r rid :
  id_differs r rid = false <-> DnsRecord.record_id r = Some rid.
Proof.
  unfold id_differs. destruct (DnsRecord.record_id r) as [i|].
  - rewrite negb_false_iff, Z.eqb_eq. split; congruence.
  - split; discriminate.
Qed.

Lemma filter_length_lt {A} (p : A -> bool) l :
  (List.length (filter p l) <? List.length l)%nat = true <->
  exists x, In x l /\ p x = false.
Proof.
  rewrite Nat.ltb_lt. induction l as [|x l IH]; simpl.
  - split; [lia | intros (x & [] & _)].
  - pose proof (filter_length_le p l) as Hle.
    destruct (p x) eqn:E; simpl.
    + rewrite <- Nat.succ_lt_mono, IH. split.
      * intros (y & Hy & Hp). eauto.
      * intros (y & [<-|Hy] & Hp); [congruence | eauto].
    + split; [|lia]. intros _. exists x. auto.
Qed.

Lemma with_records_same zone : Zone.with_records zone (Zone.records zone) = zone.
Proof. now destruct zone. Qed.

(** X6.  [remove_record] drops from the zone object exactly the records that
    carry the given id and answers whether there was one; records without
    an id are never dropped.  When the object holds no such record nothing
    changes, and the database is not touched even if it stores a row with
    that id. *)
Theorem remove_record_result zone rid conn removed zone' conn' :
  remove_record zone rid conn = (Ok removed, zone', conn') ->
  (removed = true <->
   exists r, In r (Zone.records zone) /\ DnsRecord.record_id r = Some rid)
  /\ (forall r, In r (Zone.records zone') <->
                In r (Zone.records zone)
                /\ DnsRecord.record_id r <> Some rid)
  /\ (removed = false -> zone' = zone /\ conn' = conn).
Proof.
  intros H.
  set (kept := filter (fun r => id_differs r rid) (Zone.records zone)).
  assert (Hrem : removed
               = (List.length kept <? List.length (Zone.records zone))%nat
                 /\ zone' = Zone.with_records zone kept
                 /\ (removed = false -> conn' = conn)).
  { unfold remove_record in H. fold kept in H.
    cbn [Zone.with_records Zone.records] in H.
    destruct conn as [db|].
    - destruct (List.length kept <? _)%nat eqn:E.
      + destruct (fits_int64 rid); [|discriminate].
        injection H as <- <- <-. repeat split. discriminate.
      + injection H as <- <- <-. repeat split.
    - injection H as <- <- <-. repeat split. }
  destruct Hrem as (Hr & -> & Hc). split; [|split].
  - rewrite Hr. unfold kept. rewrite filter_length_lt.
    split; intros (r & Hin & Hd); exists r; split; auto;
      now apply id_differs_false.
  - intros r. cbn [Zone.with_records Zone.records]. unfold kept.
    rewrite filter_In. split; intros [Hin Hd]; split; auto.
    + intros E. apply id_differs_false in E. congruence.
    + destruct (id_differs r rid) eqn:E; [reflexivity|].
      apply id_differs_false in E. contradiction.
  - intros Hf. split; [|now apply Hc].
    assert (Hk : kept = Zone.records zone).
    { apply filter_id_differs_all. intros r Hin E.
      assert (Ht : (List.length kept <? List.length (Zone.records zone))%nat
                   = true).
      { apply filter_length_lt. exists r. split; [exact Hin|].
        now apply id_differs_false. }
      congruence. }
    rewrite Hk. apply with_records_same.
Qed.

Lemma remove_record_result_witness :
  (true = true <->
   exists r, In r (Zone.records stored_zone)
             /\ DnsRecord.record_id r = Some 1)
  /\ (forall r, In r (Zone.records (Zone.with_records stored_zone [])) <->
                In r (Zone.records stored_zone)
                /\ DnsRecord.record_id r <> Some 1)
  /\ (true = false ->
      Zone.with_records stored_zone [] = stored_zone
      /\ Some (delete_record_row stored_db 1) = Some stored_db).
Proof.
  apply (remove_record_result stored_zone 1 (Some stored_db)).
  reflexivity.
Defined.

(** X7.  Removing the same id a second time finds nothing: it answers
    [False] and leaves the zone object and the database as the first
    removal left them. *)
Theorem remove_record_twice zone rid conn removed zone' conn' :
  remove_record zone rid conn = (Ok removed, zone', conn') ->
  remove_record zone' rid conn' = (Ok false, zone', conn').
Proof.
  intros H.
  assert (Hz : Zone.records zone'
               = filter (fun r => id_differs r rid) (Zone.records zone)).
  { unfold remove_record in H. destruct conn as [db|].
    - destruct (_ <? _)%nat.
      + destruct (fits_int64 rid); [|discriminate]. now injection H as _ <- _.
      + now injection H as _ <- _.
    - now injection H as _ <- _. }
  assert (Hk : filter (fun r => id_differs r rid) (Zone.records zone')
               = Zone.records zone').
  { apply filter_id_differs_all. intros r Hin E. rewrite Hz in Hin.
    apply filter_In in Hin. destruct Hin as [_ Hd].
    apply id_differs_false in E. congruence. }
  unfold remove_record. rewrite Hk, with_records_same.
  rewrite Nat.ltb_irrefl. now destruct conn'.
Qed.

Lemma remove_record_twice_witness :
  remove_record (Zone.with_records stored_zone []) 1
                (Some (delete_record_row stored_db 1))
  = (Ok false, Zone.with_records stored_zone [],
     Some (delete_record_row stored_db 1)).
Proof.
  apply (remove_record_twice stored_zone 1 (Some stored_db) true).
  reflexivity.
Defined.

Lemma filter_filter_comm {A} (p q : A -> bool) l :
  filter p (filter q l) = filter q (filter p l).
Proof.
  induction l as [|x l IH]; [reflexivity|]. simpl.
  destruct (p x) eqn:Hp, (q x) eqn:Hq; simpl; rewrite ?Hp, ?Hq, IH;
    reflexivity.
Qed.

Lemma filter_map_record_of_row rows rid :
  filter (fun r => id_differs r rid) (map record_of_row rows)
  = map record_of_row (filter (fun row => negb (row_id row =? rid)) rows).
Proof.
  induction rows as [|row rows IH]; [reflexivity|]. simpl.
  unfold id_differs at 1. cbn [record_of_row DnsRecord.record_id].
  destruct (row_id row =? rid); simpl; now rewrite IH.
Qed.

(** X8.  A removal through a connection keeps the object and the database
    in step: after [remove_record] on a loaded zone, loading the zone again
    gives exactly the zone object as the call left it. *)
Theorem remove_record_then_load name db zone rid removed zone' conn' :
  load_zone name db = Some zone ->
  remove_record zone rid (Some db) = (Ok removed, zone', conn') ->
  exists db', conn' = Some db' /\ load_zone name db' = Some zone'.
Proof.
  intros Hload H.
  destruct (load_zone_some _ _ _ Hload) as (row & Hfind & Hname & Hz).
  destruct removed.
  - unfold remove_record in H.
    destruct (_ <? _)%nat; [|discriminate].
    destruct (fits_int64 rid); [|discriminate].
    injection H as <- <-. eexists. split; [reflexivity|].
    unfold load_zone. cbn [delete_record_row zones_tbl]. rewrite Hfind.
    rewrite Hz. cbn [Zone.with_records Zone.records Zone.name Zone.ttl
      Zone.serial Zone.nameservers Zone.zone_id].
    rewrite filter_map_record_of_row. unfold zone_record_rows.
    rewrite Hname. unfold Zone.with_records, delete_record_row.
    cbn [Zone.records Zone.name Zone.ttl Zone.serial Zone.nameservers
         Zone.zone_id records_tbl].
    now rewrite (filter_filter_comm (fun row0 => row_zone_id row0 =? zrow_id row)).
  - destruct (remove_record_result _ _ _ _ _ _ H) as (_ & _ & Hsame).
    destruct (Hsame eq_refl) as [-> ->]. eauto.
Qed.

Lemma remove_record_then_load_witness :
  exists db',
    Some (delete_record_row stored_db 1) = Some db'
    /\ load_zone "example.com" db' = Some (Zone.with_records stored_zone []).
Proof.
  apply (remove_record_then_load "example.com" stored_db stored_zone 1 true);
    reflexivity.
Defined.

(* ------------------------------------------------------------------ *)
(** ** Zone CRUD: delete and list *)
(* ------------------------------------------------------------------ *)

Lemma find_filter_other {A} (p q : A -> bool) l :
  (forall x, p x = true -> q x = true) ->
  find p (filter q l) = find p l.
Proof.
  intros H. induction l as [|x l IH]; [reflexivity|]. simpl.
  destruct (q x) eqn:Hq; simpl.
  - now rewrite IH.
  - destruct (p x) eqn:Hp; [|exact IH].
    apply H in Hp. congruence.
Qed.

Lemma find_filter_none {A} (p q : A -> bool) l :
  (forall x, p x = true -> q x = false) ->
  find p (filter q l) = None.
Proof.
  intros H. induction l as [|x l IH]; [reflexivity|]. simpl.
  destruct (q x) eqn:Hq; [|exact IH]. simpl.
  destruct (p x) eqn:Hp; [|exact IH].
  apply H in Hp. congruence.
Qed.

(** X9.  [delete_zone] answers whether a zone of that name was stored;
    afterwards no zone of that name can be loaded, every other zone loads as
    before, and the table of records is as it was: the records of the
    deleted zone stay stored. *)
Theorem delete_zone_result name db :
  let '(deleted, db') := delete_zone name db in
  (deleted = true <-> load_zone name db <> None)
  /\ load_zone name db' = None
  /\ (forall other, other <> name -> load_zone other db' = load_zone other db)
  /\ records_tbl db' = records_tbl db.
Proof.
  unfold delete_zone. split; [|split; [|split]].
  - rewrite filter_length_lt. split.
    + intros (row & Hin & Hn) Hnone. apply load_zone_none in Hnone.
      apply negb_false_iff in Hn.
      assert (Ht : existsb (fun row => String.eqb (zrow_name row) name)
                           (zones_tbl db) = true)
        by (apply existsb_exists; eauto).
      congruence.
    + intros Hsome.
      destruct (existsb (fun row => String.eqb (zrow_name row) name)
                        (zones_tbl db)) eqn:E.
      * apply existsb_exists in E. destruct E as (row & Hin & Hn).
        exists row. split; [exact Hin|]. now rewrite Hn.
      * apply load_zone_none in E. contradiction.
  - unfold load_zone. cbn [zones_tbl].
    rewrite find_filter_none; [reflexivity|].
    intros row Hn. now rewrite Hn.
  - intros other Hne. unfold load_zone. cbn [zones_tbl].
    rewrite find_filter_other; [reflexivity|].
    intros row Hn. apply String.eqb_eq in Hn.
    apply negb_true_iff, String.eqb_neq. congruence.
  - reflexivity.
Qed.

Lemma forall_le_count_zero db zid :
  Forall (fun row => row_zone_id row <= zones_seq db) (records_tbl db) ->
  zones_seq db < zid ->
  stored_record_count db zid = 0%nat.
Proof.
  intros H Hlt. unfold stored_record_count.
  induction H as [|row rows Hrow _ IH]; [reflexivity|]. simpl.
  destruct (Z.eqb_spec (row_zone_id row) zid); [lia | exact IH].
Qed.

Lemma load_new_zone zone db :
  load_zone (Zone.name zone) db = None ->
  stored_record_count db (zones_seq db + 1) = 0%nat ->
  load_zone (Zone.name zone)
    {| zones_tbl :=
         (zones_tbl db
          ++ [{| zrow_id := zones_seq db + 1;
                 zrow_name := Zone.name zone;
                 zrow_ttl := Zone.ttl zone;
                 zrow_serial := Zone.serial zone;
                 zrow_nameservers := Zone.nameservers zone |}])%list;
       records_tbl := records_tbl db;
       zones_seq := zones_seq db + 1;
       records_seq := records_seq db |}
  = Some (Zone.with_records
            (Zone.with_zone_id zone (Some (zones_seq db + 1))) []).
Proof.
  intros Hfree Hcount. unfold load_zone. cbn [zones_tbl].
  rewrite (find_snoc_fresh _ _ _ (proj2 (find_none_existsb _ _)
                                        (proj1 (load_zone_none _ _) Hfree)))
    by (cbn; apply String.eqb_refl).
  cbn [zrow_id zrow_name zrow_ttl zrow_serial zrow_nameservers].
  unfold zone_record_rows. cbn [records_tbl].
  unfold stored_record_count in Hcount.
  now rewrite (filter_length_zero _ _ Hcount).
Qed.

(** X10.  A zone created under the name of a deleted zone is a new zone: it
    is saved with a zone id that was never used, and it loads without
    records, while the records of the deleted zone are still in the table.
    (Every stored record belongs to a zone id that was handed out.) *)
Theorem delete_then_create name db zone today :
  Zone.zone_id zone = None ->
  Zone.name zone = name ->
  fits_int64 (Zone.ttl zone) = true ->
  fits_int64 (Zone.serial zone) = true ->
  Forall (fun row => row_zone_id row <= zones_seq db) (records_tbl db) ->
  exists zone' db',
    save_zone zone today (snd (delete_zone name db)) = (Ok zone', zone', db')
    /\ Zone.zone_id zone' = Some (zones_seq db + 1)
    /\ load_zone name db' = Some (Zone.with_records zone' [])
    /\ records_tbl db' = records_tbl db.
Proof.
  intros Hid <- Ht Hs Hrec.
  unfold delete_zone. cbn [snd].
  set (db1 := {| zones_tbl := _; records_tbl := _; zones_seq := _;
                 records_seq := _ |}).
  assert (Hgone : load_zone (Zone.name zone) db1 = None).
  { unfold load_zone. cbn [db1 zones_tbl].
    rewrite find_filter_none; [reflexivity|].
    intros row Hn. now rewrite Hn. }
  assert (Hrecs : records_tbl db1 = records_tbl db) by reflexivity.
  assert (Hseq : zones_seq db1 = zones_seq db) by reflexivity.
  assert (Hcount : stored_record_count db1 (zones_seq db1 + 1) = 0%nat).
  { apply forall_le_count_zero; [|lia]. now rewrite Hrecs, Hseq. }
  eexists. eexists. split; [|split; [|split]].
  - unfold save_zone, insert_zone. rewrite Hid, Ht, Hs. cbn [andb].
    apply load_zone_none in Hgone. rewrite Hgone. reflexivity.
  - reflexivity.
  - now apply load_new_zone.
  - exact Hrecs.
Qed.

Lemma delete_then_create_witness :
  exists zone' db',
    save_zone empty_zone 20240607 (snd (delete_zone "example.com" stored_db))
    = (Ok zone', zone', db')
    /\ Zone.zone_id zone' = Some (zones_seq stored_db + 1)
    /\ load_zone "example.com" db' = Some (Zone.with_records zone' [])
    /\ records_tbl db' = records_tbl stored_db.
Proof.
  apply (delete_then_create "example.com" stored_db empty_zone 20240607);
    try reflexivity.
  repeat constructor. vm_compute. discriminate.
Defined.

Lemma delete_zone_result_witness :
  (true = true <-> load_zone "example.com" stored_db <> None)
  /\ load_zone "example.com" (snd (delete_zone "example.com" stored_db))
     = None
  /\ (forall other, other <> "example.com" ->
      load_zone other (snd (delete_zone "example.com" stored_db))
      = load_zone other stored_db)
  /\ records_tbl (snd (delete_zone "example.com" stored_db))
     = records_tbl stored_db.
Proof. exact (delete_zone_result "example.com" stored_db). Defined.

Lemma insert_by_name_perm row l : Permutation (row :: l) (insert_by_name row l).
Proof.
  induction l as [|y l IH]; simpl; [apply Permutation_refl|].
  destruct (String.leb (zrow_name row) (zrow_name y));
    [apply Permutation_refl|].
  eapply perm_trans; [apply perm_swap|]. now apply perm_skip.
Qed.

Lemma order_by_name_perm l : Permutation l (order_by_name l).
Proof.
  induction l as [|r l IH]; simpl; [constructor|].
  eapply perm_trans; [apply perm_skip, IH | apply insert_by_name_perm].
Qed.

Lemma leb_false_lex_le a b : String.leb a b = false -> lex_le b a.
Proof.
  intros H. destruct (String.leb_total a b) as [E|E]; [congruence|].
  now apply leb_lex_le.
Qed.

Lemma insert_by_name_sorted row l :
  StronglySorted (fun a b => lex_le (zrow_name a) (zrow_name b)) l ->
  StronglySorted (fun a b => lex_le (zrow_name a) (zrow_name b))
                 (insert_by_name row l).
Proof.
  induction 1 as [|y l Hs IH Hall]; simpl.
  - repeat constructor.
  - destruct (String.leb (zrow_name row) (zrow_name y)) eqn:E.
    + apply leb_lex_le in E.
      constructor; [now constructor|].
      constructor; [exact E|].
      eapply Forall_impl; [|exact Hall].
      intros z Hz. eapply lex_le_trans; eassumption.
    + apply leb_false_lex_le in E.
      constructor; [exact IH|].
      eapply Permutation_Forall; [apply insert_by_name_perm|].
      now constructor.
Qed.

(** X11.  [list_zones] lists every stored zone exactly once, with its name,
    ttl and serial, by ascending name in lexicographic order. *)
Theorem list_zones_sorted db :
  Permutation (list_zones db) (map summary_of_row (zones_tbl db))
  /\ StronglySorted (fun a b => lex_le (sum_name a) (sum_name b))
                     (list_zones db).
Proof.
  unfold list_zones. split.
  - apply Permutation_map, Permutation_sym, order_by_name_perm.
  - assert (H : StronglySorted
                  (fun a b => lex_le (zrow_name a) (zrow_name b))
                  (order_by_name (zones_tbl db))).
    { induction (zones_tbl db) as [|r l IH]; simpl; [constructor|].
      now apply insert_by_name_sorted. }
    induction H as [|y l Hs IH Hall]; simpl; constructor; [exact IH|].
    rewrite Forall_map. exact Hall.
Qed.

(* ------------------------------------------------------------------ *)
(** ** The schema constraints are kept *)
(* ------------------------------------------------------------------ *)

















(* ------------------------------------------------------------------ *)
(** ** validate_zone *)
(* ------------------------------------------------------------------ *)

Lemma accepts_re_zone_name s : accepts re_zone_name s = spec_hostname_like s.
Proof.
  unfold re_zone_name, Plus, spec_hostname_like. rewrite accepts_Cls_Cat.
  destruct s as [|c s]; [reflexivity|].
  now rewrite accepts_Star_Cls.
Qed.

Lemma re_match_zone_name s :
  re_match re_zone_name s = true <->
  spec_hostname_like s = true
  \/ exists s', chop_newline s = Some s' /\ spec_hostname_like s' = true.
Proof.
  unfold re_match. rewrite orb_true_iff, accepts_re_zone_name.
  destruct (chop_newline s) as [s'|].
  - rewrite accepts_re_zone_name. split; intros [H|H]; auto.
    + right. eauto.
    + destruct H as (x & [= <-] & H). auto.
  - split; intros [H|H]; auto; [discriminate | now destruct H as (x & Hx & _)].
Qed.

Lemma flat_map_nil {A B} (f : A -> list B) l :
  flat_map f l = [] <-> forall x, In x l -> f x = [].
Proof.
  induction l as [|x l IH]; simpl; [tauto|].
  rewrite app_nil_iff, IH. split.
  - intros [Hx Hl] y [<-|Hy]; auto.
  - intros H. split; auto.
Qed.

Lemma record_errors_nil r : record_errors r = [] <-> validate_record r = [].
Proof.
  unfold record_errors. destruct (validate_record r); simpl; split;
    intros H; congruence.
Qed.

Lemma count_of_cons n m names :
  count_of n (m :: names)
  = ((if String.eqb n m then 1 else 0) + count_of n names)%nat.
Proof. unfold count_of. simpl. now destruct (String.eqb n m). Qed.

Lemma count_of_pos n names : (0 < count_of n names)%nat <-> In n names.
Proof.
  induction names as [|m names IH]; simpl.
  - unfold count_of. simpl. split; [lia | tauto].
  - rewrite count_of_cons. destruct (String.eqb_spec n m) as [->|Hne].
    + split; [auto | lia].
    + rewrite Nat.add_0_l, IH. split; [auto | intros [E|H]; congruence].
Qed.

Lemma in_duplicates n names :
  In n (duplicates names) <-> (1 < count_of n names)%nat.
Proof.
  unfold duplicates. rewrite filter_In, Nat.ltb_lt. split; [tauto|].
  intros H. split; [|exact H]. apply count_of_pos. lia.
Qed.

Lemma count_of_nodup n names : NoDup names -> (count_of n names <= 1)%nat.
Proof.
  induction 1 as [|m names Hm Hnd IH]; [unfold count_of; simpl; lia|].
  rewrite count_of_cons. destruct (String.eqb_spec n m) as [E|_]; [|lia].
  assert (count_of n names = 0)%nat; [|lia].
  destruct (count_of n names) eqn:Ec; [reflexivity|].
  exfalso. apply Hm. rewrite <- E. apply count_of_pos. lia.
Qed.

Lemma duplicates_nil names : duplicates names = [] <-> NoDup names.
Proof.
  split.
  - intros H.
    assert (Hc : forall n, (count_of n names <= 1)%nat).
    { intros n. destruct (Nat.le_gt_cases (count_of n names) 1) as [L|G];
        [exact L|].
      apply in_duplicates in G. rewrite H in G. destruct G. }
    clear H. induction names as [|m names IH]; constructor.
    + intros Hin. apply count_of_pos in Hin. specialize (Hc m).
      rewrite count_of_cons, String.eqb_refl in Hc. lia.
    + apply IH. intros n. specialize (Hc n). rewrite count_of_cons in Hc. lia.
  - intros Hnd. destruct (duplicates names) as [|n l] eqn:E; [reflexivity|].
    assert (Hin : In n (duplicates names)) by (rewrite E; now left).
    apply in_duplicates in Hin.
    pose proof (count_of_nodup n names Hnd). lia.
Qed.

Lemma set_order_nil set_order l :
  is_set_order set_order -> (set_order l = [] <-> l = []).
Proof.
  intros Hso. destruct (Hso l) as [_ Hin]. split.
  - intros E. destruct l as [|x l]; [reflexivity|].
    rewrite E in Hin. destruct (proj2 (Hin x)). now left.
  - intros ->. destruct (set_order []) as [|x l] eqn:E; [reflexivity|].
    destruct (proj1 (Hin x)). now left.
Qed.

Lemma map_nil_iff {A B} (f : A -> B) l : map f l = [] <-> l = [].
Proof. destruct l; simpl; split; intros H; congruence. Qed.

Lemma existsb_is_type t rs :
  existsb (is_type t) rs = true <->
  exists r, In r rs /\ DnsRecord.record_type r = t.
Proof.
  rewrite existsb_exists. unfold is_type.
  split; intros (r & Hin & H); exists r; split; auto; now apply String.eqb_eq.
Qed.

(** X13.  [validate_zone] reports nothing exactly when: the zone name is a
    non-empty string of letters, digits, dots, hyphens and underscores
    (possibly followed by one line feed, which the [$] of the pattern lets
    through); the ttl is at least 0; the records hold an SOA record and an NS
    record; every record passes [validate_record]; and no two CNAME records
    share a name.  This holds for every order in which the set of duplicated
    names is visited. *)
Theorem validate_zone_nil_iff set_order zone :
  is_set_order set_order ->
  validate_zone set_order zone = [] <->
  (spec_hostname_like (Zone.name zone) = true
   \/ exists n, chop_newline (Zone.name zone) = Some n
                /\ spec_hostname_like n = true)
  /\ 0 <= Zone.ttl zone
  /\ (exists r, In r (Zone.records zone) /\ DnsRecord.record_type r = "SOA")
  /\ (exists r, In r (Zone.records zone) /\ DnsRecord.record_type r = "NS")
  /\ (forall r, In r (Zone.records zone) -> validate_record r = [])
  /\ NoDup (cname_names zone).
Proof.
  intros Hso. unfold validate_zone.
  rewrite !app_nil_iff, !err_if_nil, !negb_false_iff, map_nil_iff.
  rewrite (set_order_nil _ _ Hso), duplicates_nil, flat_map_nil.
  rewrite re_match_zone_name, !existsb_is_type, Z.ltb_ge.
  assert (Hrec : (forall x, In x (Zone.records zone) -> record_errors x = [])
                 <-> (forall r, In r (Zone.records zone) ->
                                validate_record r = [])).
  { split; intros H r Hr; apply record_errors_nil; auto. }
  rewrite Hrec.
  assert (Hne : (spec_hostname_like (Zone.name zone) = true
                 \/ exists n, chop_newline (Zone.name zone) = Some n
                              /\ spec_hostname_like n = true)
                -> is_empty (Zone.name zone) = false).
  { intros [H|(n & Hn & _)]; destruct (Zone.name zone);
      try reflexivity; discriminate. }
  tauto.
Qed.

Lemma first_seen_is_set_order : is_set_order first_seen.
Proof.
  intros l. unfold first_seen. split.
  - apply NoDup_rev, NoDup_nodup.
  - intros x. rewrite <- in_rev, nodup_In, <- in_rev. tauto.
Qed.

Lemma validate_zone_nil_iff_witness :
  validate_zone first_seen sample_zone = [] <->
  (spec_hostname_like (Zone.name sample_zone) = true
   \/ exists n, chop_newline (Zone.name sample_zone) = Some n
                /\ spec_hostname_like n = true)
  /\ 0 <= Zone.ttl sample_zone
  /\ (exists r, In r (Zone.records sample_zone)
                /\ DnsRecord.record_type r = "SOA")
  /\ (exists r, In r (Zone.records sample_zone)
                /\ DnsRecord.record_type r = "NS")
  /\ (forall r, In r (Zone.records sample_zone) -> validate_record r = [])
  /\ NoDup (cname_names sample_zone).
Proof.
  apply (validate_zone_nil_iff first_seen sample_zone).
  exact first_seen_is_set_order.
Defined.

Lemma in_err_if_gen c msg m : In m (err_if c msg) <-> c = true /\ msg = m.
Proof.
  destruct c; simpl.
  - split; [intros [H|H]; [auto | destruct H] | intros [_ H]; auto].
  - split; [intros H; destruct H | intros [H _]; discriminate H].
Qed.

(** The messages of [validate_zone], part by part. *)
Lemma in_validate_zone set_order zone m :
  In m (validate_zone set_order zone) <->
  (is_empty (Zone.name zone) = true /\ "Zone name is required" = m)
  \/ (re_match re_zone_name (Zone.name zone) = false
      /\ "Invalid zone name: " ++ Zone.name zone = m)
  \/ ((Zone.ttl zone <? 0) = true
      /\ "Default TTL must be non-negative, got " ++ str_of_Z (Zone.ttl zone)
         = m)
  \/ (existsb (is_type "SOA") (Zone.records zone) = false
      /\ "Zone is missing SOA record" = m)
  \/ (existsb (is_type "NS") (Zone.records zone) = false
      /\ "Zone is missing NS record(s)" = m)
  \/ (exists r e, In r (Zone.records zone) /\ In e (validate_record r)
                  /\ "Record (" ++ DnsRecord.record_type r ++ " "
                     ++ DnsRecord.name r ++ "): " ++ e = m)
  \/ (exists dup, In dup (set_order (duplicates (cname_names zone)))
                  /\ "Duplicate CNAME for name: " ++ dup = m).
Proof.
  unfold validate_zone.
  rewrite !in_app_iff, !in_err_if_gen, !negb_true_iff, in_flat_map, in_map_iff.
  assert (Hrec : (exists x, In x (Zone.records zone) /\ In m (record_errors x))
                 <-> (exists r e, In r (Zone.records zone)
                                  /\ In e (validate_record r)
                                  /\ "Record (" ++ DnsRecord.record_type r
                                     ++ " " ++ DnsRecord.name r ++ "): " ++ e
                                     = m)).
  { unfold record_errors. split.
    - intros (r & Hr & Hm). apply in_map_iff in Hm.
      destruct Hm as (e & He & Hin). eauto.
    - intros (r & e & Hr & He & Hm). exists r. split; [exact Hr|].
      apply in_map_iff. eauto. }
  assert (Hdup : (exists x, "Duplicate CNAME for name: " ++ x = m
                            /\ In x (set_order (duplicates (cname_names zone))))
                 <-> (exists dup,
                         In dup (set_order (duplicates (cname_names zone)))
                         /\ "Duplicate CNAME for name: " ++ dup = m)).
  { split; intros (x & H1 & H2); eauto. }
  rewrite Hrec, Hdup. tauto.
Qed.

Lemma existsb_is_type_false t rs :
  existsb (is_type t) rs = false <->
  forall r, In r rs -> DnsRecord.record_type r <> t.
Proof.
  split.
  - intros H r Hin E.
    assert (Ht : existsb (is_type t) rs = true)
      by (apply existsb_is_type; eauto).
    congruence.
  - intros H. destruct (existsb (is_type t) rs) eqn:E; [|reflexivity].
    apply existsb_is_type in E. destruct E as (r & Hin & Ht).
    now apply H in Hin.
Qed.







(* ------------------------------------------------------------------ *)
(** ** What the importer returns *)
(* ------------------------------------------------------------------ *)

Lemma is_space_upper_char c : is_space (upper_char c) = is_space c.
Proof. each_char c; reflexivity. Qed.

Lemma is_token_upper t : is_token t = true -> is_token (upper t) = true.
Proof.
  unfold is_token. rewrite !andb_true_iff. intros [Hne Hall]. split.
  - now destruct t.
  - clear Hne. induction t as [|c t IH]; [reflexivity|].
    simpl in *. apply andb_true_iff in Hall. destruct Hall as [Hc Ht].
    unfold not_space in *. now rewrite is_space_upper_char, Hc, IH.
Qed.

Lemma is_normalized_join toks :
  Forall (fun t => is_token t = true) toks ->
  is_normalized (join " " toks) = true.
Proof.
  intros H. unfold is_normalized. rewrite split_ws_join by exact H.
  apply String.eqb_refl.
Qed.

Lemma Forall_skipn {A} (P : A -> Prop) n l : Forall P l -> Forall P (skipn n l).
Proof.
  revert l. induction n as [|n IH]; intros l H; [exact H|].
  destruct l as [|x l]; [constructor|]. inversion H; subst. now apply IH.
Qed.

Lemma uint_of_digits s :
  forallb_str is_digit s = true ->
  exists d, NilEmpty.uint_of_string s = Some d.
Proof.
  induction s as [|c s IH]; simpl; [eauto|].
  rewrite andb_true_iff. intros [Hc Hs]. destruct (IH Hs) as (d & ->).
  apply digit_cases in Hc. simpl in Hc.
  repeat (destruct Hc as [<-|Hc]; [simpl; eauto|]). destruct Hc.
Qed.

(** [int(s)] on a string of digits returns a number that is at least 0,
    unless the string has more digits than the conversion limit. *)
Lemma int_of_str_digits s :
  isdigit s = true ->
  (exists z, int_of_str s = Ok z /\ 0 <= z)
  \/ ((max_str_digits < String.length s)%nat
      /\ int_of_str s = Raise (int_limit_error s)).
Proof.
  intros Hs. unfold int_of_str. rewrite py_int_digits by exact Hs.
  unfold isdigit in Hs. apply andb_true_iff in Hs. destruct Hs as [_ Hs].
  destruct (uint_of_digits s Hs) as (d & ->). cbn [option_map].
  rewrite (count_digits_all s Hs).
  destruct (Nat.ltb_spec max_str_digits (String.length s)) as [Hlong|_].
  - right. split; [exact Hlong | reflexivity].
  - left. eexists. split; [reflexivity|].
    unfold Z.of_uint. apply N2Z.is_nonneg.
Qed.

Lemma int_of_str_nonneg s z :
  isdigit s = true -> int_of_str s = Ok z -> 0 <= z.
Proof.
  intros Hs Hz. destruct (int_of_str_digits s Hs) as [(z' & E & Hz')|[_ E]];
    rewrite E in Hz; [now injection Hz as <- | discriminate].
Qed.

Lemma index_in {A} (l : list A) i x : index l i = Ok x -> In x l.
Proof.
  unfold index. destruct (nth_error l i) eqn:E; [|discriminate].
  intros [= <-]. eapply nth_error_In; eassumption.
Qed.

Lemma index_token l i x :
  Forall (fun t => is_token t = true) l -> index l i = Ok x ->
  is_token x = true.
Proof.
  intros Hl Hx. apply index_in in Hx. rewrite Forall_forall in Hl. auto.
Qed.

Lemma well_shaped_made rtype name value ttl priority :
  is_token name = true -> is_token rtype = true ->
  upper rtype = rtype -> str_in rtype ["SOA"] = false ->
  is_normalized value = true ->
  match priority with
  | Some p => str_in rtype ["MX"; "SRV"] = true /\ 0 <= p
  | None => True
  end ->
  well_shaped (DnsRecord.mk rtype name value ttl priority None) = true.
Proof.
  intros Hn Ht Hu Hs Hv Hp. unfold well_shaped.
  cbn [DnsRecord.name DnsRecord.record_type DnsRecord.value
       DnsRecord.priority].
  rewrite Hn, Ht, Hu, String.eqb_refl, Hv. cbn [andb].
  assert (Hsoa : String.eqb rtype "SOA" = false).
  { destruct (String.eqb_spec rtype "SOA") as [->|_]; [discriminate Hs|].
    reflexivity. }
  rewrite Hsoa. cbn [negb andb].
  destruct priority as [p|]; [|reflexivity].
  destruct Hp as [-> Hp]. now apply Z.leb_le.
Qed.

Lemma import_record_shaped st parts st' :
  Forall (fun t => is_token t = true) parts ->
  Forall (fun r => well_shaped r = true) (st_records st) ->
  import_record st parts = Ok st' ->
  Forall (fun r => well_shaped r = true) (st_records st').
Proof.
  intros Hparts Hst. unfold import_record.
  destruct (index parts 0) as [name|] eqn:E0; [|discriminate]. cbn [bind].
  destruct (index parts 1) as [p1|] eqn:E1; [|discriminate]. cbn [bind].
  assert (Hname : is_token name = true) by (eapply index_token; eassumption).
  destruct (if isdigit p1
            then (t <- int_of_str p1 ;; Ok (t, 2%nat))
            else Ok (st_default_ttl st, 1%nat)) as [[ttl idx]|e];
    [|discriminate].
  cbn [bind].
  destruct (index parts idx) as [p2|] eqn:E2; [|discriminate]. cbn [bind].
  set (idx' := if String.eqb (upper p2) "IN" then S idx else idx).
  destruct (index parts idx') as [p3|] eqn:E3; [|discriminate]. cbn [bind].
  assert (Ht3 : is_token (upper p3) = true)
    by (apply is_token_upper; eapply index_token; eassumption).
  set (rtype := upper p3) in *.
  assert (Hup : upper rtype = rtype) by apply upper_idem.
  set (value := join " " (skipn (S idx') parts)).
  assert (Hvalue : is_normalized value = true)
    by (apply is_normalized_join, Forall_skipn, Hparts).
  assert (Hfinish : forall priority value',
             is_normalized value' = true ->
             match priority with
             | Some p => str_in rtype ["MX"; "SRV"] = true /\ 0 <= p
             | None => True
             end ->
             (if negb (str_in rtype ["SOA"]) then
                Ok {| st_zone_name := st_zone_name st;
                      st_default_ttl := st_default_ttl st;
                      st_records :=
                        (st_records st
                         ++ [DnsRecord.mk rtype name value' ttl priority
                                          None])%list;
                      st_origin := st_origin st |}
              else Ok st) = Ok st' ->
             Forall (fun r => well_shaped r = true) (st_records st')).
  { intros priority value' Hv Hp.
    destruct (str_in rtype ["SOA"]) eqn:Hsoa; cbn [negb];
      intros [= <-]; [exact Hst|].
    cbn [st_records]. apply Forall_app. split; [exact Hst|].
    constructor; [|constructor]. now apply well_shaped_made. }
  destruct (str_in rtype ["MX"; "SRV"]) eqn:Hmx.
  - destruct (index (split_ws value) 0) as [first|] eqn:Ef; [|discriminate].
    cbn [bind]. destruct (isdigit first) eqn:Hd.
    + destruct (int_of_str first) as [p|e] eqn:Ep; [|discriminate].
      cbn [bind]. pose proof (int_of_str_nonneg first p Hd Ep) as Hp.
      apply Hfinish; [|auto].
      apply is_normalized_join, Forall_skipn, split_ws_tokens.
    + cbn [bind]. now apply Hfinish.
  - cbn [bind]. now apply Hfinish.
Qed.

Lemma import_line_shaped st raw st' :
  Forall (fun r => well_shaped r = true) (st_records st) ->
  import_line st raw = Ok st' ->
  Forall (fun r => well_shaped r = true) (st_records st').
Proof.
  intros Hst. unfold import_line.
  destruct (_ || _); [now intros [= <-]|].
  destruct (startswith _ "$ORIGIN").
  { destruct (index _ 1); [|discriminate]. now intros [= <-]. }
  destruct (startswith _ "$TTL").
  { destruct (index _ 1) as [tok|]; [|discriminate]. cbn [bind].
    destruct (int_of_str tok); [|discriminate]. now intros [= <-]. }
  cbv zeta. destruct (_ <? _)%nat; [now intros [= <-]|].
  apply import_record_shaped; [apply split_ws_tokens | exact Hst].
Qed.

Lemma import_lines_shaped lines st st' :
  Forall (fun r => well_shaped r = true) (st_records st) ->
  import_lines st lines = Ok st' ->
  Forall (fun r => well_shaped r = true) (st_records st').
Proof.
  revert st. induction lines as [|l lines IH]; intros st Hst; simpl.
  - now intros [= <-].
  - destruct (import_line st l) as [st1|e] eqn:E; [|discriminate].
    cbn [bind]. apply IH. eapply import_line_shaped; eassumption.
Qed.

Lemma insert_records_shaped rs db zid done db' :
  Forall (fun r => well_shaped r = true) rs ->
  insert_records db zid rs = (Ok done, db') ->
  Forall (fun r => well_shaped r = true) done.
Proof.
  revert db done. induction rs as [|r rs IH]; intros db done Hrs; simpl.
  - now intros [= <- _].
  - inversion Hrs as [|? ? Hr Hrs']; subst.
    destruct (insert_record db zid r) as [[rid db1]|e]; [|discriminate].
    destruct (insert_records db1 zid rs) as [[done'|e] db2] eqn:E;
      [|discriminate].
    intros [= <- <-]. constructor; [exact Hr|]. eapply IH; eassumption.
Qed.

Lemma import_zone_file_shaped path content stem serial conn zone conn' :
  import_zone_file path content stem serial conn = (Ok zone, conn') ->
  Forall (fun r => well_shaped r = true) (Zone.records zone).
Proof.
  unfold import_zone_file.
  destruct content as [text|]; [|discriminate].
  destruct (import_lines _ _) as [st|e] eqn:E; [|discriminate].
  apply import_lines_shaped in E; [|constructor].
  destruct conn as [db|]; [|intros [= <- _]; exact E].
  destruct (insert_zone _ _) as [[zid db1]|e]; [|discriminate].
  destruct (truthy_id _); [|intros [= <- _]; exact E].
  cbn [Zone.with_zone_id Zone.records].
  destruct (insert_records _ _ _) as [[rs|e] db2] eqn:Ei; [|discriminate].
  intros [= <- _]. cbn [Zone.with_records Zone.records].
  eapply insert_records_shaped; eassumption.
Qed.

(** X16.  Every record of a zone that [import_zone_file] returns has the
    shape the line grammar gives it: a non-empty name and type without white
    space, the type in upper case and never SOA, a value made of words
    separated by single spaces, and a priority, when there is one, that is
    at least 0 and sits on an MX or SRV record. *)
Theorem import_returns_well_shaped_records
    path content stem serial conn zone conn' :
  import_zone_file path content stem serial conn = (Ok zone, conn') ->
  forall r, In r (Zone.records zone) ->
    is_token (DnsRecord.name r) = true
    /\ is_token (DnsRecord.record_type r) = true
    /\ upper (DnsRecord.record_type r) = DnsRecord.record_type r
    /\ DnsRecord.record_type r <> "SOA"
    /\ join " " (split_ws (DnsRecord.value r)) = DnsRecord.value r
    /\ (forall p, DnsRecord.priority r = Some p ->
                  0 <= p /\ str_in (DnsRecord.record_type r) ["MX"; "SRV"]
                            = true).
Proof.
  intros H r Hr. apply import_zone_file_shaped in H.
  rewrite Forall_forall in H. specialize (H r Hr). unfold well_shaped in H.
  apply andb_true_iff in H. destruct H as [H Hprio].
  apply andb_true_iff in H. destruct H as [H Hval].
  apply andb_true_iff in H. destruct H as [H Hsoa].
  apply andb_true_iff in H. destruct H as [H Hup].
  apply andb_true_iff in H. destruct H as [Hname Htype].
  split; [exact Hname|]. split; [exact Htype|].
  split; [now apply String.eqb_eq|].
  split; [apply String.eqb_neq; now apply negb_true_iff|].
  split; [now apply is_normalized_eq|].
  intros p Hp. rewrite Hp in Hprio. apply andb_true_iff in Hprio.
  destruct Hprio as [Hmx Hle]. split; [now apply Z.leb_le | exact Hmx].
Qed.

Lemma import_returns_well_shaped_records_witness :
  let r := DnsRecord.mk "MX" "mail" "smtp.importzone.example." 3600
                        (Some 10) None in
  is_token (DnsRecord.name r) = true
  /\ is_token (DnsRecord.record_type r) = true
  /\ upper (DnsRecord.record_type r) = DnsRecord.record_type r
  /\ DnsRecord.record_type r <> "SOA"
  /\ join " " (split_ws (DnsRecord.value r)) = DnsRecord.value r
  /\ (forall p, DnsRecord.priority r = Some p ->
                0 <= p /\ str_in (DnsRecord.record_type r) ["MX"; "SRV"]
                          = true).
Proof.
  intro r.
  apply (import_returns_well_shaped_records "importzone.example.zone"
           (Some import_test_text) "importzone.example" 2024060701 None
           import_test_zone None).
  - vm_compute. reflexivity.
  - simpl. tauto.
Defined.

(** X17.  A zone that [import_zone_file] returns never passes
    [validate_zone]: the importer drops every SOA line, so the missing-SOA
    message is always reported, also for the import of an export. *)
Theorem imported_zone_misses_soa
    set_order path content stem serial conn zone conn' :
  import_zone_file path content stem serial conn = (Ok zone, conn') ->
  In "Zone is missing SOA record" (validate_zone set_order zone).
Proof.
  intros H. apply import_zone_file_shaped in H.
  apply in_validate_zone. do 3 right. left. split; [|reflexivity].
  apply existsb_is_type_false. intros r Hr E.
  rewrite Forall_forall in H. specialize (H r Hr). unfold well_shaped in H.
  apply andb_true_iff in H. destruct H as [H _].
  apply andb_true_iff in H. destruct H as [H _].
  apply andb_true_iff in H. destruct H as [_ H].
  rewrite E in H. discriminate H.
Qed.

Lemma imported_zone_misses_soa_witness :
  In "Zone is missing SOA record" (validate_zone first_seen import_test_zone).
Proof.
  apply (imported_zone_misses_soa first_seen "importzone.example.zone"
           (Some import_test_text) "importzone.example" 2024060701 None
           import_test_zone None).
  vm_compute. reflexivity.
Defined.

(* ------------------------------------------------------------------ *)
(** ** Which lines the importer rejects *)
(* ------------------------------------------------------------------ *)

(** The tail of [import_record] once the type and the value are known:
    it returns, or the priority is a token of more digits than the
    conversion limit. *)
Lemma import_record_tail st name ttl rtype toks res :
  Forall (fun t => is_token t = true) toks ->
  (toks = [] -> str_in rtype ["MX"; "SRV"] = false) ->
  (pv <- (if str_in rtype ["MX"; "SRV"] then
            first <- index (split_ws (join " " toks)) 0 ;;
            if isdigit first
            then (p <- int_of_str first ;;
                  Ok (Some p,
                      join " " (skipn 1 (split_ws (join " " toks)))))
            else Ok (None, join " " toks)
          else Ok (None, join " " toks)) ;;
   let '(priority, value) := pv in
   if negb (str_in rtype ["SOA"]) then
     Ok {| st_zone_name := st_zone_name st;
           st_default_ttl := st_default_ttl st;
           st_records :=
             (st_records st
              ++ [DnsRecord.mk rtype name value ttl priority None])%list;
           st_origin := st_origin st |}
   else Ok st) = res ->
  (exists st', res = Ok st')
  \/ (exists tok msg,
        In tok toks /\ isdigit tok = true
        /\ (max_str_digits < String.length tok)%nat
        /\ res = Raise (ValueError msg)).
Proof.
  intros Ht Hne <-.
  destruct (str_in rtype ["MX"; "SRV"]) eqn:Hmx.
  - destruct toks as [|t toks]; [now discriminate Hne|].
    rewrite split_ws_join by exact Ht.
    change (index (t :: toks) 0) with (Ok t). cbn [bind].
    destruct (isdigit t) eqn:Hd.
    + destruct (int_of_str_digits t Hd) as [(p & -> & _)|[Hlong ->]];
        cbn [bind].
      * left. destruct (negb _); eauto.
      * right. exists t. eexists.
        split; [now left|]. split; [exact Hd|]. split; [exact Hlong|].
        reflexivity.
    + cbn [bind]. left. destruct (negb _); eauto.
  - cbn [bind]. left. destruct (negb _); eauto.
Qed.

Lemma import_record_raises st parts e :
  Forall (fun t => is_token t = true) parts ->
  (4 <= List.length parts)%nat ->
  import_record st parts = Raise e ->
  (e = IndexError
   /\ List.length parts = 4%nat
   /\ str_in (upper (last parts "")) ["MX"; "SRV"] = true)
  \/ (exists tok msg,
        In tok parts /\ isdigit tok = true
        /\ (max_str_digits < String.length tok)%nat
        /\ e = ValueError msg).
Proof.
  intros Ht Hlen.
  destruct parts as [|a [|b [|c [|d rest]]]]; try (simpl in Hlen; lia).
  inversion Ht as [|? ? Ha Ht1]; subst.
  inversion Ht1 as [|? ? Hb Ht2]; subst.
  inversion Ht2 as [|? ? Hc Ht3]; subst.
  inversion Ht3 as [|? ? Hd Hrest]; subst.
  assert (Htail : forall toks (res : result ImportState),
             (forall tok, In tok toks -> In tok (a :: b :: c :: d :: rest)) ->
             (exists st', res = Ok st')
             \/ (exists tok msg,
                   In tok toks /\ isdigit tok = true
                   /\ (max_str_digits < String.length tok)%nat
                   /\ res = Raise (ValueError msg)) ->
             res = Raise e ->
             (e = IndexError
              /\ List.length (a :: b :: c :: d :: rest) = 4%nat
              /\ str_in (upper (last (a :: b :: c :: d :: rest) ""))
                        ["MX"; "SRV"] = true)
             \/ (exists tok msg,
                   In tok (a :: b :: c :: d :: rest) /\ isdigit tok = true
                   /\ (max_str_digits < String.length tok)%nat
                   /\ e = ValueError msg)).
  { intros toks res Hsub [(st' & ->)|(tok & msg & Hin & Hdg & Hl & ->)];
      [discriminate|].
    intros [= <-]. right. exists tok, msg. auto. }
  unfold import_record.
  change (index (a :: b :: c :: d :: rest) 0) with (Ok a).
  change (index (a :: b :: c :: d :: rest) 1) with (Ok b).
  cbn [bind].
  destruct (isdigit b) eqn:Hdb.
  - destruct (int_of_str_digits b Hdb) as [(ttl & -> & _)|[Hlong ->]];
      cbn [bind].
    2:{ intros [= <-]. right. exists b. eexists.
        split; [right; now left|]. split; [exact Hdb|].
        split; [exact Hlong | reflexivity]. }
    change (index (a :: b :: c :: d :: rest) 2) with (Ok c). cbn [bind].
    destruct (String.eqb (upper c) "IN").
    + change (index (a :: b :: c :: d :: rest) 3) with (Ok d). cbn [bind].
      change (skipn 4 (a :: b :: c :: d :: rest)) with rest.
      destruct rest as [|x rest].
      * destruct (str_in (upper d) ["MX"; "SRV"]) eqn:Hmx.
        -- intros H. simpl in H. injection H as <-. left. auto.
        -- intros H.
           apply (Htail [] _ ltac:(intros ? []))
             in H; [exact H|].
           apply (import_record_tail st a ttl (upper d) []);
             [constructor | auto | now rewrite Hmx].
      * intros H.
        apply (Htail (x :: rest) _
                 ltac:(intros ? ?; now do 4 right)) in H; [exact H|].
        apply (import_record_tail st a ttl (upper d) (x :: rest));
          [exact Hrest | discriminate | reflexivity].
    + change (index (a :: b :: c :: d :: rest) 2) with (Ok c). cbn [bind].
      change (skipn 3 (a :: b :: c :: d :: rest)) with (d :: rest).
      intros H.
      apply (Htail (d :: rest) _
               ltac:(intros ? ?; now do 3 right)) in H; [exact H|].
      apply (import_record_tail st a ttl (upper c) (d :: rest));
        [exact Ht3 | discriminate | reflexivity].
  - cbn [bind].
    change (index (a :: b :: c :: d :: rest) 1) with (Ok b). cbn [bind].
    destruct (String.eqb (upper b) "IN").
    + change (index (a :: b :: c :: d :: rest) 2) with (Ok c). cbn [bind].
      change (skipn 3 (a :: b :: c :: d :: rest)) with (d :: rest).
      intros H.
      apply (Htail (d :: rest) _
               ltac:(intros ? ?; now do 3 right)) in H; [exact H|].
      apply (import_record_tail st a (st_default_ttl st) (upper c)
               (d :: rest));
        [exact Ht3 | discriminate | reflexivity].
    + change (index (a :: b :: c :: d :: rest) 1) with (Ok b). cbn [bind].
      change (skipn 2 (a :: b :: c :: d :: rest)) with (c :: d :: rest).
      intros H.
      apply (Htail (c :: d :: rest) _
               ltac:(intros ? ?; now do 2 right)) in H; [exact H|].
      apply (import_record_tail st a (st_default_ttl st) (upper b)
               (c :: d :: rest));
        [exact Ht2 | discriminate | reflexivity].
Qed.

Lemma in_split_ws_strip raw tok :
  In tok (split_ws (strip raw)) -> In tok (split_ws raw).
Proof. now rewrite split_ws_strip. Qed.

(** X18.  On a line of ASCII text that is not an [$ORIGIN] or [$TTL]
    directive the importer raises in two cases only: [IndexError] on a line
    of exactly four tokens that ends in the type MX or SRV (a name, a
    numeric ttl, [IN] and the type, with no value), and [ValueError] on a
    line with a numeric token of more digits than the conversion limit.
    Every other such line is read or skipped without an exception. *)
Theorem import_line_raises st raw e :
  ascii_text raw = true ->
  import_line st raw = Raise e ->
  startswith (strip raw) "$ORIGIN" = true
  \/ startswith (strip raw) "$TTL" = true
  \/ (e = IndexError
      /\ List.length (split_ws raw) = 4%nat
      /\ str_in (upper (last (split_ws raw) "")) ["MX"; "SRV"] = true)
  \/ (exists tok msg,
        In tok (split_ws raw) /\ isdigit tok = true
        /\ (max_str_digits < String.length tok)%nat
        /\ e = ValueError msg).
Proof.
  intros _. unfold import_line.
  destruct (_ || _); [discriminate|].
  destruct (startswith (strip raw) "$ORIGIN"); [auto|].
  destruct (startswith (strip raw) "$TTL"); [auto|].
  cbv zeta. rewrite split_ws_strip.
  destruct (List.length (split_ws raw) <? 4)%nat eqn:El; [discriminate|].
  apply Nat.ltb_ge in El. intros H. right. right.
  eapply import_record_raises; [apply split_ws_tokens | exact El | exact H].
Qed.

Lemma import_line_raises_witness :
  startswith (strip ("mail 300 IN MX" ++ NL)) "$ORIGIN" = true
  \/ startswith (strip ("mail 300 IN MX" ++ NL)) "$TTL" = true
  \/ (IndexError = IndexError
      /\ List.length (split_ws ("mail 300 IN MX" ++ NL)) = 4%nat
      /\ str_in (upper (last (split_ws ("mail 300 IN MX" ++ NL)) ""))
                ["MX"; "SRV"] = true)
  \/ (exists tok msg,
        In tok (split_ws ("mail 300 IN MX" ++ NL)) /\ isdigit tok = true
        /\ (max_str_digits < String.length tok)%nat
        /\ IndexError = ValueError msg).
Proof.
  apply (import_line_raises initial_state ("mail 300 IN MX" ++ NL));
    reflexivity.
Defined.

Lemma insert_records_zones rs db zid :
  zones_tbl (snd (insert_records db zid rs)) = zones_tbl db.
Proof.
  revert db. induction rs as [|r rs IH]; intros db; [reflexivity|]. simpl.
  unfold insert_record at 1. destruct (_ && _); [|reflexivity].
  specialize (IH {| zones_tbl := zones_tbl db;
                    records_tbl :=
                      (records_tbl db
                       ++ [{| row_id := records_seq db + 1;
                              row_zone_id := zid;
                              row_record_type := DnsRecord.record_type r;
                              row_name := DnsRecord.name r;
                              row_value := DnsRecord.value r;
                              row_ttl := DnsRecord.ttl r;
                              row_priority := DnsRecord.priority r |}])%list;
                    zones_seq := zones_seq db;
                    records_seq := records_seq db + 1 |}).
  destruct (insert_records _ zid rs) as [[done|e] db2]; exact IH.
Qed.

(** X19.  A zone file can be imported into a database once: after an import
    through a connection has returned, importing the same file through the
    same connection raises [IntegrityError] (the zone name is taken) and
    leaves the database as the first import left it. *)
Theorem import_twice_raises path text stem serial serial' db zone db' :
  import_zone_file path (Some text) stem serial (Some db)
  = (Ok zone, Some db') ->
  fits_int64 serial' = true ->
  import_zone_file path (Some text) stem serial' (Some db')
  = (Raise IntegrityError, Some db').
Proof.
  unfold import_zone_file.
  destruct (import_lines _ _) as [st|e]; [|discriminate].
  set (name := match st_zone_name st with Some n => n | None => stem end).
  intros H Hfit.
  assert (Hfirst : fits_int64 (st_default_ttl st) = true
                   /\ existsb (fun row => String.eqb (zrow_name row) name)
                              (zones_tbl db') = true).
  { unfold insert_zone in H. cbn [Zone.ttl Zone.serial Zone.name] in H.
    destruct (fits_int64 (st_default_ttl st)); [|discriminate].
    split; [reflexivity|].
    destruct (fits_int64 serial); [|discriminate]. cbn [andb] in H.
    destruct (existsb _ (zones_tbl db)); [discriminate|].
    set (db1 := {| zones_tbl := _; records_tbl := _; zones_seq := _;
                   records_seq := _ |}) in H.
    assert (Hz : zones_tbl db' = zones_tbl db1).
    { destruct (truthy_id _); [|now injection H as _ <-].
      pose proof (insert_records_zones (st_records st) db1 (zones_seq db + 1))
        as Hz.
      cbn [Zone.with_zone_id Zone.records] in H.
      destruct (insert_records db1 _ _) as [[rs|e] db2]; [|discriminate].
      now injection H as _ <-. }
    rewrite Hz. cbn [db1 zones_tbl]. rewrite existsb_app. cbn.
    rewrite String.eqb_refl. now rewrite orb_true_r. }
  destruct Hfirst as [Ht Hex].
  unfold insert_zone. cbn [Zone.ttl Zone.serial Zone.name].
  fold name. now rewrite Ht, Hfit, Hex.
Qed.

Lemma import_twice_raises_witness :
  exists zone db',
    import_zone_file "importzone.example.zone" (Some import_test_text)
                     "importzone.example" 2024060701 (Some stored_db)
    = (Ok zone, Some db')
    /\ import_zone_file "importzone.example.zone" (Some import_test_text)
                        "importzone.example" 2024060801 (Some db')
       = (Raise IntegrityError, Some db').
Proof.
  eexists. eexists.
  assert (H : import_zone_file "importzone.example.zone"
                (Some import_test_text) "importzone.example" 2024060701
                (Some stored_db)
              = (Ok _, Some _)) by (vm_compute; reflexivity).
  split; [exact H|].
  apply (import_twice_raises _ _ _ _ 2024060801 _ _ _ H). reflexivity.
Defined.

(* ------------------------------------------------------------------ *)
(** ** What the export, and so the checksum, depends on *)
(* ------------------------------------------------------------------ *)

Lemma export_eq z1 z2 :
  Zone.name z1 = Zone.name z2 -> Zone.ttl z1 = Zone.ttl z2 ->
  Zone.nameservers z1 = Zone.nameservers z2 ->
  soa_lines z1 = soa_lines z2 ->
  map record_line (sort_by_key (other_records z1))
  = map record_line (sort_by_key (other_records z2)) ->
  export_text z1 = export_text z2.
Proof.
  intros Hn Ht Hns Hsoa Hoth. unfold export_text, export_lines.
  assert (Hl : map (ns_line z1) (Zone.nameservers z2)
               = map (ns_line z2) (Zone.nameservers z2))
    by (apply map_ext; intros ns; unfold ns_line; now rewrite Ht).
  rewrite Hsoa, Hoth, Hns, Hl. unfold header_lines. now rewrite Hn, Ht.
Qed.

Lemma filter_map_fields (p : DnsRecord.t -> bool) l :
  (forall r, p (fields r) = p r) ->
  filter p (map fields l) = map fields (filter p l).
Proof.
  intros H. induction l as [|r l IH]; [reflexivity|]. simpl.
  rewrite H. destruct (p r); simpl; now rewrite IH.
Qed.

Lemma insert_by_key_fields r l :
  insert_by_key (fields r) (map fields l) = map fields (insert_by_key r l).
Proof.
  induction l as [|y l IH]; [reflexivity|]. simpl.
  change (sort_key (fields r)) with (sort_key r).
  change (sort_key (fields y)) with (sort_key y).
  destruct (key_le (sort_key r) (sort_key y)); simpl; [reflexivity|].
  now rewrite IH.
Qed.

Lemma sort_by_key_fields l :
  sort_by_key (map fields l) = map fields (sort_by_key l).
Proof.
  induction l as [|r l IH]; [reflexivity|]. simpl.
  now rewrite IH, insert_by_key_fields.
Qed.

Lemma record_lines_fields l :
  map record_line (map fields l) = map record_line l.
Proof. rewrite map_map. apply map_ext. reflexivity. Qed.

Lemma soa_lines_fields l : map soa_line (map fields l) = map soa_line l.
Proof. rewrite map_map. apply map_ext. reflexivity. Qed.

Lemma filter_filter_imp {A} (p q : A -> bool) l :
  (forall x, p x = true -> q x = true) ->
  filter p (filter q l) = filter p l.
Proof.
  intros H. induction l as [|x l IH]; [reflexivity|]. simpl.
  destruct (q x) eqn:Hq; simpl.
  - now rewrite IH.
  - destruct (p x) eqn:Hp; [|exact IH]. apply H in Hp. congruence.
Qed.

Lemma soa_fields_of_records rs1 rs2 :
  map fields (filter not_ns rs1) = map fields (filter not_ns rs2) ->
  map fields (filter (is_type "SOA") rs1)
  = map fields (filter (is_type "SOA") rs2).
Proof.
  intros H.
  assert (Hs : forall l, filter (is_type "SOA") l
                         = filter (is_type "SOA") (filter not_ns l)).
  { intros l. symmetry. apply filter_filter_imp. intros r Hr.
    unfold is_type in Hr. apply String.eqb_eq in Hr.
    unfold not_ns, is_type. now rewrite Hr. }
  rewrite (Hs rs1), (Hs rs2).
  rewrite <- (filter_map_fields (is_type "SOA") (filter not_ns rs2))
    by reflexivity.
  rewrite <- (filter_map_fields (is_type "SOA") (filter not_ns rs1))
    by reflexivity.
  now rewrite H.
Qed.

Lemma other_fields_of_records rs1 rs2 :
  map fields (filter not_ns rs1) = map fields (filter not_ns rs2) ->
  map fields
    (sort_by_key
       (filter (fun r => negb (str_in (DnsRecord.record_type r) ["SOA"; "NS"]))
               rs1))
  = map fields
      (sort_by_key
         (filter (fun r => negb (str_in (DnsRecord.record_type r)
                                        ["SOA"; "NS"]))
                 rs2)).
Proof.
  intros H.
  set (p := fun r => negb (str_in (DnsRecord.record_type r) ["SOA"; "NS"])).
  assert (Hp : forall l, filter p l = filter p (filter not_ns l)).
  { intros l. symmetry. apply filter_filter_imp. intros r Hr.
    unfold p in Hr. apply negb_true_iff in Hr. unfold not_ns, is_type.
    destruct (String.eqb_spec (DnsRecord.record_type r) "NS") as [E|_];
      [|reflexivity].
    rewrite E in Hr. discriminate Hr. }
  assert (Hm : map fields (filter p rs1) = map fields (filter p rs2)).
  { rewrite (Hp rs1), (Hp rs2).
    rewrite <- (filter_map_fields p (filter not_ns rs1)) by reflexivity.
    rewrite <- (filter_map_fields p (filter not_ns rs2)) by reflexivity.
    now rewrite H. }
  now rewrite <- !sort_by_key_fields, Hm.
Qed.

Lemma record_ints_fields l :
  flat_map record_ints (map fields l) = flat_map record_ints l.
Proof.
  induction l as [|r l IH]; [reflexivity|]. simpl. now rewrite IH.
Qed.

Lemma ttl_fields l : map DnsRecord.ttl (map fields l) = map DnsRecord.ttl l.
Proof. rewrite map_map. apply map_ext. reflexivity. Qed.

(** The export, text or error, is the same for two zones that agree on
    name, ttl, serial and name servers and on the fields of their SOA
    records and of their other records as the exporter orders them. *)
Lemma export_bind_format_eq z1 z2 :
  Zone.name z1 = Zone.name z2 -> Zone.ttl z1 = Zone.ttl z2 ->
  Zone.serial z1 = Zone.serial z2 ->
  Zone.nameservers z1 = Zone.nameservers z2 ->
  map fields (soa_records z1) = map fields (soa_records z2) ->
  map fields (sort_by_key (other_records z1))
  = map fields (sort_by_key (other_records z2)) ->
  export_bind_format z1 = export_bind_format z2.
Proof.
  intros Hn Ht Hs Hns Hsoa Hoth.
  assert (Hints : export_ints z1 = export_ints z2).
  { unfold export_ints. rewrite Ht, Hs, Hns.
    rewrite <- (record_ints_fields (sort_by_key (other_records z1))), Hoth.
    rewrite record_ints_fields. f_equal. f_equal.
    destruct (soa_records z1) as [|a la], (soa_records z2) as [|b lb];
      try discriminate Hsoa; [reflexivity|].
    now rewrite <- (ttl_fields (a :: la)), Hsoa, ttl_fields. }
  assert (Htext : export_text z1 = export_text z2).
  { apply export_eq; try assumption.
    - unfold soa_lines. rewrite Hn, Ht, Hs.
      destruct (soa_records z1) as [|a la], (soa_records z2) as [|b lb];
        try discriminate Hsoa; [reflexivity|].
      now rewrite <- (soa_lines_fields (a :: la)), Hsoa, soa_lines_fields.
    - rewrite <- (record_lines_fields (sort_by_key (other_records z1))).
      now rewrite Hoth, record_lines_fields. }
  unfold export_bind_format. now rewrite Hints, Htext.
Qed.

(** X20.  The checksum of a zone depends on its name, ttl, serial and name
    servers and on the type, name, value, ttl and priority of its records
    other than NS records: two zones that agree on these have the same
    checksum, or fail to have one in the same way, whatever their zone ids,
    record ids and NS records are. *)
Theorem checksum_ignores_ids_and_ns sha256_hex z1 z2 :
  Zone.name z1 = Zone.name z2 -> Zone.ttl z1 = Zone.ttl z2 ->
  Zone.serial z1 = Zone.serial z2 ->
  Zone.nameservers z1 = Zone.nameservers z2 ->
  map fields (filter not_ns (Zone.records z1))
  = map fields (filter not_ns (Zone.records z2)) ->
  zone_checksum sha256_hex z1 = zone_checksum sha256_hex z2.
Proof.
  intros Hn Ht Hs Hns Hr. unfold zone_checksum. f_equal.
  apply export_bind_format_eq; try assumption.
  - now apply soa_fields_of_records.
  - now apply other_fields_of_records.
Qed.

Lemma checksum_ignores_ids_and_ns_witness :
  zone_checksum (fun text => text) sample_zone
  = zone_checksum (fun text => text)
      (Zone.mk "example.com" 3600 2024060701 default_nameservers
         (map fields (filter not_ns (Zone.records sample_zone))) None).
Proof.
  apply (checksum_ignores_ids_and_ns (fun text => text) sample_zone);
    reflexivity.
Defined.

Lemma rstrip_dots_snoc s : rstrip_dots (s ++ ".") = rstrip_dots s.
Proof.
  induction s as [|c s IH]; [reflexivity|]. simpl. now rewrite IH.
Qed.

Lemma is_token_snoc_dot t : is_token t = true -> is_token (t ++ ".") = true.
Proof.
  unfold is_token. rewrite !andb_true_iff. intros [Hne Hall]. split.
  - now destruct t.
  - now rewrite forallb_str_app, Hall.
Qed.

(** The [$ORIGIN] line of an export, for a zone name without white space. *)
Lemma import_line_origin_token st name :
  is_token name = true ->
  import_line st (("$ORIGIN" ++ String " " (name ++ ".")) ++ NL)
  = Ok {| st_zone_name := name_or (st_zone_name st) (rstrip_dots name);
          st_default_ttl := st_default_ttl st;
          st_records := st_records st;
          st_origin := Some (rstrip_dots name) |}.
Proof.
  intros Hn.
  destruct (token_line_facts "$ORIGIN" " " (name ++ ".") ";")
    as (H1 & H2 & H3); try reflexivity.
  destruct (token_line_facts "$ORIGIN" " " (name ++ ".") "$ORIGIN")
    as (_ & H4 & _); try reflexivity.
  unfold import_line. rewrite H1, H2, H4, H3.
  rewrite split_ws_token by now apply is_token_snoc_dot.
  cbn. now rewrite rstrip_dots_snoc.
Qed.

Lemma import_header_named zone :
  0 <= Zone.ttl zone -> printable (Zone.ttl zone) = true ->
  is_token (Zone.name zone) = true ->
  import_lines initial_state (with_newlines (header_lines zone))
  = Ok {| st_zone_name := Some (rstrip_dots (Zone.name zone));
          st_default_ttl := Zone.ttl zone;
          st_records := [];
          st_origin := Some (rstrip_dots (Zone.name zone)) |}.
Proof.
  intros Hz Hlim Hn. unfold header_lines. rewrite !with_newlines_cons.
  rewrite (import_lines_cons _ _ _ _
             (import_line_comment _ ("Zone file for " ++ Zone.name zone))).
  rewrite (import_lines_cons _ _ _ _
             (import_line_comment _ "Generated by blackroad-zone-manager")).
  rewrite (import_lines_cons _ _ _ _
             (import_line_origin_token initial_state _ Hn)).
  rewrite (import_lines_cons _ _ _ _ (import_line_ttl _ _ Hz Hlim)).
  rewrite (import_lines_cons _ _ _ _ (import_line_blank _)).
  reflexivity.
Qed.

(** The zone that the import of an export returns. *)
Lemma import_export_zone zone path stem serial :
  expressible_zone zone = true -> printable_zone zone = true ->
  is_token (Zone.name zone) = true ->
  import_zone_file path (Some (export_text zone)) stem serial None
  = (Ok (Zone.mk (rstrip_dots (Zone.name zone)) (Zone.ttl zone) serial
                 default_nameservers
                 (map (ns_record zone) (Zone.nameservers zone)
                  ++ map fields (sort_by_key (other_records zone)))
                 None),
     None).
Proof.
  intros H Hlim Hname. pose proof (one_line_export_lines zone H) as Hlines.
  apply expressible_zone_inv in H.
  destruct H as (Hn & Ht & Hns & Hsoa & Hoth).
  apply printable_zone_inv in Hlim.
  destruct Hlim as (Hlt & _ & Hlsoa & Hloth).
  unfold import_zone_file, export_text.
  rewrite file_lines_join;
    [|unfold export_lines, header_lines; discriminate | exact Hlines].
  fold (with_newlines (export_lines zone)).
  unfold export_lines. rewrite !with_newlines_app.
  rewrite import_lines_app, import_header_named by assumption. cbn [bind].
  rewrite import_lines_app, import_lines_soa by assumption. cbn [bind].
  rewrite import_lines_app, with_newlines_cons.
  rewrite (import_lines_cons _ _ _ _ (import_line_blank _)).
  cbn [with_newlines map import_lines bind].
  fold (with_newlines (map (ns_line zone) (Zone.nameservers zone))).
  rewrite import_lines_app, import_lines_ns by assumption. cbn [bind].
  rewrite import_lines_app.
  rewrite (import_lines_cons _ _ _ _ (import_line_blank _)).
  cbn [import_lines bind].
  fold (with_newlines (map record_line (sort_by_key (other_records zone)))).
  rewrite import_lines_records;
    [reflexivity
    | now apply forallb_sort_by_key
    | exact Hloth
    | apply forallb_sort_by_key, other_records_not_soa].
Qed.

Lemma sort_by_key_sorted_id l :
  StronglySorted record_le l -> sort_by_key l = l.
Proof.
  induction 1 as [|x l Hs IH Hall]; [reflexivity|]. simpl. rewrite IH.
  destruct l as [|y l]; [reflexivity|]. simpl.
  inversion Hall as [|? ? Hxy _]; subst.
  apply key_le_pair_le in Hxy. now rewrite Hxy.
Qed.

Lemma filter_all {A} (p : A -> bool) l :
  (forall x, In x l -> p x = true) -> filter p l = l.
Proof.
  intros H. induction l as [|x l IH]; [reflexivity|]. simpl.
  rewrite (H x) by now left. rewrite IH; [reflexivity|].
  intros y Hy. apply H. now right.
Qed.

Lemma filter_none {A} (p : A -> bool) l :
  (forall x, In x l -> p x = false) -> filter p l = [].
Proof.
  intros H. induction l as [|x l IH]; [reflexivity|]. simpl.
  rewrite (H x) by now left. apply IH. intros y Hy. apply H. now right.
Qed.

Lemma in_sorted_others zone r :
  In r (map fields (sort_by_key (other_records zone))) ->
  str_in (DnsRecord.record_type r) ["SOA"; "NS"] = false.
Proof.
  intros H. apply in_map_iff in H. destruct H as (x & <- & Hx).
  apply (Permutation_in _ (Permutation_sym (sort_by_key_perm _))) in Hx.
  unfold other_records in Hx. apply filter_In in Hx.
  destruct Hx as [_ Hx]. now apply negb_true_iff in Hx.
Qed.

(** X21.  The checksum survives a round trip through a zone file: for a
    zone of ASCII text whose integers are within the conversion limit and
    that the grammar can express, with a name without white space or final
    dot, without SOA records of its own and with the default name servers,
    the export returns a text, and importing that text (on the same serial)
    returns a zone whose export is the same text and whose checksum is the
    same, although its record list differs. *)
Theorem checksum_survives_roundtrip sha256_hex zone path stem :
  ascii_zone zone = true ->
  printable_zone zone = true ->
  expressible_zone zone = true ->
  is_token (Zone.name zone) = true ->
  rstrip_dots (Zone.name zone) = Zone.name zone ->
  soa_records zone = [] ->
  Zone.nameservers zone = default_nameservers ->
  exists text zone',
    export_bind_format zone = Ok text
    /\ import_zone_file path (Some text) stem (Zone.serial zone) None
       = (Ok zone', None)
    /\ export_bind_format zone' = Ok text
    /\ zone_checksum sha256_hex zone' = zone_checksum sha256_hex zone
    /\ zone_checksum sha256_hex zone = Ok (sha256_hex text).
Proof.
  intros _ Hlim Hex Hname Hdots Hsoa Hns.
  pose proof (export_printable zone Hlim) as Hok.
  exists (export_text zone). eexists.
  split; [exact Hok|].
  split; [now apply import_export_zone|].
  assert (Hexp : export_bind_format
                   (Zone.mk (rstrip_dots (Zone.name zone)) (Zone.ttl zone)
                      (Zone.serial zone) default_nameservers
                      (map (ns_record zone) (Zone.nameservers zone)
                       ++ map fields (sort_by_key (other_records zone)))
                      None)
                 = export_bind_format zone).
  { apply export_bind_format_eq; cbn [Zone.name Zone.ttl Zone.serial
                                      Zone.nameservers].
    - exact Hdots.
    - reflexivity.
    - reflexivity.
    - now rewrite Hns.
    - rewrite Hsoa. unfold soa_records. cbn [Zone.records].
      rewrite filter_app, !filter_none; [reflexivity | |].
      + intros r Hr. apply in_sorted_others in Hr. unfold is_type.
        destruct (String.eqb_spec (DnsRecord.record_type r) "SOA") as [E|_];
          [|reflexivity].
        rewrite E in Hr. discriminate Hr.
      + intros r Hr. apply in_map_iff in Hr. now destruct Hr as (ns & <- & _).
    - unfold other_records at 1. cbn [Zone.records]. rewrite filter_app.
      rewrite filter_none, filter_all.
      + rewrite app_nil_l, sort_by_key_fields.
        rewrite (sort_by_key_sorted_id _ (sort_by_key_sorted _)).
        rewrite map_map. apply map_ext. reflexivity.
      + intros r Hr. apply negb_true_iff. now apply in_sorted_others in Hr.
      + intros r Hr. apply in_map_iff in Hr. now destruct Hr as (ns & <- & _). }
  split; [now rewrite Hexp|].
  unfold zone_checksum. rewrite Hexp, Hok. split; reflexivity.
Qed.

Lemma checksum_survives_roundtrip_witness :
  let zone :=
    Zone.mk "example.com" 3600 2024060701 default_nameservers
      [ DnsRecord.mk "MX" "@" "mail.example.com." 300 (Some 10) (Some 1);
        DnsRecord.mk "A" "www" "192.0.2.1" 300 None (Some 2);
        DnsRecord.mk "TXT" "@" "v=spf1 ~all" 300 None None ] (Some 1) in
  exists text zone',
    export_bind_format zone = Ok text
    /\ import_zone_file "z.zone" (Some text) "z" (Zone.serial zone) None
       = (Ok zone', None)
    /\ export_bind_format zone' = Ok text
    /\ zone_checksum (fun text => text) zone'
       = zone_checksum (fun text => text) zone
    /\ zone_checksum (fun text => text) zone = Ok text.
Proof.
  intro zone.
  apply (checksum_survives_roundtrip (fun text => text) zone "z.zone" "z");
    vm_compute; reflexivity.
Defined.

(* order independence *)

Lemma NoDup_map_in_eq {A B} (f : A -> B) l x y :
  NoDup (map f l) -> In x l -> In y l -> f x = f y -> x = y.
Proof.
  induction l as [|a l IH]; [intros _ []|]. simpl.
  intros Hnd Hx Hy E. inversion Hnd as [|? ? Ha Hl]; subst.
  destruct Hx as [<-|Hx], Hy as [<-|Hy]; auto.
  - exfalso. apply Ha. rewrite E. now apply in_map.
  - exfalso. apply Ha. rewrite <- E. now apply in_map.
Qed.

Lemma sorted_perm_unique l1 l2 :
  StronglySorted record_le l1 -> StronglySorted record_le l2 ->
  Permutation l1 l2 -> NoDup (map sort_key l1) -> l1 = l2.
Proof.
  intros H1. revert l2.
  induction H1 as [|x l1 Hs1 IH Hall1]; intros l2 H2 Hp Hnd.
  - apply Permutation_nil in Hp. now subst.
  - destruct l2 as [|y l2];
      [apply Permutation_sym, Permutation_nil in Hp; discriminate|].
    inversion H2 as [|? ? Hs2 Hall2]; subst.
    assert (Hxy : x = y).
    { assert (Hx : In x (y :: l2))
        by (eapply Permutation_in; [exact Hp | now left]).
      assert (Hy : In y (x :: l1))
        by (eapply Permutation_in; [apply Permutation_sym, Hp | now left]).
      destruct Hx as [E|Hx]; [now symmetry|].
      destruct Hy as [E|Hy]; [exact E|].
      rewrite Forall_forall in Hall1, Hall2.
      apply (NoDup_map_in_eq sort_key (x :: l1)); auto;
        [now left | now right |].
      apply pair_le_antisym; [apply Hall1, Hy | apply Hall2, Hx]. }
    subst y. f_equal. apply IH; [exact Hs2 | | ].
    + eapply Permutation_cons_inv; eassumption.
    + now inversion Hnd.
Qed.

(** X22.  The checksum does not depend on the order in which the records
    were added, as long as no two of the exported records share type and
    name: two zones with the same name, ttl, serial, name servers and SOA
    records whose other records are the same up to order have the same
    export and the same checksum. *)
Theorem checksum_ignores_record_order sha256_hex z1 z2 :
  Zone.name z1 = Zone.name z2 -> Zone.ttl z1 = Zone.ttl z2 ->
  Zone.serial z1 = Zone.serial z2 ->
  Zone.nameservers z1 = Zone.nameservers z2 ->
  soa_records z1 = soa_records z2 ->
  Permutation (other_records z1) (other_records z2) ->
  NoDup (map sort_key (other_records z1)) ->
  export_bind_format z1 = export_bind_format z2
  /\ zone_checksum sha256_hex z1 = zone_checksum sha256_hex z2.
Proof.
  intros Hn Ht Hs Hns Hsoa Hp Hnd.
  assert (Hexp : export_bind_format z1 = export_bind_format z2).
  { apply export_bind_format_eq; try assumption.
    - now rewrite Hsoa.
    - f_equal. apply sorted_perm_unique; try apply sort_by_key_sorted.
      + eapply perm_trans; [apply Permutation_sym, sort_by_key_perm|].
        eapply perm_trans; [exact Hp | apply sort_by_key_perm].
      + eapply Permutation_NoDup; [|exact Hnd].
        apply Permutation_map, sort_by_key_perm. }
  split; [exact Hexp|]. unfold zone_checksum. now rewrite Hexp.
Qed.

Lemma checksum_ignores_record_order_witness :
  let a := DnsRecord.mk "A" "www" "192.0.2.1" 300 None None in
  let b := DnsRecord.mk "MX" "@" "mail.example.com." 300 (Some 10) None in
  export_bind_format (Zone.with_records empty_zone [a; b])
  = export_bind_format (Zone.with_records empty_zone [b; a])
  /\ zone_checksum (fun text => text) (Zone.with_records empty_zone [a; b])
     = zone_checksum (fun text => text) (Zone.with_records empty_zone [b; a]).
Proof.
  intros a b.
  apply (checksum_ignores_record_order (fun text => text)
           (Zone.with_records empty_zone [a; b])
           (Zone.with_records empty_zone [b; a])); try reflexivity.
  - apply perm_swap.
  - repeat constructor; simpl; intuition discriminate.
Defined.

(* ------------------------------------------------------------------ *)
(** ** sync_with_provider: what the summary holds *)
(* ------------------------------------------------------------------ *)

(** The whole summary on a supported provider. *)
Lemma sync_supported_summary zone provider dry_run :
  str_in provider ["cloudflare"; "route53"; "digitalocean"] = true ->
  sync_with_provider zone provider dry_run
  = [ ("provider", PStr provider); ("zone", PStr (Zone.name zone));
      ("dry_run", PBool dry_run);
      ("records_to_create",
       PList (map (fun kv => create_entry (snd kv)) (existing_stub zone)));
      ("records_to_update", PList []); ("records_to_delete", PList []);
      ("errors", PList []);
      ("total_changes",
       PInt (Z.of_nat (List.length (existing_stub zone)))) ].
Proof.
  intros Hp. unfold sync_with_provider. rewrite Hp. cbn [negb].
  rewrite fold_create_entries. cbn [app].
  cbn -[Z.add Z.of_nat]. rewrite length_map.
  do 10 f_equal. lia.
Qed.

(** X23.  The [dry_run] flag is only echoed: whatever the zone and the
    provider, the summary for one value of the flag is the summary for the
    other with the entry "dry_run" replaced, so the function proposes the
    same changes and applies none in either case. *)
Theorem sync_dry_run_only_echoed zone provider dry_run dry_run' :
  sync_with_provider zone provider dry_run'
  = dict_set (sync_with_provider zone provider dry_run) "dry_run"
             (PBool dry_run').
Proof.
  destruct (str_in provider ["cloudflare"; "route53"; "digitalocean"]) eqn:Hp.
  - now rewrite !sync_supported_summary by exact Hp.
  - unfold sync_with_provider. rewrite Hp. reflexivity.
Qed.

(** X24.  On a supported provider, for a zone in which no two A, AAAA or
    CNAME records share type and name, the summary proposes the creation of
    exactly these records, in the order of the zone, with their type, name,
    value and ttl; it proposes no update and no deletion, reports no error,
    and counts the proposed creations as the total. *)
Theorem sync_proposes_only_creations zone provider dry_run :
  str_in provider ["cloudflare"; "route53"; "digitalocean"] = true ->
  NoDup (map stub_key
           (filter (fun r =>
                      str_in (DnsRecord.record_type r) ["A"; "AAAA"; "CNAME"])
                   (Zone.records zone))) ->
  let summary := sync_with_provider zone provider dry_run in
  let candidates :=
    filter (fun r => str_in (DnsRecord.record_type r) ["A"; "AAAA"; "CNAME"])
           (Zone.records zone) in
  dict_get summary "records_to_create"
  = Some (PList (map create_entry candidates))
  /\ dict_get summary "records_to_update" = Some (PList [])
  /\ dict_get summary "records_to_delete" = Some (PList [])
  /\ dict_get summary "errors" = Some (PList [])
  /\ dict_get summary "total_changes"
     = Some (PInt (Z.of_nat (List.length candidates))).
Proof.
  intros Hp Hnd summary candidates. subst summary.
  rewrite sync_supported_summary by exact Hp.
  unfold existing_stub. fold candidates.
  rewrite dict_of_records_nodup by exact Hnd.
  rewrite map_map, length_map. cbn [snd].
  repeat split; reflexivity.
Qed.

Lemma sync_proposes_only_creations_witness :
  let summary := sync_with_provider sample_zone "route53" false in
  let candidates :=
    filter (fun r => str_in (DnsRecord.record_type r) ["A"; "AAAA"; "CNAME"])
           (Zone.records sample_zone) in
  dict_get summary "records_to_create"
  = Some (PList (map create_entry candidates))
  /\ dict_get summary "records_to_update" = Some (PList [])
  /\ dict_get summary "records_to_delete" = Some (PList [])
  /\ dict_get summary "errors" = Some (PList [])
  /\ dict_get summary "total_changes"
     = Some (PInt (Z.of_nat (List.length candidates))).
Proof.
  apply (sync_proposes_only_creations sample_zone "route53" false).
  - reflexivity.
  - vm_compute. repeat constructor; simpl; intuition discriminate.
Defined.

(* ------------------------------------------------------------------ *)
(** ** validate_record: what the patterns accept *)
(* ------------------------------------------------------------------ *)

(** X25.  For a record whose value is ASCII text that does not end in a
    line feed, [validate_record] returns no error exactly when the type is
    one of VALID_TYPES, name and value are not empty, the ttl is not
    negative, an MX or SRV record has a priority, and the value has the
    syntax of its type: for A four pieces between dots, each of one to three
    digits that denote at most 255; for AAAA 2 to 39 hexadecimal digits or
    colons; for CNAME, MX, NS and PTR letters, digits, dots, hyphens and
    underscores; for the other types anything. *)
Theorem validate_record_exact r :
  ascii_text (DnsRecord.value r) = true ->
  chop_newline (DnsRecord.value r) = None ->
  validate_record r = [] <->
  str_in (DnsRecord.record_type r) VALID_TYPES = true
  /\ is_empty (DnsRecord.name r) = false
  /\ is_empty (DnsRecord.value r) = false
  /\ 0 <= DnsRecord.ttl r
  /\ spec_syntax_ok (DnsRecord.record_type r) (DnsRecord.value r) = true
  /\ (str_in (DnsRecord.record_type r) ["MX"; "SRV"] = true ->
      DnsRecord.priority r <> None).
Proof.
  intros Ha Hnl. rewrite (validate_record_spec r Ha Hnl), spec_record_valid_iff.
  rewrite Z.ltb_ge, andb_false_iff.
  destruct (DnsRecord.priority r) as [p|]; cbn [is_none].
  - intuition congruence.
  - destruct (str_in (DnsRecord.record_type r) ["MX"; "SRV"]);
      intuition congruence.
Qed.

Lemma validate_record_exact_witness :
  let r := DnsRecord.mk "A" "www" "192.0.2.001" 300 None None in
  validate_record r = [] <->
  str_in (DnsRecord.record_type r) VALID_TYPES = true
  /\ is_empty (DnsRecord.name r) = false
  /\ is_empty (DnsRecord.value r) = false
  /\ 0 <= DnsRecord.ttl r
  /\ spec_syntax_ok (DnsRecord.record_type r) (DnsRecord.value r) = true
  /\ (str_in (DnsRecord.record_type r) ["MX"; "SRV"] = true ->
      DnsRecord.priority r <> None).
Proof.
  intro r. apply (validate_record_exact r); reflexivity.
Defined.
